(** * Citrix Monitor OData client: a shallow embedding and its properties

    The development follows [citrix_monitor_mcp/client.py] (the query,
    pagination, retry and authentication client) and
    [citrix_monitor_mcp/server.py] with the [tools/*.py] handlers (the
    dispatch boundary).

    Python values decoded from JSON are the inductive [json]; dictionaries
    built by the client ([params], session headers, the process environment)
    are finite maps; the mutable client object, the [requests.Session] it
    owns, the clock and the network are explicit state threaded through a
    small state-and-exception monad. *)

From Stdlib Require Import ZArith List String Ascii Lia Bool.
From stdpp Require Import base option gmap strings list fin_maps pretty.


Open Scope Z_scope.

(** ** Python strings *)

Module PyStr.

(** [str.lower] on the ASCII letters.  Python also lowers non-ASCII
    letters; none of them lowers to a character of the literals compared
    against below (cloud, true, and the region codes), so the comparisons
    agree. *)
Definition lower_ascii (c : ascii) : ascii :=
  let n := nat_of_ascii c in
  if (Nat.leb 65 n && Nat.leb n 90)%bool then ascii_of_nat (n + 32) else c.

Fixpoint lower (s : string) : string :=
  match s with
  | EmptyString => EmptyString
  | String c s' => String (lower_ascii c) (lower s')
  end.

(** [s.rstrip(ch)]: drop every trailing occurrence of the character. *)
Fixpoint rstrip (ch : ascii) (s : string) : string :=
  match s with
  | EmptyString => EmptyString
  | String c s' =>
      match rstrip ch s' with
      | EmptyString => if Ascii.eqb c ch then EmptyString else String c EmptyString
      | r => String c r
      end
  end.

(** [sep.join(parts)]. *)
Fixpoint join (sep : string) (parts : list string) : string :=
  match parts with
  | [] => ""
  | [p] => p
  | p :: ps => p +:+ sep +:+ join sep ps
  end.

(** [s.startswith(p)]. *)
Definition startswith (s p : string) : bool := String.prefix p s.

(** Truth value of a string: the empty string is false. *)
Definition truthy (s : string) : bool :=
  match s with EmptyString => false | _ => true end.

(** Truth value of an optional string argument ([str | None]). *)
Definition truthy_opt (o : option string) : bool :=
  match o with Some s => truthy s | None => false end.

(** [str(b).lower()] for a Python bool. *)
Definition bool_lower (b : bool) : string := if b then "true" else "false".

End PyStr.

(** ** Values decoded from JSON *)

#[local] Set Warnings "-register-all".

(** [response.json()] yields Python values: [None], [bool], [int], [str],
    [list] and [dict] (its items in order, each key once).  Numbers with a
    fraction or an exponent are not represented, and a character of a string
    is a code point below 256.  (An integer of more than 4300 digits does not
    decode under the interpreter's default limit on conversions between
    [int] and [str], so none is met.) *)
Inductive json : Type :=
| JNull
| JBool (b : bool)
| JInt (n : Z)
| JStr (s : string)
| JArr (items : list json)
| JObj (fields : list (string * json)).

Module Json.

(** Python truth value. *)
Definition truthy (v : json) : bool :=
  match v with
  | JNull => false
  | JBool b => b
  | JInt n => negb (n =? 0)
  | JStr s => PyStr.truthy s
  | JArr l => match l with [] => false | _ => true end
  | JObj l => match l with [] => false | _ => true end
  end.

Fixpoint assoc (k : string) (fields : list (string * json)) : option json :=
  match fields with
  | [] => None
  | (k', v) :: rest => if String.eqb k k' then Some v else assoc k rest
  end.

(** *** [repr] and [str]

    A character of a string is a code point below 256. *)

Definition squote : ascii := ascii_of_nat 39.
Definition dquote : ascii := ascii_of_nat 34.
Definition backslash : ascii := ascii_of_nat 92.

(** [str.isprintable] on one code point below 256: the ASCII characters
    from the space to the tilde, and those from U+00A1 on but the soft
    hyphen U+00AD. *)
Definition printable (n : nat) : bool :=
  ((Nat.leb 32 n && Nat.leb n 126) || (Nat.leb 161 n && negb (Nat.eqb n 173)))%bool.

(** One lower-case hexadecimal digit. *)
Definition hex_digit (n : nat) : ascii :=
  ascii_of_nat (if Nat.ltb n 10 then 48 + n else 87 + n).

(** A character inside the quotes of [repr(s)]. *)
Definition escape (quote c : ascii) : string :=
  let n := nat_of_ascii c in
  if (Ascii.eqb c quote || Ascii.eqb c backslash)%bool
  then String backslash (String c EmptyString)
  else if Nat.eqb n 9 then String backslash "t"
  else if Nat.eqb n 10 then String backslash "n"
  else if Nat.eqb n 13 then String backslash "r"
  else if printable n then String c EmptyString
  else String backslash
         (String "x" (String (hex_digit (n / 16)) (String (hex_digit (n mod 16))
                                                     EmptyString))).

Fixpoint escape_all (quote : ascii) (s : string) : string :=
  match s with
  | EmptyString => EmptyString
  | String c s' => escape quote c +:+ escape_all quote s'
  end.

Fixpoint contains (ch : ascii) (s : string) : bool :=
  match s with
  | EmptyString => false
  | String c s' => (Ascii.eqb c ch || contains ch s')%bool
  end.

(** [repr(s)] for a string: between single quotes, or between double
    quotes when it holds a single quote and no double quote. *)
Definition repr_str (s : string) : string :=
  let quote :=
    if (contains squote s && negb (contains dquote s))%bool then dquote
    else squote in
  String quote (escape_all quote s +:+ String quote EmptyString).

(** [repr(v)]. *)
Fixpoint repr (v : json) : string :=
  match v with
  | JNull => "None"
  | JBool true => "True"
  | JBool false => "False"
  | JInt n => pretty n
  | JStr s => repr_str s
  | JArr items => "[" +:+ PyStr.join ", " (map repr items) +:+ "]"
  | JObj fields =>
      "{" +:+
      PyStr.join ", "
        (map (λ kv, match kv with (k, x) => repr_str k +:+ ": " +:+ repr x end)
           fields) +:+
      "}"
  end.

(** [str(v)], which an f-string interpolates: a string stands for itself,
    every other value for its [repr]. *)
Definition str (v : json) : string :=
  match v with
  | JStr s => s
  | _ => repr v
  end.

End Json.

(** ** Process environment and deployment configuration *)

(** [os.environ]: variable name to value. *)
Abbreviation Env := (gmap string string).

(** [os.getenv(name)] is the lookup [env !! name]; with a default: *)
Definition getenv (env : Env) (name default : string) : string :=
  match env !! name with Some v => v | None => default end.

(** Regional API endpoints for Citrix Cloud: the class attribute
    [CLOUD_ENDPOINTS]. *)
Definition CLOUD_ENDPOINTS : gmap string string :=
  <["jp" := "https://api.citrixcloud.jp"]>
  (<["ap-s" := "https://api-ap-s.cloud.com"]>
  (<["eu" := "https://api-eu.cloud.com"]>
  (<["us" := "https://api-us.cloud.com"]> ∅))).

(** [CLOUD_ENDPOINTS["us"]]; the key is present in the literal. *)
Definition us_endpoint : string := "https://api-us.cloud.com".

(** [CLOUD_ENDPOINTS.get(region, CLOUD_ENDPOINTS["us"])]. *)
Definition cloud_endpoint (region : string) : string :=
  match CLOUD_ENDPOINTS !! region with
  | Some e => e
  | None => us_endpoint
  end.

Definition deployment_type (env : Env) : string :=
  PyStr.lower (getenv env "CITRIX_DEPLOYMENT" "cloud").

Definition is_cloud (env : Env) : bool := String.eqb (deployment_type env) "cloud".

Definition verify_ssl (env : Env) : bool :=
  String.eqb (PyStr.lower (getenv env "CITRIX_VERIFY_SSL" "true")) "true".

(** The region code every cloud URL is derived from. *)
Definition region_code (env : Env) : string :=
  PyStr.lower (getenv env "CITRIX_REGION" "us").

Definition base_url (env : Env) : string :=
  if is_cloud env then
    let region := region_code env in
    let endpoint := cloud_endpoint region in
    endpoint +:+ "/monitorodata"
  else
    let host := PyStr.rstrip "/" (getenv env "CITRIX_DDC_HOST" "") in
    host +:+ "/Citrix/Monitor/OData/v4/Data".

(** ** OData query parameters *)

(** A value of the [params] dictionary: [$top] and [$skip] carry the
    integer as given, the other options are strings. *)
Inductive pval : Type :=
| PStr (s : string)
| PInt (n : Z).

Abbreviation Params := (gmap string pval).

(** Truth value of the optional arguments of [query]. *)
Definition truthy_list (o : option (list string)) : bool :=
  match o with Some (_ :: _) => true | _ => false end.

Definition truthy_int (o : option Z) : bool :=
  match o with Some n => negb (n =? 0) | None => false end.

(** The arguments of [query] after the entity name. *)
Record QueryOpts : Type := mkOpts {
  q_filter : option string;
  q_select : option (list string);
  q_orderby : option string;
  q_top : option Z;
  q_skip : option Z;
  q_expand : option (list string);
  q_count : bool
}.

(** All defaults: [query(entity)]. *)
Definition no_opts : QueryOpts := mkOpts None None None None None None false.

Definition set_if (c : bool) (k : string) (v : pval) (p : Params) : Params :=
  if c then <[k := v]> p else p.

(** The parameter dictionary built at the top of [query]. *)
Definition query_params (o : QueryOpts) : Params :=
  let p : Params := ∅ in
  let p := set_if (PyStr.truthy_opt (q_filter o)) "$filter"
             (PStr (default "" (q_filter o))) p in
  let p := set_if (truthy_list (q_select o)) "$select"
             (PStr (PyStr.join "," (default [] (q_select o)))) p in
  let p := set_if (PyStr.truthy_opt (q_orderby o)) "$orderby"
             (PStr (default "" (q_orderby o))) p in
  let p := set_if (truthy_int (q_top o)) "$top" (PInt (default 0 (q_top o))) p in
  let p := set_if (truthy_int (q_skip o)) "$skip" (PInt (default 0 (q_skip o))) p in
  let p := set_if (truthy_list (q_expand o)) "$expand"
             (PStr (PyStr.join "," (default [] (q_expand o)))) p in
  let p := set_if (q_count o) "$count" (PStr "true") p in
  p.

(** ** Filter assembly of [list_machines] *)

(** The list [filters] after the four conditional appends. *)
Definition list_machines_filters
    (filter registration_state power_state : option string)
    (in_maintenance : option bool) : list string :=
  (if PyStr.truthy_opt filter then [default "" filter] else []) ++
  (if PyStr.truthy_opt registration_state
   then ["CurrentRegistrationState eq '" +:+ default "" registration_state +:+ "'"]
   else []) ++
  (if PyStr.truthy_opt power_state
   then ["CurrentPowerState eq '" +:+ default "" power_state +:+ "'"]
   else []) ++
  (match in_maintenance with
   | Some b => ["IsInMaintenanceMode eq " +:+ PyStr.bool_lower b]
   | None => []
   end).

(** [" and ".join(filters) if filters else None]. *)
Definition combine_filters (filters : list string) : option string :=
  match filters with
  | [] => None
  | _ => Some (PyStr.join " and " filters)
  end.

(** The options [list_machines] passes to [query("Machines", ...)]. *)
Definition list_machines_opts
    (filter registration_state power_state : option string)
    (in_maintenance : option bool) : QueryOpts :=
  let filters :=
    list_machines_filters filter registration_state power_state in_maintenance in
  mkOpts (combine_filters filters) None None None None None false.

(** ** Python [int(...)] *)

Module PyInt.

(** A character of a string is a code point below 256.  Of these, [int]
    drops from both ends of its argument the tab, the line feed, the
    vertical tab, the form feed, the carriage return and the space, and,
    beyond ASCII, U+0085 and U+00A0.  The separators U+001C to U+001F are
    whitespace for [str.isspace] but not for [int]. *)
Definition is_space (c : ascii) : bool :=
  let n := nat_of_ascii c in
  ((Nat.leb 9 n && Nat.leb n 13) || Nat.eqb n 32 || Nat.eqb n 133
   || Nat.eqb n 160)%bool.

Fixpoint lstrip (s : string) : string :=
  match s with
  | String c s' => if is_space c then lstrip s' else s
  | EmptyString => s
  end.

Definition strip (s : string) : string :=
  String.rev (lstrip (String.rev (lstrip s))).

(** The decimal digits below 256 are the ASCII ones. *)
Definition digit (c : ascii) : option Z :=
  let n := nat_of_ascii c in
  if (Nat.leb 48 n && Nat.leb n 57)%bool then Some (Z.of_nat (n - 48)) else None.

(** Digits with single underscores between them; [acc] is the value read
    so far and [after_digit] tells whether the previous character was a
    digit. *)
Fixpoint digits (s : string) (acc : Z) (after_digit : bool) : option Z :=
  match s with
  | EmptyString => if after_digit then Some acc else None
  | String c s' =>
      match digit c with
      | Some d => digits s' (10 * acc + d) true
      | None =>
          if (Ascii.eqb c "_" && after_digit)%bool
          then digits s' acc false
          else None
      end
  end.

(** [sys.get_int_max_str_digits()] as the interpreter starts: a string
    with more digits is refused, whatever its value (leading zeros count,
    the sign, the underscores and the whitespace do not). *)
Definition max_str_digits : nat := 4300.

Fixpoint count_digits (s : string) : nat :=
  match s with
  | EmptyString => O
  | String c s' =>
      match digit c with
      | Some _ => S (count_digits s')
      | None => count_digits s'
      end
  end.

Definition number (s : string) : option Z :=
  if Nat.ltb max_str_digits (count_digits s) then None else digits s 0 false.

(** [int(s)] for a string: surrounding whitespace dropped, an optional
    sign, then decimal digits.  [None]: the call raises [ValueError]. *)
Definition of_string (s : string) : option Z :=
  match strip s with
  | String "-" r => Z.opp <$> number r
  | String "+" r => number r
  | r => number r
  end.

End PyInt.

(** ** Responses, exceptions, the client and its world *)

(** A [requests.Response] as far as the client reads it.  [json_body] is
    what [response.json()] decodes ([None]: the body does not decode and
    the call raises). *)
Record Response : Type := mkResponse {
  status_code : Z;
  text : string;
  json_body : option json
}.

(** Exceptions (subclasses of [Exception]) raised by the client or by the
    libraries under it. *)
Inductive exn : Type :=
| ValueError (msg : string)      (* raise ValueError(msg) *)
| PyException (msg : string)     (* raise Exception(msg) *)
| HTTPError (r : Response)       (* response.raise_for_status() *)
| JSONDecodeError                (* response.json() on a body that does not decode *)
| KeyError (key : string)        (* d[key] with the key missing *)
| TypeError                      (* operation on a value of the wrong type *)
| AttributeError                 (* .get on a value that is not a dict *)
| InvalidLiteral (s : string)    (* the ValueError of int(s) on a string it refuses *)
| InvalidURL                     (* requests refuses the URL before sending *)
| ConnectionError                (* the transport fails *)
| OverflowError.                 (* date arithmetic leaves the range of datetime *)

Inductive result (A : Type) : Type :=
| Ok (a : A)
| Raise (e : exn).
Arguments Ok {A} a.
Arguments Raise {A} e.

(** A [requests.Session] object: the fields the client sets.  The headers
    a fresh session carries by default (User-Agent and the like) are left
    out.  A header may be set to [None]. *)
Record Session : Type := mkSession {
  s_verify : bool;
  s_headers : gmap string (option string);
  s_auth : option (string * string)
}.

(** [requests.Session()]. *)
Definition fresh_session : Session := mkSession true ∅ None.

(** The instance attributes of [CitrixMonitorClient].  [_session] is a
    reference into the store of session objects; [_token] is whatever value
    was assigned last ([JNull] for [None]: the annotation [str | None] is
    not enforced); [_token_expiry] is a [datetime]. *)
Record Client : Type := mkClient {
  _session : option nat;
  _token : json;
  _token_expiry : option Z
}.

(** [CitrixMonitorClient.__init__]. *)
Definition new_client : Client := mkClient None JNull None.

(** What leaves the process, in order. *)
Inductive event : Type :=
| EvTokenPost (url : string) (form : list (string * string)) (verify : bool)
| EvRequest (sess : nat) (method url : string) (params : option Params)
| EvSleep (secs : Z).

(** Everything outside the client object: the clock, given by what it
    reads once [k] events have left the process; the store of
    [requests.Session] objects (a reference is an index); the token
    endpoint, given by the outcome of its n-th exchange, with the number of
    exchanges made so far; the outcomes the transport will give to the coming
    requests to the data endpoint; and the record of what was sent.

    A reading of the clock is a [datetime] without time zone, counted in
    microseconds from [datetime.min], the start of year 1.  The clock stands
    still between two events; how it moves over an event is the world's
    affair: nothing relates the readings before and after a sleep or an
    exchange. *)
Record World : Type := mkWorld {
  clock : nat → Z;
  heap : list Session;
  token_server : nat → result Response;
  token_calls : nat;
  data_script : list (result Response);
  trace : list event
}.

Definition State : Type := Client * World.

(** ** The state-and-exception monad *)

Definition MS (S A : Type) : Type := S → result A * S.

Definition ret {S A} (a : A) : MS S A := λ st, (Ok a, st).
Definition raise {S A} (e : exn) : MS S A := λ st, (Raise e, st).
Definition bind {S A B} (m : MS S A) (k : A → MS S B) : MS S B :=
  λ st, match m st with
        | (Ok a, st') => k a st'
        | (Raise e, st') => (Raise e, st')
        end.

(** Lifting a pure result. *)
Definition lift {S A} (r : result A) : MS S A := λ st, (r, st).

Notation "'let*' x := m 'in' k" := (bind m (λ x, k))
  (at level 10, x name, m at level 100, k at level 200).
Notation "m ;;; k" := (bind m (λ _, k))
  (at level 100, k at level 200, right associativity).

(** Code that runs on a client object in a world. *)
Abbreviation M := (MS State).

Definition get_client : M Client := λ st, (Ok (fst st), st).
Definition put_client (c : Client) : M unit := λ st, (Ok tt, (c, snd st)).

(** *** The world's primitives *)

(** What the clock reads in a world. *)
Definition now (w : World) : Z := clock w (length (trace w)).

(** [datetime.now()]. *)
Definition datetime_now : M Z := λ st, (Ok (now (snd st)), st).

(** [datetime.max], 9999-12-31T23:59:59.999999. *)
Definition datetime_max : Z := 315537897599999999.

(** [timedelta(seconds=s)] for an integer, in microseconds: a duration
    holds at most 999999999 days either way. *)
Definition timedelta_seconds (s : Z) : result Z :=
  if (-86399999913600 <=? s) && (s <=? 86399999999999) then Ok (1000000 * s)
  else Raise OverflowError.

(** [timedelta(days=d)] for an integer, in microseconds. *)
Definition timedelta_days (d : Z) : result Z :=
  if (-999999999 <=? d) && (d <=? 999999999) then Ok (86400000000 * d)
  else Raise OverflowError.

(** [t + delta] and [t - delta] on a [datetime]: the result is a
    [datetime] again, or the operation raises. *)
Definition datetime_add (t delta : Z) : result Z :=
  if (0 <=? t + delta) && (t + delta <=? datetime_max) then Ok (t + delta)
  else Raise OverflowError.

Definition datetime_sub (t delta : Z) : result Z :=
  if (0 <=? t - delta) && (t - delta <=? datetime_max) then Ok (t - delta)
  else Raise OverflowError.

Definition log (e : event) (w : World) : World :=
  mkWorld (clock w) (heap w) (token_server w) (token_calls w) (data_script w)
    (trace w ++ [e]).

(** [time.sleep(secs)]: the sleep is an event; what the clock reads after
    it is up to the world. *)
Definition time_sleep (secs : Z) : M unit :=
  λ st, (Ok tt, (fst st, log (EvSleep secs) (snd st))).

(** [requests.post(url, data=form, headers=..., verify=verify)]: the
    exchange is recorded and the token endpoint gives its next outcome. *)
Definition requests_post (url : string) (form : list (string * string))
    (verify : bool) : M Response :=
  λ st,
    let w := log (EvTokenPost url form verify) (snd st) in
    let res := token_server w (token_calls w) in
    (res, (fst st,
           mkWorld (clock w) (heap w) (token_server w) (S (token_calls w))
             (data_script w) (trace w))).

(** [session.request(method, url, params=params)] on the session object at
    reference [sess]: the request is recorded and the transport gives the
    next scripted outcome; with none left the connection fails.  A URL that
    is not a string is refused by the library before anything is sent. *)
Definition session_request (sess : nat) (method : string) (url : json)
    (params : option Params) : M Response :=
  match url with
  | JStr u =>
      λ st,
        let w := log (EvRequest sess method u params) (snd st) in
        match data_script w with
        | [] => (Raise ConnectionError, (fst st, w))
        | res :: rest =>
            (res, (fst st,
                   mkWorld (clock w) (heap w) (token_server w) (token_calls w)
                     rest (trace w)))
        end
  | _ => raise InvalidURL
  end.

(** [requests.Session()]: a new object in the store; its reference. *)
Definition alloc_session : M nat :=
  λ st,
    let w := snd st in
    (Ok (length (heap w)),
     (fst st,
      mkWorld (clock w) (heap w ++ [fresh_session]) (token_server w)
        (token_calls w) (data_script w) (trace w))).

(** In-place update of the session object behind a reference. *)
Definition update_session (r : nat) (f : Session → Session) : M unit :=
  λ st,
    let w := snd st in
    (Ok tt,
     (fst st,
      mkWorld (clock w) (alter f r (heap w)) (token_server w) (token_calls w)
        (data_script w) (trace w))).

(** [response.raise_for_status()]: client and server error codes raise. *)
Definition is_error_status (s : Z) : bool := (400 <=? s) && (s <? 600).

Definition raise_for_status {S} (r : Response) : MS S unit :=
  if is_error_status (status_code r) then raise (HTTPError r) else ret tt.

(** [response.json()]. *)
Definition response_json {S} (r : Response) : MS S json :=
  match json_body r with
  | Some v => ret v
  | None => raise JSONDecodeError
  end.

(** ** The client *)

(** Python's [str()] of a value that is a string or [None], as an f-string
    interpolates it. *)
Definition str_opt (o : option string) : string :=
  match o with Some s => s | None => "None" end.

(** [all([...])] over values read with [os.getenv]: each is set and not
    empty. *)
Definition all_truthy (l : list (option string)) : bool :=
  forallb PyStr.truthy_opt l.

(** [int(v)] on a decoded value. *)
Definition py_int (v : json) : result Z :=
  match v with
  | JInt n => Ok n
  | JBool b => Ok (if b then 1 else 0)
  | JStr s =>
      match PyInt.of_string s with
      | Some n => Ok n
      | None => Raise (InvalidLiteral s)
      end
  | _ => Raise TypeError
  end.

(** [token_data["access_token"]]: the value under the key, whatever it
    is.  A dict without the key raises [KeyError]; a list, a string or a
    value that cannot be subscripted raises [TypeError]. *)
Definition access_token_of (token_data : json) : result json :=
  match token_data with
  | JObj fields =>
      match Json.assoc "access_token" fields with
      | Some v => Ok v
      | None => Raise (KeyError "access_token")
      end
  | _ => Raise TypeError
  end.

(** [d.get(key, dflt)]; only a dict has the method. *)
Definition dict_get (d : json) (key : string) (dflt : json) : result json :=
  match d with
  | JObj fields => Ok (default dflt (Json.assoc key fields))
  | _ => Raise AttributeError
  end.

(** [int(token_data.get("expires_in", 3600))]. *)
Definition expires_in_of (token_data : json) : result Z :=
  match dict_get token_data "expires_in" (JInt 3600) with
  | Ok raw => py_int raw
  | Raise e => Raise e
  end.

Definition missing_cloud_credentials : string :=
  "Missing cloud credentials. Set CITRIX_CUSTOMER_ID, " +:+
  "CITRIX_CLIENT_ID, and CITRIX_CLIENT_SECRET".

Definition missing_onprem_credentials : string :=
  "Missing on-prem credentials. Set CITRIX_USERNAME and CITRIX_PASSWORD".

(** The guard of [_get_cloud_token]: the cached token is true, an expiry
    is recorded (a [datetime] is always true) and the clock has not
    reached it. *)
Definition token_is_fresh (c : Client) (t : Z) : bool :=
  Json.truthy (_token c) &&
  match _token_expiry c with
  | Some e => t <? e
  | None => false
  end.

Definition token_url (env : Env) (customer_id : option string) : string :=
  cloud_endpoint (region_code env) +:+ "/cctrustoauth2/" +:+ str_opt customer_id
    +:+ "/tokens/clients".

Definition token_form (client_id client_secret : option string)
    : list (string * string) :=
  [("grant_type", "client_credentials");
   ("client_id", str_opt client_id);
   ("client_secret", str_opt client_secret)].

(** [f"CWSAuth bearer={token}"]. *)
Definition auth_header (token : json) : option string :=
  Some ("CWSAuth bearer=" +:+ Json.str token).

Definition set_header (k : string) (v : option string) (s : Session) : Session :=
  mkSession (s_verify s) (<[k := v]> (s_headers s)) (s_auth s).

Definition set_verify (b : bool) (s : Session) : Session :=
  mkSession b (s_headers s) (s_auth s).

Definition set_auth (a : string * string) (s : Session) : Session :=
  mkSession (s_verify s) (s_headers s) (Some a).

(** [results.extend(v)]: the elements iterating [v] yields; a list yields
    its items, a string its characters, a dict its keys, and nothing else
    is iterable. *)
Definition py_iter (v : json) : result (list json) :=
  match v with
  | JArr items => Ok items
  | JStr s => Ok (map (λ c, JStr (String c EmptyString)) (list_ascii_of_string s))
  | JObj fields => Ok (map (λ kv, JStr (fst kv)) fields)
  | _ => Raise TypeError
  end.

(** The key of [query_single]: [str | int], interpolated with [str()]. *)
Inductive key : Type :=
| KStr (s : string)
| KInt (n : Z).

Definition str_key (k : key) : string :=
  match k with KStr s => s | KInt n => pretty n end.

(** [params or None] for the dictionary [query_single] builds. *)
Definition single_params (expand : option (list string)) : option Params :=
  if truthy_list expand
  then Some (<["$expand" := PStr (PyStr.join "," (default [] expand))]> ∅)
  else None.

(** What one page of [query] reads from a response after the status check:
    the records to append and the next value of [url]. *)
Definition read_page {S} (response : Response) : MS S (list json * json) :=
  raise_for_status response ;;;
  let* data := response_json response in
  let* v := lift (dict_get data "value" (JArr [])) in
  let* items := lift (py_iter v) in
  let* next := lift (dict_get data "@odata.nextLink" JNull) in
  ret (items, next).

Section Client.

Variable env : Env.

Definition _get_cloud_token : M json :=
  let* c := get_client in
  let* t := datetime_now in
  if token_is_fresh c t then ret (_token c)
  else
    let customer_id := env !! "CITRIX_CUSTOMER_ID" in
    let client_id := env !! "CITRIX_CLIENT_ID" in
    let client_secret := env !! "CITRIX_CLIENT_SECRET" in
    if negb (all_truthy [customer_id; client_id; client_secret])
    then raise (ValueError missing_cloud_credentials)
    else
      let* response :=
        requests_post (token_url env customer_id)
          (token_form client_id client_secret) (verify_ssl env) in
      raise_for_status response ;;;
      let* token_data := response_json response in
      let* tok := lift (access_token_of token_data) in
      let* c := get_client in
      put_client (mkClient (_session c) tok (_token_expiry c)) ;;;
      let* expires_in := lift (expires_in_of token_data) in
      let* t' := datetime_now in
      let* delta := lift (timedelta_seconds (expires_in - 300)) in
      let* expiry := lift (datetime_add t' delta) in
      let* c := get_client in
      put_client (mkClient (_session c) (_token c) (Some expiry)) ;;;
      let* c := get_client in
      ret (_token c).

(** The [session] property; the value is the reference to the object. *)
Definition session : M nat :=
  let* c := get_client in
  match _session c with
  | Some r => ret r
  | None =>
      let* r := alloc_session in
      put_client (mkClient (Some r) (_token c) (_token_expiry c)) ;;;
      update_session r (set_verify (verify_ssl env)) ;;;
      (if is_cloud env then
         let* token := _get_cloud_token in
         let customer_id := env !! "CITRIX_CUSTOMER_ID" in
         update_session r
           (λ s, set_header "Accept" (Some "application/json")
                   (set_header "Citrix-CustomerId" customer_id
                      (set_header "Authorization" (auth_header token) s)))
       else
         let domain := getenv env "CITRIX_DOMAIN" "" in
         let username := getenv env "CITRIX_USERNAME" "" in
         let password := getenv env "CITRIX_PASSWORD" "" in
         if negb (all_truthy [Some username; Some password])
         then raise (ValueError missing_onprem_credentials)
         else
           update_session r (set_auth (domain +:+ "\" +:+ username, password)) ;;;
           update_session r (set_header "Accept" (Some "application/json"))) ;;;
      ret r
  end.

Definition _refresh_cloud_session : M unit :=
  if is_cloud env then
    let* token := _get_cloud_token in
    let* r := session in
    update_session r (set_header "Authorization" (auth_header token))
  else ret tt.

(** The [for attempt in range(max_retries)] loop from [attempt] on, with
    [remaining] iterations left. *)
Fixpoint retry_loop (method : string) (url : json) (params : option Params)
    (max_retries : nat) (remaining : nat) (attempt : Z) : M Response :=
  match remaining with
  | O => raise (PyException
                  ("Rate limited after " +:+ pretty max_retries +:+ " retries"))
  | S remaining' =>
      (if is_cloud env then _refresh_cloud_session else ret tt) ;;;
      let* r := session in
      let* response := session_request r method url params in
      if status_code response =? 429 then
        let wait_time := 5 * (attempt + 1) in
        time_sleep wait_time ;;;
        retry_loop method url params max_retries remaining' (attempt + 1)
      else ret response
  end.

Definition _request_with_retry (method : string) (url : json)
    (max_retries : nat) (params : option Params) : M Response :=
  retry_loop method url params max_retries max_retries 0.

(** The [while url:] loop of [query].  [fuel] bounds the number of
    iterations; [None] means the bound was reached. *)
Fixpoint query_loop (fuel : nat) (url : json) (params : option Params)
    (results : list json) (st : State) : option (result (list json) * State) :=
  if negb (Json.truthy url) then Some (Ok results, st)
  else
    match fuel with
    | O => None
    | S fuel' =>
        match _request_with_retry "GET" url 3 params st with
        | (Raise e, st1) => Some (Raise e, st1)
        | (Ok response, st1) =>
            match read_page response st1 with
            | (Raise e, st2) => Some (Raise e, st2)
            | (Ok (items, next), st2) =>
                query_loop fuel' next None (results ++ items) st2
            end
        end
    end.

(** Every iteration that goes on consumes a scripted outcome, so this
    many iterations are enough: the loop never reaches the bound (lemma
    [query_terminates] below). *)
Definition query_fuel (st : State) : nat := S (length (data_script (snd st))).

Definition query (entity : string) (opts : QueryOpts) : M (list json) :=
  λ st,
    let params := query_params opts in
    let url := JStr (base_url env +:+ "/" +:+ entity) in
    match query_loop (query_fuel st) url (Some params) [] st with
    | Some out => out
    | None => (Raise ConnectionError, st)
    end.

(** The value is [JNull] for Python's [None]. *)
Definition query_single (entity : string) (k : key)
    (expand : option (list string)) : M json :=
  let url := JStr (base_url env +:+ "/" +:+ entity +:+ "(" +:+ str_key k +:+ ")") in
  let* response := _request_with_retry "GET" url 3 (single_params expand) in
  if status_code response =? 404 then ret JNull
  else
    raise_for_status response ;;;
    response_json response.

Definition aggregate (entity apply : string) : M json :=
  let url := JStr (base_url env +:+ "/" +:+ entity) in
  let params : Params := <["$apply" := PStr apply]> ∅ in
  let* response := _request_with_retry "GET" url 3 (Some params) in
  raise_for_status response ;;;
  response_json response.

Definition get_count (entity : string) (filter : option string) : M Z :=
  let url := JStr (base_url env +:+ "/" +:+ entity +:+ "/$count") in
  let params : option Params :=
    if PyStr.truthy_opt filter
    then Some (<["$filter" := PStr (default "" filter)]> ∅)
    else None in
  let* response := _request_with_retry "GET" url 3 params in
  raise_for_status response ;;;
  match PyInt.of_string (text response) with
  | Some n => ret n
  | None => raise (InvalidLiteral (text response))
  end.

Definition list_machines (filter registration_state power_state : option string)
    (in_maintenance : option bool) : M (list json) :=
  query "Machines"
    (list_machines_opts filter registration_state power_state in_maintenance).

End Client.

(** ** The dispatch boundary ([server.py] and [tools/*.py]) *)

(** [mcp.types.TextContent]. *)
Record TextContent : Type := mkText {
  tc_type : string;
  tc_text : string
}.

(** The module-level [_client] of [client.py] together with the world. *)
Definition GState : Type := option Client * World.

(** [get_client()]: the global instance, created on first use. *)
Definition get_global_client : MS GState unit :=
  λ st, (Ok tt, (Some (default new_client (fst st)), snd st)).

(** A method call on the global client object, which it may mutate. *)
Definition on_client {A} (m : M A) : MS GState A :=
  λ st,
    match m (default new_client (fst st), snd st) with
    | (r, (c', w')) => (r, (Some c', w'))
    end.

(** [arguments.get(k)] and [arguments.get(k, dflt)] on the argument dict. *)
Definition arg (arguments : list (string * json)) (k : string) : json :=
  default JNull (Json.assoc k arguments).

Definition arg_or (arguments : list (string * json)) (k : string) (dflt : json)
    : json :=
  default dflt (Json.assoc k arguments).

Definition unknown_tool (name : string) : string := "Unknown tool: " +:+ name.

Section Dispatch.

(** The handlers hand whatever [arguments.get] returns to the client's
    methods, unchecked; [client_method m args] is the method [m] of the
    client called with these values. *)
Variable client_method : string → list json → M json.

(** [json.dumps(v, indent=2, default=str)]. *)
Variable json_dumps : json → string.

(** [str(e)] for an exception raised by a library. *)
Variable lib_message : exn → string.

(** [str(v)] for a list or a dict. *)
Variable py_repr : json → string.

Definition call (m : string) (args : list json) : MS GState json :=
  on_client (client_method m args).

(** An f-string's interpolation of a decoded value. *)
Definition py_str (v : json) : string :=
  match v with
  | JStr s => s
  | JNull => "None"
  | JBool true => "True"
  | JBool false => "False"
  | JInt n => pretty n
  | _ => py_repr v
  end.

Definition machines_handle_tool (name : string) (arguments : list (string * json))
    : MS GState json :=
  get_global_client ;;;
  if String.eqb name "citrix_machine_list" then
    call "list_machines"
      [arg arguments "filter"; arg arguments "registration_state";
       arg arguments "power_state"; arg arguments "in_maintenance"]
  else if String.eqb name "citrix_machine_status" then
    let machine_id := arg arguments "machine_id" in
    let name_arg := arg arguments "name" in
    if Json.truthy machine_id then call "get_machine" [machine_id]
    else if Json.truthy name_arg then call "get_machine_by_name" [name_arg]
    else raise (ValueError "Either machine_id or name is required")
  else if String.eqb name "citrix_machine_metrics" then
    call "get_machine_metrics" [arg arguments "machine_id"; arg arguments "name"]
  else if String.eqb name "citrix_machine_failures" then
    call "get_machine_failures" [arg arguments "machine_id"; arg arguments "name"]
  else raise (ValueError (unknown_tool name)).

Definition sessions_handle_tool (name : string) (arguments : list (string * json))
    : MS GState json :=
  get_global_client ;;;
  if String.eqb name "citrix_session_list" then
    call "list_sessions"
      [arg arguments "filter"; arg_or arguments "active_only" (JBool false);
       arg arguments "user_name"; arg arguments "machine_name"]
  else if String.eqb name "citrix_session_details" then
    let session_key := arg arguments "session_key" in
    if negb (Json.truthy session_key)
    then raise (ValueError "session_key is required")
    else call "get_session" [session_key]
  else if String.eqb name "citrix_session_logon_metrics" then
    let session_key := arg arguments "session_key" in
    if negb (Json.truthy session_key)
    then raise (ValueError "session_key is required")
    else call "get_logon_metrics" [session_key]
  else if String.eqb name "citrix_session_count" then
    let filter_expr := arg arguments "filter" in
    let filter_expr :=
      if Json.truthy (arg arguments "active_only") then
        if Json.truthy filter_expr
        then JStr ("(" +:+ py_str filter_expr +:+ ") and EndDate eq null")
        else JStr "EndDate eq null"
      else filter_expr in
    let* n := call "get_count" [JStr "Sessions"; filter_expr] in
    ret (JObj [("count", n)])
  else raise (ValueError (unknown_tool name)).

Definition connections_handle_tool (name : string)
    (arguments : list (string * json)) : MS GState json :=
  get_global_client ;;;
  if String.eqb name "citrix_connection_list" then
    call "list_connections" [arg arguments "filter"; arg arguments "session_key"]
  else if String.eqb name "citrix_connection_failures" then
    call "get_connection_failures"
      [arg arguments "filter"; arg arguments "delivery_group";
       arg_or arguments "days" (JInt 7)]
  else if String.eqb name "citrix_failure_summary" then
    call "get_failure_summary"
      [arg arguments "delivery_group"; arg_or arguments "days" (JInt 7)]
  else raise (ValueError (unknown_tool name)).

Definition applications_handle_tool (name : string)
    (arguments : list (string * json)) : MS GState json :=
  get_global_client ;;;
  if String.eqb name "citrix_app_list" then
    call "list_applications" [arg arguments "filter"]
  else if String.eqb name "citrix_app_instances" then
    call "list_app_instances"
      [arg arguments "app_id"; arg arguments "app_name";
       arg_or arguments "active_only" (JBool false)]
  else if String.eqb name "citrix_app_errors" then
    call "get_app_errors" [arg arguments "app_name"; arg_or arguments "days" (JInt 7)]
  else raise (ValueError (unknown_tool name)).

Definition users_handle_tool (name : string) (arguments : list (string * json))
    : MS GState json :=
  get_global_client ;;;
  if String.eqb name "citrix_user_list" then
    call "list_users" [arg arguments "filter"]
  else if String.eqb name "citrix_user_details" then
    let user_id := arg arguments "user_id" in
    let username := arg arguments "username" in
    if Json.truthy user_id then call "get_user" [user_id]
    else if Json.truthy username then call "get_user_by_name" [username]
    else raise (ValueError "Either user_id or username is required")
  else if String.eqb name "citrix_user_sessions" then
    call "get_user_sessions" [arg arguments "user_id"; arg arguments "username"]
  else raise (ValueError (unknown_tool name)).

Definition analytics_handle_tool (name : string) (arguments : list (string * json))
    : MS GState json :=
  get_global_client ;;;
  if String.eqb name "citrix_query_raw" then
    let entity := arg arguments "entity" in
    if negb (Json.truthy entity) then raise (ValueError "entity is required")
    else
      call "query"
        [entity; arg arguments "filter"; arg arguments "select";
         arg arguments "orderby"; arg arguments "top"; arg arguments "expand"]
  else if String.eqb name "citrix_delivery_groups" then
    call "list_delivery_groups" []
  else if String.eqb name "citrix_hypervisors" then
    call "list_hypervisors" []
  else if String.eqb name "citrix_load_index" then
    call "get_load_indexes" [arg arguments "machine_id"; arg arguments "machine_name"]
  else if String.eqb name "citrix_entity_count" then
    let entity := arg arguments "entity" in
    if negb (Json.truthy entity) then raise (ValueError "entity is required")
    else
      let* n := call "get_count" [entity; arg arguments "filter"] in
      ret (JObj [("entity", entity); ("count", n)])
  else if String.eqb name "citrix_aggregate" then
    let entity := arg arguments "entity" in
    let apply := arg arguments "apply" in
    if (negb (Json.truthy entity) || negb (Json.truthy apply))%bool
    then raise (ValueError "entity and apply are required")
    else call "aggregate" [entity; apply]
  else raise (ValueError (unknown_tool name)).

(** The routing by name prefix inside the [try] of [call_tool]. *)
Definition route (name : string) (arguments : list (string * json))
    : MS GState json :=
  if PyStr.startswith name "citrix_machine" then
    machines_handle_tool name arguments
  else if PyStr.startswith name "citrix_session" then
    sessions_handle_tool name arguments
  else if (PyStr.startswith name "citrix_connection"
           || PyStr.startswith name "citrix_failure")%bool then
    connections_handle_tool name arguments
  else if PyStr.startswith name "citrix_app" then
    applications_handle_tool name arguments
  else if PyStr.startswith name "citrix_user" then
    users_handle_tool name arguments
  else analytics_handle_tool name arguments.

Definition format_result (v : json) : string := json_dumps v.

(** [str(e)]. *)
Definition str_exn (e : exn) : string :=
  match e with
  | ValueError msg => msg
  | PyException msg => msg
  | _ => lib_message e
  end.

Definition error_payload (e : exn) : json := JObj [("error", JStr (str_exn e))].

(** [call_tool]: the [try] with its [except Exception]. *)
Definition call_tool (name : string) (arguments : list (string * json))
    (st : GState) : list TextContent * GState :=
  match route name arguments st with
  | (Ok result, st') => ([mkText "text" (format_result result)], st')
  | (Raise e, st') => ([mkText "text" (format_result (error_payload e))], st')
  end.

End Dispatch.

(** The names registered by the six [get_tools]. *)
Definition tool_names : list string :=
  ["citrix_machine_list"; "citrix_machine_status"; "citrix_machine_metrics";
   "citrix_machine_failures";
   "citrix_session_list"; "citrix_session_details";
   "citrix_session_logon_metrics"; "citrix_session_count";
   "citrix_connection_list"; "citrix_connection_failures";
   "citrix_failure_summary";
   "citrix_app_list"; "citrix_app_instances"; "citrix_app_errors";
   "citrix_user_list"; "citrix_user_details"; "citrix_user_sessions";
   "citrix_query_raw"; "citrix_delivery_groups"; "citrix_hypervisors";
   "citrix_load_index"; "citrix_entity_count"; "citrix_aggregate"].

(** ** Operations on a client, for properties of whole runs *)

(** The methods that touch the client's state or the network.  The other
    public methods of the client (the per-domain listings and lookups) only
    assemble arguments and call [query], [query_single], [get_count] or
    [aggregate], once or twice in sequence. *)
Inductive op : Type :=
| OpSession
| OpGetCloudToken
| OpRefreshCloudSession
| OpRequestWithRetry (method : string) (url : json) (max_retries : nat)
    (params : option Params)
| OpQuery (entity : string) (opts : QueryOpts)
| OpQuerySingle (entity : string) (k : key) (expand : option (list string))
| OpAggregate (entity apply : string)
| OpGetCount (entity : string) (filter : option string)
| OpListMachines (filter registration_state power_state : option string)
    (in_maintenance : option bool).

(** The state an operation leaves, whether it returned or raised. *)
Definition run_op (env : Env) (o : op) (st : State) : State :=
  match o with
  | OpSession => snd (session env st)
  | OpGetCloudToken => snd (_get_cloud_token env st)
  | OpRefreshCloudSession => snd (_refresh_cloud_session env st)
  | OpRequestWithRetry method url max_retries params =>
      snd (_request_with_retry env method url max_retries params st)
  | OpQuery entity opts => snd (query env entity opts st)
  | OpQuerySingle entity k expand => snd (query_single env entity k expand st)
  | OpAggregate entity apply => snd (aggregate env entity apply st)
  | OpGetCount entity filter => snd (get_count env entity filter st)
  | OpListMachines f r p m => snd (list_machines env f r p m st)
  end.

(** A run: operations in sequence, each under the environment it sees. *)
Fixpoint run_ops (ops : list (Env * op)) (st : State) : State :=
  match ops with
  | [] => st
  | (env, o) :: rest => run_ops rest (run_op env o st)
  end.

(** The data requests and the sleeps of a trace, in order. *)
Definition on_wire (e : event) : bool :=
  match e with
  | EvTokenPost _ _ _ => false
  | _ => true
  end.

Definition wire (tr : list event) : list event := List.filter on_wire tr.

Definition is_token_post (e : event) : bool := negb (on_wire e).

(** The number of token exchanges in a trace. *)
Definition token_posts (tr : list event) : nat :=
  length (List.filter is_token_post tr).

(** ** Vocabulary of the statements *)

(** The last character of a string. *)
Fixpoint last_char (s : string) : option ascii :=
  match s with
  | EmptyString => None
  | String c EmptyString => Some c
  | String _ s' => last_char s'
  end.

(** The keys of [CLOUD_ENDPOINTS]. *)
Definition known_regions : list string := ["us"; "eu"; "ap-s"; "jp"].

(** The on-premises OData root path. *)
Definition onprem_root : string := "/Citrix/Monitor/OData/v4/Data".

(** Sample environments. *)
Definition env_cloud_typo : Env := <["CITRIX_REGION" := "mars"]> ∅.
Definition env_onprem : Env :=
  <["CITRIX_DDC_HOST" := "https://ddc.corp"]> (<["CITRIX_DEPLOYMENT" := "onprem"]> ∅).

Definition env_onprem_slash : Env :=
  <["CITRIX_DDC_HOST" := "https://ddc.corp/"]> (<["CITRIX_DEPLOYMENT" := "onprem"]> ∅).
Definition env_cloud_upper : Env := <["CITRIX_REGION" := "EU"]> ∅.

(** *** Authentication that works *)

Definition cloud_credentials (env : Env) : bool :=
  all_truthy [env !! "CITRIX_CUSTOMER_ID"; env !! "CITRIX_CLIENT_ID";
              env !! "CITRIX_CLIENT_SECRET"].

Definition onprem_credentials (env : Env) : bool :=
  all_truthy [Some (getenv env "CITRIX_USERNAME" "");
              Some (getenv env "CITRIX_PASSWORD" "")].

(** The expiry [_get_cloud_token] computes from the decoded answer when
    the clock reads [t]:
    [datetime.now() + timedelta(seconds=int(...) - 300)]. *)
Definition expiry_of (t : Z) (token_data : json) : result Z :=
  match expires_in_of token_data with
  | Ok expires_in =>
      match timedelta_seconds (expires_in - 300) with
      | Ok delta => datetime_add t delta
      | Raise e => Raise e
      end
  | Raise e => Raise e
  end.

(** An outcome of the token endpoint that [_get_cloud_token] accepts when
    the clock reads [t] after the exchange: a response whose status is not
    an error and whose body is an object with an access_token and, if it
    has an expires_in, one that [int] converts and that gives an expiry
    within the range of [datetime]. *)
Definition token_reply_ok (t : Z) (o : result Response) : bool :=
  match o with
  | Ok r =>
      negb (is_error_status (status_code r)) &&
      match json_body r with
      | Some d =>
          match access_token_of d, expiry_of t d with
          | Ok _, Ok _ => true
          | _, _ => false
          end
      | None => false
      end
  | Raise _ => false
  end.

(** The credentials of the active mode are configured and, in cloud mode,
    the token endpoint answers every exchange acceptably, whatever the
    clock reads then. *)
Definition auth_ready (env : Env) (w : World) : Prop :=
  if is_cloud env
  then cloud_credentials env = true ∧
       ∀ n k, token_reply_ok (clock w k) (token_server w n) = true
  else onprem_credentials env = true.

(** The reference the client's session has, or will get on first access. *)
Definition session_ref (st : State) : nat :=
  default (length (heap (snd st))) (_session (fst st)).

(** *** The session object across a step *)

(** Two states of a session object that differ at most in the value of the
    Authorization header. *)
Definition same_but_authorization (s s' : Session) : Prop :=
  s_verify s' = s_verify s ∧ s_auth s' = s_auth s ∧
  ∀ k, k ≠ "Authorization" → s_headers s' !! k = s_headers s !! k.

(** Every object of the first store is still in the second, changed at most
    in its Authorization header. *)
Definition authorization_only (h h' : list Session) : Prop :=
  ∀ i s, h !! i = Some s → ∃ s', h' !! i = Some s' ∧ same_but_authorization s s'.

(** Every data request among the events went through the session [r]. *)
Definition requests_through (r : option nat) (evs : list event) : Prop :=
  ∀ s m u p, In (EvRequest s m u p) evs → r = Some s.

(** From [st] to [st']: the trace only grew, by requests made through the
    client's session; objects in the store changed at most in their
    Authorization header; a session the client held is still the one it
    holds and none was constructed; a client without a session either still
    has none or holds one newly constructed object. *)
Definition session_kept (st st' : State) : Prop :=
  (∃ evs, trace (snd st') = trace (snd st) ++ evs ∧
          requests_through (_session (fst st')) evs) ∧
  authorization_only (heap (snd st)) (heap (snd st')) ∧
  match _session (fst st) with
  | Some r =>
      _session (fst st') = Some r ∧
      length (heap (snd st')) = length (heap (snd st))
  | None =>
      (_session (fst st') = None ∧
       length (heap (snd st')) = length (heap (snd st))) ∨
      (_session (fst st') = Some (length (heap (snd st))) ∧
       length (heap (snd st')) = S (length (heap (snd st))))
  end.

(** What no client code can touch: the token endpoint and the clock. *)
Definition externals (w : World) : (nat → result Response) * (nat → Z) :=
  (token_server w, clock w).

(** What authentication code leaves alone: the pending outcomes of the data
    endpoint, the token endpoint and the clock, and the data requests and
    sleeps of the trace. *)
Definition auth_frame (st st' : State) : Prop :=
  data_script (snd st') = data_script (snd st) ∧
  externals (snd st') = externals (snd st) ∧
  wire (trace (snd st')) = wire (trace (snd st)) ∧
  session_ref st' = session_ref st.

(** *** The token exchange *)

(** The exchange [_get_cloud_token] makes under an environment. *)
Definition token_event (env : Env) : event :=
  EvTokenPost (token_url env (env !! "CITRIX_CUSTOMER_ID"))
    (token_form (env !! "CITRIX_CLIENT_ID") (env !! "CITRIX_CLIENT_SECRET"))
    (verify_ssl env).

(** The world after one exchange. *)
Definition after_exchange (w : World) (ev : event) : World :=
  mkWorld (clock w) (heap w) (token_server w) (S (token_calls w))
    (data_script w) (trace w ++ [ev]).

(** A step that touches neither the session nor the data endpoint, and adds
    only token exchanges to the trace. *)
Definition token_step (st st' : State) : Prop :=
  _session (fst st') = _session (fst st) ∧
  heap (snd st') = heap (snd st) ∧
  data_script (snd st') = data_script (snd st) ∧
  externals (snd st') = externals (snd st) ∧
  ∃ evs, trace (snd st') = trace (snd st) ++ evs ∧ wire evs = [].

#[global] Arguments all_truthy : simpl never.
#[global] Arguments token_is_fresh : simpl never.
#[global] Arguments is_error_status : simpl never.
#[global] Arguments access_token_of : simpl never.
#[global] Arguments expires_in_of : simpl never.
#[global] Arguments expiry_of : simpl never.
#[global] Arguments timedelta_seconds : simpl never.
#[global] Arguments datetime_add : simpl never.
#[global] Arguments timedelta_days : simpl never.
#[global] Arguments now : simpl never.
#[global] Arguments dict_get : simpl never.
#[global] Arguments py_iter : simpl never.
#[global] Arguments token_url : simpl never.
#[global] Arguments token_form : simpl never.
#[global] Arguments verify_ssl : simpl never.
#[global] Arguments is_cloud : simpl never.
#[global] Arguments base_url : simpl never.
#[global] Arguments query_params : simpl never.
#[global] Arguments token_event : simpl never.
#[global] Arguments wire : simpl never.

(** *** One attempt of the retry loop *)

(** The part of an iteration of [_request_with_retry] before the status
    test: refresh in cloud mode, then the request on the session. *)
Definition attempt (env : Env) (method : string) (url : json)
    (params : option Params) : M Response :=
  (if is_cloud env then _refresh_cloud_session env else ret tt) ;;;
  let* r := session env in
  session_request r method url params.

(** What any client code leaves alone: the session (see [session_kept]),
    the token endpoint and the clock; the pending outcomes of the data
    endpoint are only consumed. *)
Definition run_frame (st st' : State) : Prop :=
  session_kept st st' ∧
  externals (snd st') = externals (snd st) ∧
  (length (data_script (snd st')) ≤ length (data_script (snd st)))%nat.

(** The events of [k] rate-limited attempts from attempt number [a] on:
    the request, then the sleep of 5 times the attempt number plus one. *)
Fixpoint backoff_rounds (request : event) (a : Z) (k : nat) : list event :=
  match k with
  | O => []
  | S k' => request :: EvSleep (5 * (a + 1)) :: backoff_rounds request (a + 1) k'
  end.

(** The exception raised when the retries are used up. *)
Definition rate_limited (max_retries : nat) : exn :=
  PyException ("Rate limited after " +:+ pretty max_retries +:+ " retries").

(** *** Pages *)

(** The value [url] takes after a page whose next-page link is [next]. *)
Definition link_value (next : option string) : json :=
  match next with Some u => JStr u | None => JNull end.

(** The response [r] is a page: it is not a rate-limit answer, its status
    is not an error, and its body is an object whose [value] is the array
    [items] (or is missing, with [items] empty) and whose next-page link is
    [next] (a non-empty string, or missing). *)
Definition is_page (r : Response) (items : list json) (next : option string)
    : Prop :=
  status_code r ≠ 429 ∧
  is_error_status (status_code r) = false ∧
  ∃ fields,
    json_body r = Some (JObj fields) ∧
    (Json.assoc "value" fields = Some (JArr items) ∨
     (Json.assoc "value" fields = None ∧ items = [])) ∧
    match next with
    | Some u => Json.assoc "@odata.nextLink" fields = Some (JStr u) ∧ u ≠ ""
    | None => Json.assoc "@odata.nextLink" fields = None
    end.

(** The body of [r] is an object without a [value] field. *)
Definition lacks_value (r : Response) : Prop :=
  ∃ fields, json_body r = Some (JObj fields) ∧ Json.assoc "value" fields = None.

(** A paginated response: pages with their records, each but the last
    linking to the next; the second list holds the links in order. *)
Inductive paged : list (Response * list json) → list string → Prop :=
| paged_last r items :
    is_page r items None → paged [(r, items)] []
| paged_next r items u ps us :
    is_page r items (Some u) → paged ps us → paged ((r, items) :: ps) (u :: us).

(** The outcomes the transport gives when the pages arrive in order. *)
Definition arrivals (ps : list (Response * list json)) : list (result Response) :=
  map (λ p, Ok (fst p)) ps.

(** The records of all pages, in page order. *)
Definition all_records (ps : list (Response * list json)) : list json :=
  concat (map snd ps).

(** The follow-up requests: each link as it is, with no parameters. *)
Definition follow_ups (sess : nat) (us : list string) : list event :=
  map (λ u, EvRequest sess "GET" u None) us.

#[global] Arguments link_value : simpl never.

(** *** Sample worlds *)

Definition env_onprem_ready : Env :=
  <["CITRIX_PASSWORD" := "secret"]>
  (<["CITRIX_USERNAME" := "monitor"]>
  (<["CITRIX_DDC_HOST" := "https://ddc.corp"]>
  (<["CITRIX_DEPLOYMENT" := "onprem"]> ∅))).

Definition env_cloud_ready : Env :=
  <["CITRIX_CLIENT_SECRET" := "secret"]>
  (<["CITRIX_CLIENT_ID" := "id-1"]>
  (<["CITRIX_CUSTOMER_ID" := "acme"]> ∅)).

(** A response with a status and a decoded body. *)
Definition reply (status : Z) (body : option json) : Response :=
  mkResponse status "" body.

(** A world whose clock stands at 1000, with no session object yet, a
    token endpoint that answers everything with [token_reply], and the
    given data outcomes. *)
Definition world_with (token_reply : result Response)
    (script : list (result Response)) : World :=
  mkWorld (λ _, 1000) [] (λ _, token_reply) 0 script [].

Definition token_reply_3600 : Response :=
  mkResponse 200 ""
    (Some (JObj [("token_type", JStr "bearer"); ("access_token", JStr "tok-1");
                 ("expires_in", JStr "3600")])).

(** A token answer whose expiry is beyond the last [datetime]. *)
Definition token_reply_far : Response :=
  mkResponse 200 ""
    (Some (JObj [("access_token", JStr "tok-4");
                 ("expires_in", JInt 1000000000000)])).

(** A token answer whose access_token is a number. *)
Definition token_reply_number : Response :=
  mkResponse 200 "" (Some (JObj [("access_token", JInt 123)])).

Definition page_1 : Response :=
  reply 200
    (Some (JObj [("value", JArr [JInt 1; JInt 2]);
                 ("@odata.nextLink", JStr "https://ddc.corp/next?$skip=2")])).

Definition page_2 : Response :=
  reply 200 (Some (JObj [("value", JArr [JInt 3])])).

(** A page without a [value] field that links on. *)
Definition page_no_value : Response :=
  reply 200
    (Some (JObj [("@odata.context", JStr "ctx");
                 ("@odata.nextLink", JStr "https://ddc.corp/next?$skip=2")])).

(** A redirection answer that carries a JSON body. *)
Definition reply_300 : Response :=
  reply 300 (Some (JObj [("Id", JInt 7)])).

(** A usable cached token: the stored value is true (not [None], not the
    empty string), an expiry is stored and the time [t] is before it. *)
Definition cached_token_valid (c : Client) (t : Z) : Prop :=
  Json.truthy (_token c) = true ∧ ∃ e, _token_expiry c = Some e ∧ t < e.

(** The clock reading [t] plus [s] seconds is a [datetime]: the duration
    is one a [timedelta] holds (at most 999999999 days either way) and the
    sum lies between [datetime.min] and [datetime.max]. *)
Definition seconds_later_ok (t s : Z) : Prop :=
  -86399999913600 ≤ s ≤ 86399999999999 ∧
  0 ≤ t + 1000000 * s ≤ datetime_max.

(** A client holding the token [tok] until [e], and no session. *)
Definition client_with_token (tok : string) (e : Z) : Client :=
  mkClient None (JStr tok) (Some e).

(** *** Sample instances of the dispatch parameters *)

(** A stand-in serializer, good enough to tell payloads apart. *)
Definition sample_dumps (v : json) : string :=
  match v with
  | JObj [(k, JStr m)] => k +:+ ": " +:+ m
  | JNull => "null"
  | _ => "..."
  end.

(** A client whose methods all fail on the network. *)
Definition sample_method (m : string) (args : list json) : M json :=
  raise ConnectionError.

Definition sample_lib_message (e : exn) : string := "library error".

Definition sample_repr (v : json) : string := "...".

(** A run of three operations on a new cloud client. *)
Definition sample_ops : list (Env * op) :=
  [(env_cloud_ready, OpQuery "Machines" no_opts);
   (env_cloud_ready, OpRefreshCloudSession);
   (env_cloud_ready, OpQuerySingle "Machines" (KInt 7) None)].

(** The combined filter of the machine listing with two fragments. *)
Definition registered_and_on : string :=
  "CurrentRegistrationState eq 'Registered' and CurrentPowerState eq 'On'".


(** ** The per-domain methods of the client *)

(** [l[0] if l else None]. *)
Definition first_or_none (l : list json) : json :=
  match l with
  | x :: _ => x
  | [] => JNull
  end.

(** An optional integer argument as a Python value ([None] is [JNull]). *)
Definition int_or_none (o : option Z) : json :=
  match o with
  | Some n => JInt n
  | None => JNull
  end.

(** The list [filters] of [list_sessions] after its conditional appends. *)
Definition list_sessions_filters (filter : option string) (active_only : bool)
    (user_name machine_name : option string) : list string :=
  (if PyStr.truthy_opt filter then [default "" filter] else []) ++
  (if active_only then ["EndDate eq null"] else []) ++
  (if PyStr.truthy_opt user_name
   then ["User/UserName eq '" +:+ default "" user_name +:+ "'"] else []) ++
  (if PyStr.truthy_opt machine_name
   then ["Machine/Name eq '" +:+ default "" machine_name +:+ "'"] else []).

Definition list_connections_filters (filter session_key : option string)
    : list string :=
  (if PyStr.truthy_opt filter then [default "" filter] else []) ++
  (if PyStr.truthy_opt session_key
   then ["SessionKey eq '" +:+ default "" session_key +:+ "'"] else []).

Definition list_app_instances_filters (app_id : option Z)
    (app_name : option string) (active_only : bool) : list string :=
  (if truthy_int app_id then ["ApplicationId eq " +:+ pretty (default 0 app_id)]
   else []) ++
  (if PyStr.truthy_opt app_name
   then ["Application/Name eq '" +:+ default "" app_name +:+ "'"] else []) ++
  (if active_only then ["EndDate eq null"] else []).

(** The three methods that look back [days] days append their date
    fragment last, unconditionally. *)
Definition connection_failures_filters (filter delivery_group : option string)
    (start_date : string) : list string :=
  (if PyStr.truthy_opt filter then [default "" filter] else []) ++
  (if PyStr.truthy_opt delivery_group
   then ["DesktopGroup/Name eq '" +:+ default "" delivery_group +:+ "'"] else []) ++
  ["FailureDate ge " +:+ start_date].

Definition app_errors_filters (app_name : option string) (start_date : string)
    : list string :=
  (if PyStr.truthy_opt app_name
   then ["Application/Name eq '" +:+ default "" app_name +:+ "'"] else []) ++
  ["CreatedDate ge " +:+ start_date].

Definition failure_summary_filters (delivery_group : option string)
    (start_date : string) : list string :=
  (if PyStr.truthy_opt delivery_group
   then ["DesktopGroup/Name eq '" +:+ default "" delivery_group +:+ "'"] else []) ++
  ["SummaryDate ge " +:+ start_date].

Section ClientMethods.

Variable env : Env.

(** [str(v)] for a list or a dict, as in the dispatch section: an
    identifier read from a record is interpolated whatever its type. *)
Variable py_repr : json → string.

(** What [datetime.utcnow()] reads in a world. *)
Variable utcnow : World → Z.

(** [d.isoformat()] for a [datetime]. *)
Variable isoformat : Z → string.

Definition datetime_utcnow : M Z := λ st, (Ok (utcnow (snd st)), st).

(** [(datetime.utcnow() - timedelta(days=days)).isoformat() + "Z"]. *)
Definition start_date (days : Z) : M string :=
  let* t := datetime_utcnow in
  let* delta := lift (timedelta_days days) in
  let* d := lift (datetime_sub t delta) in
  ret (isoformat d +:+ "Z").

Definition get_machine (machine_id : Z) : M json :=
  query_single env "Machines" (KInt machine_id) None.

Definition get_machine_by_name (name : string) : M json :=
  let* machines :=
    query env "Machines"
      (mkOpts (Some ("Name eq '" +:+ name +:+ "'")) None None (Some 1) None None
         false) in
  ret (first_or_none machines).

(** The opening lines shared by [get_machine_metrics],
    [get_machine_failures] and [get_load_indexes]: the value of
    [machine_id] after the lookup by name. *)
Definition resolve_machine_id (machine_id : option Z) (name : option string)
    : M json :=
  if PyStr.truthy_opt name then
    let* machine := get_machine_by_name (default "" name) in
    if Json.truthy machine then lift (dict_get machine "Id" JNull)
    else ret (int_or_none machine_id)
  else ret (int_or_none machine_id).

Definition get_machine_metrics (machine_id : option Z) (name : option string)
    : M (list json) :=
  let* machine_id := resolve_machine_id machine_id name in
  if negb (Json.truthy machine_id) then ret []
  else
    query env "ResourceUtilization"
      (mkOpts (Some ("MachineId eq " +:+ py_str py_repr machine_id)) None
         (Some "CreatedDate desc") None None None false).

Definition get_machine_failures (machine_id : option Z) (name : option string)
    : M (list json) :=
  let* machine_id := resolve_machine_id machine_id name in
  if negb (Json.truthy machine_id) then ret []
  else
    query env "MachineFailureLogs"
      (mkOpts (Some ("MachineId eq " +:+ py_str py_repr machine_id)) None
         (Some "FailureStartDate desc") None None None false).

Definition list_sessions (filter : option string) (active_only : bool)
    (user_name machine_name : option string) : M (list json) :=
  let filters := list_sessions_filters filter active_only user_name machine_name in
  query env "Sessions"
    (mkOpts (combine_filters filters) None (Some "StartDate desc") None None
       (Some ["User"; "Machine"]) false).

Definition get_session (session_key : string) : M json :=
  query_single env "Sessions" (KStr ("'" +:+ session_key +:+ "'"))
    (Some ["User"; "Machine"]).

Definition get_logon_metrics (session_key : string) : M (list json) :=
  query env "LogOnMetrics"
    (mkOpts (Some ("SessionKey eq '" +:+ session_key +:+ "'")) None None None None
       None false).

Definition list_connections (filter session_key : option string) : M (list json) :=
  let filters := list_connections_filters filter session_key in
  query env "Connections"
    (mkOpts (combine_filters filters) None (Some "LogOnStartDate desc") None None
       None false).

Definition get_connection_failures (filter delivery_group : option string)
    (days : Z) : M (list json) :=
  let* start := start_date days in
  let filters := connection_failures_filters filter delivery_group start in
  query env "ConnectionFailureLogs"
    (mkOpts (combine_filters filters) None (Some "FailureDate desc") None None
       (Some ["DesktopGroup"]) false).

Definition list_applications (filter : option string) : M (list json) :=
  query env "Applications" (mkOpts filter None None None None None false).

Definition list_app_instances (app_id : option Z) (app_name : option string)
    (active_only : bool) : M (list json) :=
  let filters := list_app_instances_filters app_id app_name active_only in
  query env "ApplicationInstances"
    (mkOpts (combine_filters filters) None (Some "StartDate desc") None None
       (Some ["Application"]) false).

Definition get_app_errors (app_name : option string) (days : Z) : M (list json) :=
  let* start := start_date days in
  let filters := app_errors_filters app_name start in
  query env "ApplicationFaults"
    (mkOpts (combine_filters filters) None (Some "CreatedDate desc") None None
       (Some ["Application"]) false).

Definition list_users (filter : option string) : M (list json) :=
  query env "Users" (mkOpts filter None None None None None false).

Definition get_user (user_id : Z) : M json :=
  query_single env "Users" (KInt user_id) None.

Definition get_user_by_name (username : string) : M json :=
  let* users :=
    query env "Users"
      (mkOpts (Some ("UserName eq '" +:+ username +:+ "'")) None None (Some 1) None
         None false) in
  ret (first_or_none users).

Definition get_user_sessions (user_id : option Z) (username : option string)
    : M (list json) :=
  let* user_id :=
    (if PyStr.truthy_opt username then
       let* user := get_user_by_name (default "" username) in
       if Json.truthy user then lift (dict_get user "Id" JNull)
       else ret (int_or_none user_id)
     else ret (int_or_none user_id)) in
  if negb (Json.truthy user_id) then ret []
  else
    query env "Sessions"
      (mkOpts (Some ("UserId eq " +:+ py_str py_repr user_id)) None
         (Some "StartDate desc") None None (Some ["Machine"]) false).

Definition list_delivery_groups : M (list json) := query env "DesktopGroups" no_opts.

Definition list_hypervisors : M (list json) := query env "Hypervisors" no_opts.

Definition get_load_indexes (machine_id : option Z) (machine_name : option string)
    : M (list json) :=
  let* machine_id := resolve_machine_id machine_id machine_name in
  let filter :=
    if Json.truthy machine_id
    then Some ("MachineId eq " +:+ py_str py_repr machine_id)
    else None in
  query env "LoadIndexes"
    (mkOpts filter None (Some "CreatedDate desc") None None None false).

Definition get_failure_summary (delivery_group : option string) (days : Z)
    : M (list json) :=
  let* start := start_date days in
  let filters := failure_summary_filters delivery_group start in
  query env "FailureLogSummaries"
    (mkOpts (combine_filters filters) None (Some "SummaryDate desc") None None
       (Some ["DesktopGroup"]) false).

End ClientMethods.

(** ** Further vocabulary *)

(** The seconds slept according to a trace. *)
Definition slept (tr : list event) : Z :=
  fold_right (λ e acc, match e with EvSleep s => s + acc | _ => acc end) 0 tr.

(** The data requests of a trace, as URL and parameters, in order. *)
Definition sent (tr : list event) : list (string * option Params) :=
  flat_map (λ e, match e with EvRequest _ _ u p => [(u, p)] | _ => [] end) tr.

(** Pages each of which links on. *)
Inductive linked : list (Response * list json) → list string → Prop :=
| linked_nil : linked [] []
| linked_cons r items u ps us :
    is_page r items (Some u) → linked ps us →
    linked ((r, items) :: ps) (u :: us).

(** Outcomes on which a page request of [query] fails, with the exception
    it raises: after fewer than three rate-limit answers, an answer with an
    error status or a transport failure; or three rate-limit answers. *)
Inductive fails_with : list (result Response) → exn → Prop :=
| fails_status rs r rest :
    Forall (λ r', status_code r' = 429) rs → (length rs < 3)%nat →
    status_code r ≠ 429 → 400 ≤ status_code r < 600 →
    fails_with (map Ok rs ++ Ok r :: rest) (HTTPError r)
| fails_transport rs e rest :
    Forall (λ r', status_code r' = 429) rs → (length rs < 3)%nat →
    fails_with (map Ok rs ++ Raise e :: rest) e
| fails_limited rs rest :
    Forall (λ r', status_code r' = 429) rs → length rs = 3%nat →
    fails_with (map Ok rs ++ rest) (rate_limited 3).

(** Pages as they arrive when each is preceded by fewer than three
    rate-limit answers: the answers, the page and its records. *)
Inductive paged_limited
  : list (list Response * Response * list json) → Prop :=
| paged_limited_last rs r items :
    Forall (λ r', status_code r' = 429) rs → (length rs < 3)%nat →
    is_page r items None → paged_limited [(rs, r, items)]
| paged_limited_next rs r items u ps :
    Forall (λ r', status_code r' = 429) rs → (length rs < 3)%nat →
    is_page r items (Some u) → paged_limited ps →
    paged_limited ((rs, r, items) :: ps).

Definition arrivals_limited (ps : list (list Response * Response * list json))
    : list (result Response) :=
  flat_map (λ p, map Ok (fst (fst p)) ++ [Ok (snd (fst p))]) ps.

Definition records_limited (ps : list (list Response * Response * list json))
    : list json :=
  concat (map snd ps).

(** The endpoint hosts of [CLOUD_ENDPOINTS]. *)
Definition cloud_hosts : list string :=
  ["https://api-us.cloud.com"; "https://api-eu.cloud.com";
   "https://api-ap-s.cloud.com"; "https://api.citrixcloud.jp"].

(** No token exchange from [st] to [st']. *)
Definition no_exchange (st st' : State) : Prop :=
  token_calls (snd st') = token_calls (snd st) ∧
  token_posts (trace (snd st')) = token_posts (trace (snd st)).

(** An operation other than a direct call of the token getter. *)
Definition not_token_getter (o : op) : bool :=
  match o with
  | OpGetCloudToken => false
  | _ => true
  end.

#[global] Arguments slept : simpl never.
#[global] Arguments sent : simpl never.

(** A token answer whose expires_in is not a number. *)
Definition token_reply_bad_expiry : Response :=
  mkResponse 200 ""
    (Some (JObj [("access_token", JStr "tok-2"); ("expires_in", JStr "soon")])).

(** A token answer that expires within the safety margin. *)
Definition token_reply_short : Response :=
  mkResponse 200 ""
    (Some (JObj [("access_token", JStr "tok-3"); ("expires_in", JInt 300)])).

(** The first access to [session] fails for missing credentials: outside
    cloud mode the user name or the password is missing; in cloud mode no
    usable token is cached and a cloud credential is missing. *)
Definition first_access_fails (env : Env) (c : Client) (w : World) : Prop :=
  (is_cloud env = false ∧ onprem_credentials env = false) ∨
  (is_cloud env = true ∧ ¬ cached_token_valid c (now w) ∧
   cloud_credentials env = false).

(** A page holding one machine record, and one holding none. *)
Definition page_machine : Response :=
  reply 200
    (Some (JObj [("value", JArr [JObj [("Id", JInt 42); ("Name", JStr "vda1")]])])).

Definition page_empty : Response :=
  reply 200 (Some (JObj [("value", JArr [])])).

(** The moment [days] days before the reading [t] is a [datetime]: the
    duration is one a [timedelta] holds and the difference lies between
    [datetime.min] and [datetime.max]. *)
Definition days_before_ok (t days : Z) : Prop :=
  -999999999 ≤ days ≤ 999999999 ∧
  0 ≤ t - 86400000000 * days ≤ datetime_max.

(** Stand-ins for the UTC clock and the date formatting of the methods
    that look back: the clock stands at 2024-01-01T00:00:00 and a date is
    written as its count of microseconds. *)
Definition sample_utcnow (w : World) : Z := 63839664000000000.

Definition sample_iso (d : Z) : string := "T" +:+ pretty d.

(** The method [m], run in [st] where the pages [ps] arrive, returns their
    records after one query of [entity] whose $filter parameter is [filter]
    (absent for [None]), followed by the links [us]. *)
Definition asks_with_filter (env : Env) (m : M (list json)) (entity : string)
    (filter : option string) (st : State) (ps : list (Response * list json))
    (us : list string) : Prop :=
  ∃ st' params,
    m st = (Ok (concat (map snd ps)), st') ∧
    sent (trace (snd st')) =
      sent (trace (snd st)) ++
      (base_url env +:+ "/" +:+ entity, Some params) :: map (λ u, (u, None)) us ∧
    params !! "$filter" = PStr <$> filter.
(** * Properties *)

(** ** The embedding on small inputs *)

Example lower_example : PyStr.lower "Cloud-EU" = "cloud-eu".
Proof. reflexivity. Qed.

Example rstrip_example :
  PyStr.rstrip "/" "https://ddc.corp//" = "https://ddc.corp" ∧
  PyStr.rstrip "/" "a/b" = "a/b" ∧ PyStr.rstrip "/" "///" = "".
Proof. repeat split. Qed.

Example join_example :
  PyStr.join "," ["Name"; "Id"] = "Name,Id" ∧ PyStr.join " and " ["a"] = "a" ∧
  PyStr.join "," [] = "".
Proof. repeat split. Qed.

Example int_example :
  PyInt.of_string "3600" = Some 3600 ∧ PyInt.of_string " -1_000 " = Some (-1000) ∧
  PyInt.of_string "36oo" = None ∧ PyInt.of_string "" = None ∧
  PyInt.of_string "1__0" = None ∧ PyInt.of_string "+" = None.
Proof. vm_compute. repeat split. Qed.

Example int_whitespace_example :
  PyInt.of_string (String (ascii_of_nat 9) "42 ") = Some 42 ∧
  PyInt.of_string (String (ascii_of_nat 160) "42") = Some 42 ∧
  PyInt.of_string (String (ascii_of_nat 28) "42") = None ∧
  PyInt.of_string "007" = Some 7 ∧ PyInt.of_string "- 7" = None.
Proof. vm_compute. repeat split. Qed.

Example str_example :
  Json.str (JStr "tok") = "tok" ∧ Json.str (JInt 123) = "123" ∧
  Json.str (JInt (-5)) = "-5" ∧ Json.str JNull = "None" ∧
  Json.str (JBool true) = "True" ∧
  Json.str (JArr [JStr "a"; JInt 1; JArr []]) = "['a', 1, []]" ∧
  Json.str (JObj [("k", JNull); ("l", JStr "x\y")]) = "{'k': None, 'l': 'x\\y'}" ∧
  Json.repr (JStr "it's") = String Json.dquote ("it's" +:+ String Json.dquote "") ∧
  Json.repr (JStr (String (ascii_of_nat 10) (String (ascii_of_nat 1) "")))
  = "'\n\x01'".
Proof. vm_compute. repeat split. Qed.

Example datetime_example :
  datetime_add 0 datetime_max = Ok datetime_max ∧
  datetime_add 1 datetime_max = Raise OverflowError ∧
  datetime_add 0 (-1) = Raise OverflowError ∧
  timedelta_seconds 86399999999999 = Ok 86399999999999000000 ∧
  timedelta_seconds 86400000000000 = Raise OverflowError ∧
  timedelta_days (-999999999) = Ok (-86399999913600000000) ∧
  timedelta_days 1000000000 = Raise OverflowError.
Proof. vm_compute. repeat split. Qed.

Example base_url_example :
  base_url ∅ = "https://api-us.cloud.com/monitorodata" ∧
  base_url (<["CITRIX_REGION" := "jp"]> ∅) = "https://api.citrixcloud.jp/monitorodata" ∧
  base_url env_onprem = "https://ddc.corp/Citrix/Monitor/OData/v4/Data".
Proof. vm_compute. repeat split. Qed.

Example query_params_example :
  query_params (mkOpts (Some "Name eq 'a'") (Some ["Id"; "Name"]) None (Some 5) None
                  None true)
  = <["$count" := PStr "true"]>
    (<["$top" := PInt 5]>
    (<["$select" := PStr "Id,Name"]>
    (<["$filter" := PStr "Name eq 'a'"]> ∅))).
Proof. vm_compute. reflexivity. Qed.

Example token_example :
  let w := world_with (Ok token_reply_3600) [] in
  fst (_get_cloud_token env_cloud_ready (new_client, w)) = Ok (JStr "tok-1") ∧
  _token_expiry (fst (snd (_get_cloud_token env_cloud_ready (new_client, w))))
  = Some 3300001000 ∧
  trace (snd (snd (_get_cloud_token env_cloud_ready (new_client, w))))
  = [EvTokenPost "https://api-us.cloud.com/cctrustoauth2/acme/tokens/clients"
       [("grant_type", "client_credentials"); ("client_id", "id-1");
        ("client_secret", "secret")] true].
Proof. vm_compute. repeat split. Qed.

Example token_number_example :
  let w := world_with (Ok token_reply_number) [] in
  fst (_get_cloud_token env_cloud_ready (new_client, w)) = Ok (JInt 123) ∧
  fst (snd (_get_cloud_token env_cloud_ready (new_client, w)))
  = mkClient None (JInt 123) (Some 3300001000) ∧
  auth_header (JInt 123) = Some "CWSAuth bearer=123".
Proof. vm_compute. repeat split. Qed.

Example token_overflow_example :
  let w := world_with (Ok token_reply_far) [] in
  fst (_get_cloud_token env_cloud_ready (new_client, w)) = Raise OverflowError ∧
  fst (snd (_get_cloud_token env_cloud_ready (new_client, w)))
  = mkClient None (JStr "tok-4") None.
Proof. vm_compute. repeat split. Qed.

Example route_example :
  fst (call_tool sample_method sample_dumps sample_lib_message sample_repr
         "citrix_machine_status" [] (None, world_with (Raise ConnectionError) []))
  = [mkText "text" "error: Either machine_id or name is required"].
Proof. vm_compute. reflexivity. Qed.

(** ** Strings *)

Lemma rstrip_unfold ch c s :
  PyStr.rstrip ch (String c s) =
  match PyStr.rstrip ch s with
  | EmptyString => if Ascii.eqb c ch then EmptyString else String c EmptyString
  | r => String c r
  end.
Proof. reflexivity. Qed.

Lemma rstrip_no_trailing ch s :
  last_char s ≠ Some ch → PyStr.rstrip ch s = s.
Proof.
  induction s as [|c s IH]; [reflexivity|].
  intros Hlast. rewrite rstrip_unfold.
  destruct s as [|c' s'].
  - simpl in *. destruct (Ascii.eqb_spec c ch) as [->|]; congruence.
  - rewrite IH by exact Hlast. reflexivity.
Qed.

Lemma rstrip_last ch s : last_char (PyStr.rstrip ch s) ≠ Some ch.
Proof.
  induction s as [|c s IH]; [discriminate|].
  rewrite rstrip_unfold.
  destruct (PyStr.rstrip ch s) as [|c' r] eqn:E.
  - destruct (Ascii.eqb_spec c ch); simpl; congruence.
  - exact IH.
Qed.

(** ** Region table *)

Lemma cloud_endpoint_unknown region :
  region ∉ known_regions → cloud_endpoint region = us_endpoint.
Proof.
  intros Hnot. unfold cloud_endpoint, CLOUD_ENDPOINTS.
  unfold known_regions in Hnot.
  rewrite !lookup_insert_ne, lookup_empty; [reflexivity|..];
    intros <-; apply Hnot; set_solver.
Qed.

Lemma cloud_endpoint_known :
  cloud_endpoint "us" = "https://api-us.cloud.com" ∧
  cloud_endpoint "eu" = "https://api-eu.cloud.com" ∧
  cloud_endpoint "ap-s" = "https://api-ap-s.cloud.com" ∧
  cloud_endpoint "jp" = "https://api.citrixcloud.jp".
Proof. repeat split; vm_compute; reflexivity. Qed.

(** ** Query parameters *)

Lemma set_if_lookup_ne c k v (p : Params) k' :
  k ≠ k' → set_if c k v p !! k' = p !! k'.
Proof. intros Hne. unfold set_if. destruct c; [apply lookup_insert_ne; exact Hne|reflexivity]. Qed.

Lemma query_params_filter o :
  query_params o !! "$filter" =
  if PyStr.truthy_opt (q_filter o) then Some (PStr (default "" (q_filter o))) else None.
Proof.
  unfold query_params.
  rewrite !set_if_lookup_ne by discriminate.
  unfold set_if. destruct (PyStr.truthy_opt (q_filter o)).
  - apply lookup_insert_eq.
  - apply lookup_empty.
Qed.

Lemma query_params_top o :
  query_params o !! "$top" =
  if truthy_int (q_top o) then Some (PInt (default 0 (q_top o))) else None.
Proof.
  unfold query_params.
  rewrite !(set_if_lookup_ne _ "$count"), !(set_if_lookup_ne _ "$expand"),
    !(set_if_lookup_ne _ "$skip") by discriminate.
  unfold set_if at 1. destruct (truthy_int (q_top o)).
  - apply lookup_insert_eq.
  - rewrite !set_if_lookup_ne by discriminate. apply lookup_empty.
Qed.

Lemma query_params_skip o :
  query_params o !! "$skip" =
  if truthy_int (q_skip o) then Some (PInt (default 0 (q_skip o))) else None.
Proof.
  unfold query_params.
  rewrite !(set_if_lookup_ne _ "$count"), !(set_if_lookup_ne _ "$expand")
    by discriminate.
  unfold set_if at 1. destruct (truthy_int (q_skip o)).
  - apply lookup_insert_eq.
  - rewrite !set_if_lookup_ne by discriminate. apply lookup_empty.
Qed.


(** ** Base URL *)

(** C6 (as amended).  The base URL is a function of the environment alone.
    In cloud mode (CITRIX_DEPLOYMENT, lower-cased, is cloud, which is also
    the default) it is the endpoint of the lower-cased region code followed by
    /monitorodata, and a region code outside the table gives the us
    endpoint.  In any other mode it is the configured host with its trailing
    slashes removed, followed by the on-premises OData root; when the host
    has no trailing slash this is the host followed by the root. *)
Theorem base_url_derivation (env : Env) :
  (is_cloud env = true →
     base_url env = cloud_endpoint (region_code env) +:+ "/monitorodata" ∧
     (region_code env ∉ known_regions →
        base_url env = "https://api-us.cloud.com/monitorodata")) ∧
  (is_cloud env = false →
     let host := getenv env "CITRIX_DDC_HOST" "" in
     base_url env = PyStr.rstrip "/" host +:+ onprem_root ∧
     last_char (PyStr.rstrip "/" host) ≠ Some "/"%char ∧
     (last_char host ≠ Some "/"%char → base_url env = host +:+ onprem_root)).
Proof.
  split; intros Hmode; unfold base_url; rewrite Hmode.
  - split; [reflexivity|].
    intros Hunknown. rewrite (cloud_endpoint_unknown _ Hunknown). reflexivity.
  - cbv zeta. split; [reflexivity|]. split; [apply rstrip_last|].
    intros Hlast. rewrite (rstrip_no_trailing _ _ Hlast). reflexivity.
Qed.

Lemma base_url_derivation_witness :
  base_url env_cloud_typo = "https://api-us.cloud.com/monitorodata" ∧
  base_url env_onprem = "https://ddc.corp" +:+ onprem_root.
Proof.
  split.
  - apply (proj1 (base_url_derivation env_cloud_typo)).
    + vm_compute. reflexivity.
    + vm_compute. intros H. inversion H as [|? ? ? H1]; subst.
      inversion H1 as [|? ? ? H2]; subst.
      inversion H2 as [|? ? ? H3]; subst.
      inversion H3 as [|? ? ? H4]; subst.
      inversion H4.
  - apply (proj2 (base_url_derivation env_onprem)).
    + vm_compute. reflexivity.
    + vm_compute. discriminate.
Defined.

(** C6, counterexample.  With the host configured as https://ddc.corp/ the
    on-premises base URL is not the configured host followed by the root
    path: the trailing slash is dropped first.  And the region code EU, which
    is not a key of the endpoint table, does not fall back to us: it is
    lower-cased first. *)
Lemma base_url_not_plain_concatenation :
  (is_cloud env_onprem_slash = false ∧
   getenv env_onprem_slash "CITRIX_DDC_HOST" "" = "https://ddc.corp/" ∧
   base_url env_onprem_slash = "https://ddc.corp/Citrix/Monitor/OData/v4/Data" ∧
   base_url env_onprem_slash ≠
     getenv env_onprem_slash "CITRIX_DDC_HOST" "" +:+ onprem_root) ∧
  (is_cloud env_cloud_upper = true ∧
   getenv env_cloud_upper "CITRIX_REGION" "us" = "EU" ∧
   CLOUD_ENDPOINTS !! "EU" = None ∧
   base_url env_cloud_upper = "https://api-eu.cloud.com/monitorodata" ∧
   base_url env_cloud_upper ≠ us_endpoint +:+ "/monitorodata").
Proof. vm_compute. repeat split; discriminate. Qed.

(** ** The session object is kept *)

Lemma same_but_authorization_refl s : same_but_authorization s s.
Proof. repeat split. Qed.

Lemma same_but_authorization_trans s1 s2 s3 :
  same_but_authorization s1 s2 → same_but_authorization s2 s3 →
  same_but_authorization s1 s3.
Proof.
  intros (Hv1 & Ha1 & Hh1) (Hv2 & Ha2 & Hh2). repeat split; try congruence.
  intros k Hk. rewrite (Hh2 k Hk). apply Hh1, Hk.
Qed.

Lemma authorization_only_refl h : authorization_only h h.
Proof. intros i s Hs. exists s. split; [exact Hs|apply same_but_authorization_refl]. Qed.

Lemma authorization_only_trans h1 h2 h3 :
  authorization_only h1 h2 → authorization_only h2 h3 → authorization_only h1 h3.
Proof.
  intros H12 H23 i s Hs.
  destruct (H12 i s Hs) as (s2 & Hs2 & Hsame2).
  destruct (H23 i s2 Hs2) as (s3 & Hs3 & Hsame3).
  exists s3. split; [exact Hs3|]. eapply same_but_authorization_trans; eassumption.
Qed.

Lemma authorization_only_app h s : authorization_only h (h ++ [s]).
Proof.
  intros i s0 Hs. exists s0. split; [|apply same_but_authorization_refl].
  rewrite lookup_app_l; [exact Hs|]. eapply lookup_lt_Some, Hs.
Qed.

Lemma authorization_only_alter h r v :
  authorization_only h (alter (set_header "Authorization" v) r h).
Proof.
  intros i s Hs. destruct (decide (i = r)) as [->|Hne].
  - exists (set_header "Authorization" v s). split.
    + rewrite list_lookup_alter_eq, Hs. reflexivity.
    + repeat split. intros k Hk. simpl. apply lookup_insert_ne. congruence.
  - exists s. split; [|apply same_but_authorization_refl].
    rewrite list_lookup_alter_ne by congruence. exact Hs.
Qed.

Lemma session_kept_refl st : session_kept st st.
Proof.
  split; [|split].
  - exists []. split; [symmetry; apply app_nil_r|]. intros s m u p [].
  - apply authorization_only_refl.
  - destruct (_session (fst st)); [split; reflexivity|left; split; reflexivity].
Qed.

Lemma session_kept_trans st1 st2 st3 :
  session_kept st1 st2 → session_kept st2 st3 → session_kept st1 st3.
Proof.
  intros ((ev1 & Ht1 & Hr1) & Ha1 & Hs1) ((ev2 & Ht2 & Hr2) & Ha2 & Hs2).
  split; [|split].
  - exists (ev1 ++ ev2). split.
    + rewrite Ht2, Ht1, app_assoc. reflexivity.
    + intros s m u p Hin. apply in_app_or in Hin as [Hin|Hin].
      * specialize (Hr1 s m u p Hin). rewrite Hr1 in Hs2.
        apply (proj1 Hs2).
      * apply (Hr2 s m u p Hin).
  - eapply authorization_only_trans; eassumption.
  - destruct (_session (fst st1)) as [r|].
    + destruct Hs1 as [Hs1 Hl1]. rewrite Hs1 in Hs2. destruct Hs2 as [Hs2 Hl2].
      split; congruence.
    + destruct Hs1 as [[Hs1 Hl1]|[Hs1 Hl1]]; rewrite Hs1 in Hs2.
      * destruct Hs2 as [[Hs2 Hl2]|[Hs2 Hl2]]; [left|right]; split; congruence.
      * destruct Hs2 as [Hs2 Hl2]. right. split; congruence.
Qed.

Lemma auth_frame_refl st : auth_frame st st.
Proof. repeat split. Qed.

Lemma wire_app a b : wire (a ++ b) = wire a ++ wire b.
Proof. apply List.filter_app. Qed.

(** ** The token getter *)

Ltac run_monad :=
  unfold raise_for_status, response_json;
  unfold bind, ret, raise, lift, get_client, put_client, datetime_now; simpl.

Lemma get_cloud_token_cached env c w :
  token_is_fresh c (now w) = true →
  _get_cloud_token env (c, w) = (Ok (_token c), (c, w)).
Proof.
  intros Hfresh. unfold _get_cloud_token. run_monad. rewrite Hfresh. reflexivity.
Qed.

Lemma get_cloud_token_no_credentials env c w :
  token_is_fresh c (now w) = false → cloud_credentials env = false →
  _get_cloud_token env (c, w) = (Raise (ValueError missing_cloud_credentials), (c, w)).
Proof.
  intros Hfresh Hcred. unfold _get_cloud_token. run_monad. rewrite Hfresh.
  unfold cloud_credentials in Hcred. rewrite Hcred. reflexivity.
Qed.

Lemma now_after_exchange w ev :
  now (after_exchange w ev) = clock w (S (length (trace w))).
Proof.
  unfold now, after_exchange. simpl. rewrite length_app, Nat.add_1_r. reflexivity.
Qed.

Lemma get_cloud_token_exchange env c w r d tok e :
  token_is_fresh c (now w) = false → cloud_credentials env = true →
  token_server w (token_calls w) = Ok r →
  is_error_status (status_code r) = false →
  json_body r = Some d → access_token_of d = Ok tok →
  expiry_of (now (after_exchange w (token_event env))) d = Ok e →
  _get_cloud_token env (c, w) =
  (Ok tok,
   (mkClient (_session c) tok (Some e), after_exchange w (token_event env))).
Proof.
  intros Hfresh Hcred Hsrv Hstatus Hbody Htok Hexp.
  unfold expiry_of in Hexp.
  destruct (expires_in_of d) as [n|] eqn:Hn; [|discriminate].
  destruct (timedelta_seconds (n - 300)) as [delta|] eqn:Hdelta; [|discriminate].
  unfold _get_cloud_token. run_monad. rewrite Hfresh.
  unfold cloud_credentials in Hcred. rewrite Hcred. simpl.
  unfold requests_post. simpl. rewrite Hsrv. simpl.
  rewrite Hstatus. simpl. rewrite Hbody. simpl. rewrite Htok. simpl. rewrite Hn. simpl.
  rewrite Hdelta. simpl. unfold after_exchange, token_event in Hexp.
  rewrite Hexp. reflexivity.
Qed.

Lemma token_step_refl st : token_step st st.
Proof.
  repeat split. exists []. split; [symmetry; apply app_nil_r|reflexivity].
Qed.

Lemma get_cloud_token_step env st : token_step st (snd (_get_cloud_token env st)).
Proof.
  destruct st as [c w]. unfold _get_cloud_token. run_monad.
  destruct (token_is_fresh c (now w)); [apply token_step_refl|].
  destruct (negb _); [apply token_step_refl|].
  assert (Hlogged : ∀ c' t, token_step (c, w)
            (mkClient (_session c) c' t,
             mkWorld (clock w) (heap w) (token_server w) (S (token_calls w))
               (data_script w) (trace w ++ [token_event env]))).
  { intros. repeat split. exists [token_event env]. split; reflexivity. }
  unfold requests_post. simpl.
  destruct (token_server w (token_calls w)) as [r|e]; simpl.
  2: { destruct c. apply Hlogged. }
  destruct (is_error_status (status_code r)); simpl; [destruct c; apply Hlogged|].
  destruct (json_body r) as [d|]; simpl; [|destruct c; apply Hlogged].
  destruct (access_token_of d) as [tok|e]; simpl; [|destruct c; apply Hlogged].
  destruct (expires_in_of d) as [n|e]; simpl; [|apply Hlogged].
  destruct (timedelta_seconds (n - 300)) as [delta|e]; simpl; [|apply Hlogged].
  destruct (datetime_add _ delta) as [expiry|e]; simpl; apply Hlogged.
Qed.

Lemma wire_nil_requests_through r evs : wire evs = [] → requests_through r evs.
Proof.
  intros Hw s m u p Hin.
  assert (Hin' : In (EvRequest s m u p) (wire evs)).
  { apply List.filter_In. split; [exact Hin|reflexivity]. }
  rewrite Hw in Hin'. destruct Hin'.
Qed.

Lemma token_step_kept st st' : token_step st st' → session_kept st st'.
Proof.
  intros (Hs & Hh & _ & _ & evs & Ht & Hw). split; [|split].
  - exists evs. split; [exact Ht|]. apply wire_nil_requests_through, Hw.
  - rewrite Hh. apply authorization_only_refl.
  - rewrite Hs, Hh. destruct (_session (fst st)); [split|left; split]; reflexivity.
Qed.

Lemma token_step_frame st st' : token_step st st' → auth_frame st st'.
Proof.
  intros (Hs & Hh & Hd & Hsrv & evs & Ht & Hw). repeat split; try assumption.
  - rewrite Ht, wire_app, Hw. apply app_nil_r.
  - unfold session_ref. rewrite Hs, Hh. reflexivity.
Qed.

Lemma auth_frame_trans st1 st2 st3 :
  auth_frame st1 st2 → auth_frame st2 st3 → auth_frame st1 st3.
Proof.
  intros (H1 & H2 & H3 & H4) (H1' & H2' & H3' & H4'). repeat split; congruence.
Qed.

Lemma authorization_only_alter_fresh h h' f r :
  authorization_only h h' → (length h ≤ r)%nat → authorization_only h (alter f r h').
Proof.
  intros Hhh Hr i s Hs. destruct (Hhh i s Hs) as (s' & Hs' & Hsame).
  exists s'. split; [|exact Hsame].
  rewrite list_lookup_alter_ne; [exact Hs'|].
  apply lookup_lt_Some in Hs. lia.
Qed.

(** ** The session property *)

Lemma session_existing env c w r :
  _session c = Some r → session env (c, w) = (Ok r, (c, w)).
Proof. intros Hs. unfold session. run_monad. rewrite Hs. reflexivity. Qed.

Lemma session_spec env st :
  session_kept st (snd (session env st)) ∧
  auth_frame st (snd (session env st)) ∧
  ∀ r, fst (session env st) = Ok r →
       _session (fst (snd (session env st))) = Some r ∧ r = session_ref st.
Proof.
  destruct st as [c w]. destruct (_session c) as [r0|] eqn:Hs.
  { rewrite (session_existing env c w r0 Hs). simpl.
    split; [apply session_kept_refl|]. split; [apply auth_frame_refl|].
    intros r [= <-]. split; [exact Hs|]. unfold session_ref. simpl. rewrite Hs. reflexivity. }
  unfold session. run_monad. rewrite Hs. unfold alloc_session, update_session. simpl.
  set (r := length (heap w)).
  set (h1 := alter (set_verify (verify_ssl env)) r (heap w ++ [fresh_session])).
  assert (Hh1 : authorization_only (heap w) h1).
  { apply authorization_only_alter_fresh; [apply authorization_only_app|reflexivity]. }
  assert (Hl1 : length h1 = S (length (heap w))).
  { unfold h1. rewrite length_alter, length_app. simpl. lia. }
  destruct (is_cloud env).
  - set (st1 := (mkClient (Some r) (_token c) (_token_expiry c),
                 mkWorld (clock w) h1 (token_server w) (token_calls w)
                   (data_script w) (trace w))).
    pose proof (get_cloud_token_step env st1) as Hstep.
    destruct (_get_cloud_token env st1) as [[tok|e] [c2 w2]].
    all: destruct Hstep as (Hs2 & Hh2 & Hd2 & Hsrv2 & evs & Ht2 & Hw2); simpl in *.
    all: split; [split; [|split]|split; [repeat split|]]; simpl;
      rewrite ?Hs, ?length_alter, ?Hh2, ?Hs2, ?Hd2, ?Hsrv2; try reflexivity.
    all: try (exists evs; split; [exact Ht2|apply wire_nil_requests_through, Hw2]).
    all: try (apply authorization_only_alter_fresh; [exact Hh1|reflexivity]).
    all: try exact Hh1.
    all: try (right; split; [reflexivity|exact Hl1]).
    all: try (rewrite Ht2, wire_app, Hw2; apply app_nil_r).
    all: try (unfold session_ref; simpl; rewrite ?Hs2, ?Hs; reflexivity).
    all: try (intros r' [= <-]; split;
              [first [reflexivity|exact Hs2]
              |unfold session_ref; simpl; rewrite Hs; reflexivity]).
    all: try discriminate.
    all: try (unfold externals in *; simpl in *; congruence).
  - destruct (negb _); simpl.
    all: split; [split; [|split]|split; [repeat split|]]; simpl;
      rewrite ?Hs, ?length_alter; try reflexivity.
    all: try (exists []; split; [symmetry; apply app_nil_r|intros ? ? ? ? []]).
    all: try exact Hh1.
    all: try (do 2 (apply authorization_only_alter_fresh; [|reflexivity]); exact Hh1).
    all: try (right; split; [reflexivity|exact Hl1]).
    all: try (unfold session_ref; simpl; rewrite ?Hs; reflexivity).
    all: try (intros r' [= <-]; split; [reflexivity|unfold session_ref; simpl; rewrite Hs; reflexivity]).
    all: try discriminate.
Qed.

Lemma update_authorization_kept r v st :
  session_kept st (snd (update_session r (set_header "Authorization" v) st)) ∧
  auth_frame st (snd (update_session r (set_header "Authorization" v) st)).
Proof.
  destruct st as [c w]. unfold update_session. simpl. split; [split; [|split]|].
  - exists []. split; [symmetry; apply app_nil_r|intros ? ? ? ? []].
  - apply authorization_only_alter.
  - simpl. rewrite length_alter.
    destruct (_session c); [split|left; split]; reflexivity.
  - repeat split. unfold session_ref. simpl. rewrite length_alter. reflexivity.
Qed.

Lemma refresh_spec env st :
  session_kept st (snd (_refresh_cloud_session env st)) ∧
  auth_frame st (snd (_refresh_cloud_session env st)).
Proof.
  unfold _refresh_cloud_session. destruct (is_cloud env).
  2: { split; [apply session_kept_refl|apply auth_frame_refl]. }
  unfold bind.
  pose proof (get_cloud_token_step env st) as Hstep.
  destruct (_get_cloud_token env st) as [[tok|e] st1]; simpl in Hstep.
  2: { split; [apply token_step_kept|apply token_step_frame]; exact Hstep. }
  pose proof (session_spec env st1) as (Hk & Hf & _).
  destruct (session env st1) as [[r|e] st2]; simpl in Hk, Hf.
  2: { split.
       - eapply session_kept_trans; [apply token_step_kept, Hstep|exact Hk].
       - eapply auth_frame_trans; [apply token_step_frame, Hstep|exact Hf]. }
  destruct (update_authorization_kept r (auth_header tok) st2) as [Hk' Hf'].
  split.
  - eapply session_kept_trans; [apply token_step_kept, Hstep|].
    eapply session_kept_trans; [exact Hk|exact Hk'].
  - eapply auth_frame_trans; [apply token_step_frame, Hstep|].
    eapply auth_frame_trans; [exact Hf|exact Hf'].
Qed.

(** ** Authentication succeeds when it is ready *)

Lemma auth_ready_frame env (st st' : State) :
  externals (snd st') = externals (snd st) →
  auth_ready env (snd st) → auth_ready env (snd st').
Proof.
  unfold auth_ready, externals. intros [= -> ->]. auto.
Qed.

Lemma token_reply_ok_inv t o :
  token_reply_ok t o = true →
  ∃ r d tok e, o = Ok r ∧ is_error_status (status_code r) = false ∧
               json_body r = Some d ∧ access_token_of d = Ok tok ∧
               expiry_of t d = Ok e.
Proof.
  unfold token_reply_ok. destruct o as [r|e]; [|discriminate].
  destruct (is_error_status (status_code r)) eqn:Hst; [discriminate|].
  destruct (json_body r) as [d|] eqn:Hb; [|discriminate].
  destruct (access_token_of d) as [tok|] eqn:Ht; [|discriminate].
  destruct (expiry_of t d) as [n|] eqn:He; [|discriminate].
  intros _. exists r, d, tok, n. repeat split; assumption.
Qed.

Lemma get_cloud_token_ok env st :
  is_cloud env = true → auth_ready env (snd st) →
  ∃ tok, fst (_get_cloud_token env st) = Ok tok.
Proof.
  intros Hcloud Hready. unfold auth_ready in Hready. rewrite Hcloud in Hready.
  destruct Hready as [Hcred Hsrv]. destruct st as [c w]. simpl in Hsrv.
  destruct (token_is_fresh c (now w)) eqn:Hfresh.
  - rewrite (get_cloud_token_cached env c w Hfresh). eexists. reflexivity.
  - destruct (token_reply_ok_inv _ _ (Hsrv (token_calls w) (S (length (trace w)))))
      as (r & d & tok & e & Ho & Hst & Hb & Ht & He).
    rewrite <- (now_after_exchange w (token_event env)) in He.
    rewrite (get_cloud_token_exchange env c w r d tok e Hfresh Hcred Ho Hst Hb Ht He).
    eexists. reflexivity.
Qed.

Lemma session_ok env st :
  auth_ready env (snd st) → ∃ r, fst (session env st) = Ok r.
Proof.
  intros Hready. destruct st as [c w]. destruct (_session c) as [r0|] eqn:Hs.
  { rewrite (session_existing env c w r0 Hs). eexists. reflexivity. }
  unfold session. run_monad. rewrite Hs. unfold alloc_session, update_session. simpl.
  unfold auth_ready in Hready. destruct (is_cloud env) eqn:Hcloud.
  - match goal with
    | |- context [_get_cloud_token env ?st1] =>
        destruct (get_cloud_token_ok env st1 Hcloud) as [tok Htok]
    end.
    { unfold auth_ready. rewrite Hcloud. exact Hready. }
    destruct (_get_cloud_token env _) as [[tok'|e] st2]; simpl in Htok; [|discriminate].
    eexists. reflexivity.
  - simpl in Hready. unfold onprem_credentials in Hready. rewrite Hready. simpl.
    eexists. reflexivity.
Qed.

Lemma refresh_ok env st :
  auth_ready env (snd st) → fst (_refresh_cloud_session env st) = Ok tt.
Proof.
  intros Hready. unfold _refresh_cloud_session.
  destruct (is_cloud env) eqn:Hcloud; [|reflexivity].
  unfold bind.
  destruct (get_cloud_token_ok env st Hcloud Hready) as [tok Htok].
  pose proof (get_cloud_token_step env st) as Hstep.
  destruct (_get_cloud_token env st) as [[tok'|e] st1]; simpl in Htok, Hstep; [|discriminate].
  assert (Hready1 : auth_ready env (snd st1)).
  { eapply auth_ready_frame; [|exact Hready]. apply Hstep. }
  destruct (session_ok env st1 Hready1) as [r Hr].
  destruct (session env st1) as [[r'|e] st2]; simpl in Hr; [|discriminate].
  reflexivity.
Qed.

(** ** One attempt *)

Lemma run_frame_refl st : run_frame st st.
Proof. split; [apply session_kept_refl|]. split; reflexivity. Qed.

Lemma run_frame_trans st1 st2 st3 :
  run_frame st1 st2 → run_frame st2 st3 → run_frame st1 st3.
Proof.
  intros (Hk & Hs & Hl) (Hk' & Hs' & Hl'). split; [|split].
  - eapply session_kept_trans; eassumption.
  - congruence.
  - lia.
Qed.

Lemma auth_run_frame st st' : session_kept st st' → auth_frame st st' → run_frame st st'.
Proof.
  intros Hk (Hd & Hs & _). split; [exact Hk|]. split; [exact Hs|]. rewrite Hd. reflexivity.
Qed.

Lemma retry_loop_S env m url p mr n a st :
  retry_loop env m url p mr (S n) a st =
  (let* response := attempt env m url p in
   if status_code response =? 429 then
     time_sleep (5 * (a + 1)) ;;; retry_loop env m url p mr n (a + 1)
   else ret response) st.
Proof.
  unfold attempt. cbn [retry_loop]. unfold bind.
  destruct ((if is_cloud env then _refresh_cloud_session env else ret tt) st)
    as [[[]|e] st0]; [|reflexivity].
  destruct (session env st0) as [[r|e] st1]; [|reflexivity].
  destruct (session_request r m url p st1) as [[resp|e] st2]; reflexivity.
Qed.

Lemma session_request_frame r m url p st :
  _session (fst st) = Some r →
  run_frame st (snd (session_request r m url p st)) ∧
  session_ref (snd (session_request r m url p st)) = session_ref st ∧
  ∀ resp, fst (session_request r m url p st) = Ok resp →
          data_script (snd st) = Ok resp :: data_script (snd (snd (session_request r m url p st))).
Proof.
  intros Hs. destruct st as [c w]. simpl in Hs.
  assert (Hlog : ∀ d u, (length d ≤ length (data_script w))%nat →
            run_frame (c, w)
              (c, mkWorld (clock w) (heap w) (token_server w) (token_calls w) d
                    (trace w ++ [EvRequest r m u p]))).
  { intros d u Hd. split; [split; [|split]|split]; simpl.
    - eexists. split; [reflexivity|]. intros s m' u' p' [[= <- _ _ _]|[]]. exact Hs.
    - apply authorization_only_refl.
    - rewrite Hs. split; reflexivity.
    - reflexivity.
    - exact Hd. }
  destruct url as [| | |u| |]; simpl;
    try (split; [apply run_frame_refl|split; [reflexivity|discriminate]]).
  unfold session_request, log. simpl.
  destruct (data_script w) as [|o rest]; simpl.
  - split; [|split; [reflexivity|discriminate]].
    apply Hlog. reflexivity.
  - split; [|split; [destruct o; reflexivity|]].
    + destruct o as [resp|e]; simpl; apply Hlog; simpl; lia.
    + intros resp ->. reflexivity.
Qed.

Lemma attempt_frame env m url p st :
  run_frame st (snd (attempt env m url p st)) ∧
  session_ref (snd (attempt env m url p st)) = session_ref st ∧
  ∀ resp, fst (attempt env m url p st) = Ok resp →
          (length (data_script (snd (snd (attempt env m url p st))))
           < length (data_script (snd st)))%nat.
Proof.
  unfold attempt, bind.
  assert (H0 : run_frame st (snd ((if is_cloud env then _refresh_cloud_session env else ret tt) st))
               ∧ session_ref (snd ((if is_cloud env then _refresh_cloud_session env else ret tt) st))
                 = session_ref st).
  { destruct (is_cloud env); [|split; [apply run_frame_refl|reflexivity]].
    destruct (refresh_spec env st) as [Hk Hf].
    split; [apply auth_run_frame; assumption|apply Hf]. }
  destruct ((if is_cloud env then _refresh_cloud_session env else ret tt) st)
    as [[[]|e] st0]; simpl in H0; [|split; [apply H0|split; [apply H0|discriminate]]].
  destruct H0 as [H0 Href0].
  destruct (session_spec env st0) as (Hk1 & Hf1 & Hr1).
  destruct (session env st0) as [[r|e] st1]; simpl in Hk1, Hf1, Hr1.
  2: { split; [|split; [|discriminate]].
       - eapply run_frame_trans; [exact H0|apply auth_run_frame; assumption].
       - rewrite <- Href0. apply Hf1. }
  destruct (Hr1 r eq_refl) as [Hs1 _].
  destruct (session_request_frame r m url p st1 Hs1) as (H2 & Href2 & Hpop).
  destruct (session_request r m url p st1) as [[resp|e] st2]; simpl in *.
  all: split; [eapply run_frame_trans; [exact H0|];
               eapply run_frame_trans; [apply auth_run_frame; eassumption|exact H2]|].
  all: split; [rewrite Href2, <- Href0; apply Hf1|].
  - intros resp' _. specialize (Hpop resp eq_refl).
    destruct H0 as (_ & _ & Hl0). destruct Hf1 as (Hd1 & _).
    rewrite Hd1 in Hpop. 
    assert (length (data_script (snd st0)) = S (length (data_script (snd st2)))) as Hlen
      by (rewrite Hpop; reflexivity).
    lia.
  - discriminate.
Qed.

Lemma attempt_answer env m u p st o rest :
  auth_ready env (snd st) → data_script (snd st) = o :: rest →
  ∃ st', attempt env m (JStr u) p st = (o, st') ∧
         data_script (snd st') = rest ∧
         wire (trace (snd st')) =
           wire (trace (snd st)) ++ [EvRequest (session_ref st) m u p] ∧
         session_ref st' = session_ref st ∧
         externals (snd st') = externals (snd st).
Proof.
  intros Hready Hscript. unfold attempt, bind.
  assert (H0 : ∃ st0, (if is_cloud env then _refresh_cloud_session env else ret tt) st
                      = (Ok tt, st0) ∧ auth_frame st st0).
  { destruct (is_cloud env) eqn:Hcloud.
    - pose proof (refresh_ok env st Hready) as Hok.
      destruct (refresh_spec env st) as [_ Hf].
      destruct (_refresh_cloud_session env st) as [res st0]. simpl in *. subst res.
      exists st0. split; [reflexivity|exact Hf].
    - exists st. split; [reflexivity|apply auth_frame_refl]. }
  destruct H0 as (st0 & -> & Hf0).
  assert (Hready0 : auth_ready env (snd st0)).
  { eapply auth_ready_frame; [|exact Hready]. apply Hf0. }
  destruct (session_ok env st0 Hready0) as [r Hr].
  destruct (session_spec env st0) as (_ & Hf1 & Hret).
  destruct (session env st0) as [res [c1 w1]]. simpl in Hr, Hf1, Hret. subst res.
  destruct (Hret r eq_refl) as [_ ->].
  pose proof (auth_frame_trans _ _ _ Hf0 Hf1) as (Hd & Hsrv & Hw & Href).
  simpl in Hd, Hsrv, Hw. rewrite Hscript in Hd.
  destruct Hf0 as (_ & _ & _ & ->).
  unfold session_request, log. simpl. rewrite Hd.
  eexists. split; [reflexivity|]. simpl.
  unfold session_ref in *. simpl in *.
  destruct o as [resp|e]; simpl; rewrite wire_app, Hw; repeat split; assumption.
Qed.

(** ** The retry loop *)

Lemma time_sleep_frame d st :
  run_frame st (snd (time_sleep d st)) ∧
  session_ref (snd (time_sleep d st)) = session_ref st.
Proof.
  destruct st as [c w]. unfold time_sleep, log. simpl.
  split; [split; [split; [|split]|split]|]; simpl; try reflexivity.
  - eexists. split; [reflexivity|]. intros s m u p [[=]|[]].
  - apply authorization_only_refl.
  - destruct (_session c); [split|left; split]; reflexivity.
Qed.

Lemma retry_loop_frame env m url p mr n a st :
  run_frame st (snd (retry_loop env m url p mr n a st)) ∧
  session_ref (snd (retry_loop env m url p mr n a st)) = session_ref st ∧
  ∀ resp, fst (retry_loop env m url p mr n a st) = Ok resp →
          (length (data_script (snd (snd (retry_loop env m url p mr n a st))))
           < length (data_script (snd st)))%nat.
Proof.
  revert a st. induction n as [|n IH]; intros a st.
  { simpl. split; [apply run_frame_refl|split; [reflexivity|discriminate]]. }
  rewrite retry_loop_S. unfold bind.
  destruct (attempt_frame env m url p st) as (Hf & Href & Hpop).
  destruct (attempt env m url p st) as [[resp|e] st1]; simpl in Hf, Href, Hpop.
  2: { split; [exact Hf|split; [exact Href|discriminate]]. }
  specialize (Hpop resp eq_refl).
  destruct (status_code resp =? 429).
  - destruct (time_sleep_frame (5 * (a + 1)) st1) as [Hfs Hrefs].
    destruct (time_sleep (5 * (a + 1)) st1) as [[[]|e] st2] eqn:Hsl;
      [|discriminate Hsl].
    simpl in Hfs, Hrefs.
    destruct (IH (a + 1) st2) as (Hf2 & Href2 & Hpop2).
    split; [|split].
    + eapply run_frame_trans; [exact Hf|]. eapply run_frame_trans; eassumption.
    + congruence.
    + intros resp' Hok. specialize (Hpop2 resp' Hok).
      destruct Hfs as (_ & _ & Hl). lia.
  - simpl. split; [exact Hf|split; [exact Href|]]. intros _ _. exact Hpop.
Qed.

(** Rate-limited [k] times, then answered with something else: the answer
    is returned at once. *)
Lemma retry_loop_answered env m u p mr n a st rs o rest :
  auth_ready env (snd st) →
  data_script (snd st) = map Ok rs ++ o :: rest →
  Forall (λ r, status_code r = 429) rs →
  match o with Ok r => status_code r ≠ 429 | Raise _ => True end →
  (length rs < n)%nat →
  ∃ st', retry_loop env m (JStr u) p mr n a st = (o, st') ∧
         data_script (snd st') = rest ∧
         wire (trace (snd st')) =
           wire (trace (snd st)) ++
           backoff_rounds (EvRequest (session_ref st) m u p) a (length rs) ++
           [EvRequest (session_ref st) m u p] ∧
         session_ref st' = session_ref st ∧
         externals (snd st') = externals (snd st).
Proof.
  revert n a st. induction rs as [|r rs IH]; intros n a st Hready Hscript H429 Ho Hn.
  - destruct n as [|n]; [simpl in Hn; lia|].
    simpl in Hscript.
    destruct (attempt_answer env m u p st o rest Hready Hscript)
      as (st1 & Hatt & Hd & Hw & Href & Hsrv).
    rewrite retry_loop_S. unfold bind. rewrite Hatt.
    destruct o as [resp|e].
    + apply Z.eqb_neq in Ho. rewrite Ho. exists st1. repeat split; assumption.
    + exists st1. repeat split; assumption.
  - destruct n as [|n]; [simpl in Hn; lia|].
    simpl in Hscript. inversion H429 as [|? ? Hr H429']; subst.
    destruct (attempt_answer env m u p st (Ok r) _ Hready Hscript)
      as (st1 & Hatt & Hd & Hw & Href & Hsrv).
    rewrite retry_loop_S. unfold bind. rewrite Hatt.
    apply Z.eqb_eq in Hr. rewrite Hr.
    destruct st1 as [c1 w1]. unfold time_sleep at 1. cbn [fst snd].
    set (st2 := (c1, log (EvSleep (5 * (a + 1))) w1)).
    assert (Hready2 : auth_ready env (snd st2)).
    { apply (auth_ready_frame env st st2); [|exact Hready].
      unfold st2, externals in *. simpl in *. exact Hsrv. }
    destruct (IH n (a + 1) st2 Hready2) as (st' & Hloop & Hd' & Hw' & Href' & Hsrv').
    { simpl. exact Hd. }
    { exact H429'. }
    { exact Ho. }
    { simpl in Hn. lia. }
    exists st'. split; [exact Hloop|]. split; [exact Hd'|].
    assert (Href2 : session_ref st2 = session_ref st).
    { unfold session_ref in *. simpl in *. exact Href. }
    rewrite Href2 in *. split; [|split; [congruence|]].
    + rewrite Hw'. simpl in Hw.
      change (trace (snd st2)) with (trace w1 ++ [EvSleep (5 * (a + 1))]).
      rewrite wire_app, Hw.
      change (wire [EvSleep (5 * (a + 1))]) with [EvSleep (5 * (a + 1))].
      cbn [backoff_rounds length]. rewrite <- !app_assoc. reflexivity.
    + rewrite Hsrv'. simpl. exact Hsrv.
Qed.

(** Rate-limited on every one of the [n] attempts left: the loop raises. *)
Lemma retry_loop_exhausted env m u p mr n a st rs rest :
  auth_ready env (snd st) →
  data_script (snd st) = map Ok rs ++ rest →
  Forall (λ r, status_code r = 429) rs →
  length rs = n →
  ∃ st', retry_loop env m (JStr u) p mr n a st = (Raise (rate_limited mr), st') ∧
         data_script (snd st') = rest ∧
         wire (trace (snd st')) =
           wire (trace (snd st)) ++
           backoff_rounds (EvRequest (session_ref st) m u p) a n.
Proof.
  revert n a st. induction rs as [|r rs IH]; intros n a st Hready Hscript H429 Hn.
  - simpl in Hn. subst n. simpl in Hscript. exists st. simpl.
    split; [reflexivity|]. split; [exact Hscript|]. symmetry. apply app_nil_r.
  - simpl in Hn. subst n. simpl in Hscript. inversion H429 as [|? ? Hr H429']; subst.
    destruct (attempt_answer env m u p st (Ok r) _ Hready Hscript)
      as (st1 & Hatt & Hd & Hw & Href & Hsrv).
    rewrite retry_loop_S. unfold bind. rewrite Hatt.
    apply Z.eqb_eq in Hr. rewrite Hr.
    destruct st1 as [c1 w1]. unfold time_sleep at 1. cbn [fst snd].
    set (st2 := (c1, log (EvSleep (5 * (a + 1))) w1)).
    assert (Hready2 : auth_ready env (snd st2)).
    { apply (auth_ready_frame env st st2); [|exact Hready].
      unfold st2, externals in *. simpl in *. exact Hsrv. }
    destruct (IH (length rs) (a + 1) st2 Hready2) as (st' & Hloop & Hd' & Hw').
    { simpl. exact Hd. }
    { exact H429'. }
    { reflexivity. }
    exists st'. split; [exact Hloop|]. split; [exact Hd'|].
    assert (Href2 : session_ref st2 = session_ref st).
    { unfold session_ref in *. simpl in *. exact Href. }
    rewrite Href2 in *.
    rewrite Hw'. simpl in Hw.
    change (trace (snd st2)) with (trace w1 ++ [EvSleep (5 * (a + 1))]).
    rewrite wire_app, Hw.
    change (wire [EvSleep (5 * (a + 1))]) with [EvSleep (5 * (a + 1))].
    cbn [backoff_rounds length]. rewrite <- !app_assoc. reflexivity.
Qed.

(** C2.  With max_retries = 3 and authentication working: answered 429,
    429 and then 200, the wrapper returns that third response after three
    requests with sleeps of 5 and then 10 seconds between them; answered 429
    three times, it raises the rate-limit exception and returns no response;
    and an answer other than 429 on any of the three attempts is returned at
    once, with no further request. *)
Theorem request_with_retry_backoff env m u p (st : State) :
  auth_ready env (snd st) →
  let request := EvRequest (session_ref st) m u p in
  (∀ r1 r2 r3 rest,
     status_code r1 = 429 → status_code r2 = 429 → status_code r3 = 200 →
     data_script (snd st) = Ok r1 :: Ok r2 :: Ok r3 :: rest →
     ∃ st', _request_with_retry env m (JStr u) 3 p st = (Ok r3, st') ∧
            wire (trace (snd st')) =
              wire (trace (snd st)) ++
              [request; EvSleep 5; request; EvSleep 10; request] ∧
            data_script (snd st') = rest) ∧
  (∀ r1 r2 r3 rest,
     status_code r1 = 429 → status_code r2 = 429 → status_code r3 = 429 →
     data_script (snd st) = Ok r1 :: Ok r2 :: Ok r3 :: rest →
     ∃ st', _request_with_retry env m (JStr u) 3 p st =
              (Raise (PyException "Rate limited after 3 retries"), st') ∧
            wire (trace (snd st')) =
              wire (trace (snd st)) ++
              [request; EvSleep 5; request; EvSleep 10; request; EvSleep 15] ∧
            data_script (snd st') = rest) ∧
  (∀ rs r rest,
     Forall (λ r', status_code r' = 429) rs → (length rs < 3)%nat →
     status_code r ≠ 429 →
     data_script (snd st) = map Ok rs ++ Ok r :: rest →
     ∃ st', _request_with_retry env m (JStr u) 3 p st = (Ok r, st') ∧
            wire (trace (snd st')) =
              wire (trace (snd st)) ++ backoff_rounds request 0 (length rs) ++ [request] ∧
            data_script (snd st') = rest).
Proof.
  intros Hready request. unfold _request_with_retry. split; [|split].
  - intros r1 r2 r3 rest H1 H2 H3 Hscript.
    destruct (retry_loop_answered env m u p 3 3 0 st [r1; r2] (Ok r3) rest Hready)
      as (st' & Hrun & Hd & Hw & _); try assumption.
    + repeat constructor; assumption.
    + rewrite H3. discriminate.
    + simpl. lia.
    + exists st'. split; [exact Hrun|]. split; [exact Hw|exact Hd].
  - intros r1 r2 r3 rest H1 H2 H3 Hscript.
    destruct (retry_loop_exhausted env m u p 3 3 0 st [r1; r2; r3] rest Hready)
      as (st' & Hrun & Hd & Hw); try assumption.
    + repeat constructor; assumption.
    + reflexivity.
    + exists st'. split; [exact Hrun|]. split; [exact Hw|exact Hd].
  - intros rs r rest H429 Hlen Hr Hscript.
    destruct (retry_loop_answered env m u p 3 3 0 st rs (Ok r) rest Hready)
      as (st' & Hrun & Hd & Hw & _); try assumption.
    exists st'. split; [exact Hrun|]. split; [exact Hw|exact Hd].
Qed.

Lemma auth_ready_onprem_sample w : auth_ready env_onprem_ready w.
Proof. vm_compute. reflexivity. Qed.

Lemma request_with_retry_backoff_witness :
  let st := (new_client,
             world_with (Raise ConnectionError)
               [Ok (reply 429 None); Ok (reply 429 None); Ok (reply 200 None)]) in
  let st_limited := (new_client,
             world_with (Raise ConnectionError)
               [Ok (reply 429 None); Ok (reply 429 None); Ok (reply 429 None)]) in
  let st_error := (new_client,
             world_with (Raise ConnectionError)
               [Ok (reply 429 None); Ok (reply 503 None)]) in
  let request := EvRequest 0 "GET" "https://ddc.corp/x" None in
  (∃ st', _request_with_retry env_onprem_ready "GET" (JStr "https://ddc.corp/x") 3 None st
            = (Ok (reply 200 None), st') ∧
          wire (trace (snd st')) =
            [] ++ [request; EvSleep 5; request; EvSleep 10; request] ∧
          data_script (snd st') = []) ∧
  (∃ st', _request_with_retry env_onprem_ready "GET" (JStr "https://ddc.corp/x") 3 None
            st_limited
            = (Raise (PyException "Rate limited after 3 retries"), st') ∧
          wire (trace (snd st')) =
            [] ++ [request; EvSleep 5; request; EvSleep 10; request; EvSleep 15] ∧
          data_script (snd st') = []) ∧
  (∃ st', _request_with_retry env_onprem_ready "GET" (JStr "https://ddc.corp/x") 3 None
            st_error
            = (Ok (reply 503 None), st') ∧
          wire (trace (snd st')) =
            [] ++ backoff_rounds request 0 1 ++ [request] ∧
          data_script (snd st') = []).
Proof.
  intros st st_limited st_error request. split; [|split].
  - apply (proj1 (request_with_retry_backoff env_onprem_ready "GET"
                    "https://ddc.corp/x" None st (auth_ready_onprem_sample _))
             (reply 429 None) (reply 429 None) (reply 200 None) []);
      reflexivity.
  - apply (proj1 (proj2 (request_with_retry_backoff env_onprem_ready "GET"
                    "https://ddc.corp/x" None st_limited (auth_ready_onprem_sample _)))
             (reply 429 None) (reply 429 None) (reply 429 None) []);
      reflexivity.
  - apply (proj2 (proj2 (request_with_retry_backoff env_onprem_ready "GET"
                    "https://ddc.corp/x" None st_error (auth_ready_onprem_sample _)))
             [reply 429 None] (reply 503 None) []).
    + repeat constructor.
    + simpl. lia.
    + discriminate.
    + reflexivity.
Defined.

(** ** Pagination *)

Lemma read_page_state {S} r (st : S) : snd (read_page r st) = st.
Proof.
  unfold read_page. run_monad.
  destruct (is_error_status (status_code r)); [reflexivity|].
  destruct (json_body r) as [d|]; [|reflexivity].
  destruct (dict_get d "value" (JArr [])) as [v|]; [|reflexivity]. simpl.
  destruct (py_iter v) as [items|]; [|reflexivity]. simpl.
  destruct (dict_get d "@odata.nextLink" JNull); reflexivity.
Qed.

Lemma read_page_of_page {S} r items next (st : S) :
  is_page r items next → read_page r st = (Ok (items, link_value next), st).
Proof.
  intros (_ & Hstatus & fields & Hbody & Hvalue & Hnext).
  unfold read_page. run_monad. rewrite Hstatus, Hbody. unfold dict_get.
  assert (Hitems : py_iter (default (JArr []) (Json.assoc "value" fields)) = Ok items).
  { destruct Hvalue as [->|[-> ->]]; reflexivity. }
  simpl. rewrite Hitems. simpl.
  destruct next as [u|]; [destruct Hnext as [-> _]|rewrite Hnext]; reflexivity.
Qed.

Lemma path_truthy a b : PyStr.truthy (a +:+ "/" +:+ b) = true.
Proof. destruct a; reflexivity. Qed.

Lemma truthy_nonempty u : u ≠ "" → PyStr.truthy u = true.
Proof. destruct u; [congruence|reflexivity]. Qed.

Lemma paged_length ps us : paged ps us → length ps = S (length us).
Proof. induction 1; simpl; congruence. Qed.

Lemma query_loop_pages env ps us :
  paged ps us →
  ∀ fuel u params acc st rest,
    auth_ready env (snd st) →
    PyStr.truthy u = true →
    data_script (snd st) = arrivals ps ++ rest →
    (length ps ≤ fuel)%nat →
    ∃ st', query_loop env fuel (JStr u) params acc st
             = Some (Ok (acc ++ all_records ps), st') ∧
           data_script (snd st') = rest ∧
           wire (trace (snd st')) =
             wire (trace (snd st)) ++
             EvRequest (session_ref st) "GET" u params ::
             follow_ups (session_ref st) us.
Proof.
  induction 1 as [r items Hpage|r items u' ps us Hpage Hrest IH];
    intros fuel u params acc st rest Hready Hu Hscript Hfuel.
  - destruct fuel as [|fuel]; [simpl in Hfuel; lia|].
    destruct (retry_loop_answered env "GET" u params 3 3 0 st [] (Ok r) rest Hready)
      as (st1 & Hrun & Hd & Hw & _).
    { exact Hscript. } { constructor. } { apply Hpage. } { simpl. lia. }
    cbn [query_loop]. simpl Json.truthy. rewrite Hu. cbn [negb].
    unfold _request_with_retry. rewrite Hrun.
    rewrite (read_page_of_page r items None st1 Hpage).
    destruct fuel; simpl; (exists st1; split; [|split; [exact Hd|exact Hw]]);
      unfold all_records; simpl; rewrite app_nil_r; reflexivity.
  - destruct fuel as [|fuel]; [simpl in Hfuel; lia|].
    destruct (retry_loop_answered env "GET" u params 3 3 0 st [] (Ok r)
                (arrivals ps ++ rest) Hready)
      as (st1 & Hrun & Hd & Hw & Href & Hsrv).
    { exact Hscript. } { constructor. } { apply Hpage. } { simpl. lia. }
    cbn [query_loop]. simpl Json.truthy. rewrite Hu. cbn [negb].
    unfold _request_with_retry. rewrite Hrun.
    rewrite (read_page_of_page r items (Some u') st1 Hpage).
    assert (Hready1 : auth_ready env (snd st1)).
    { eapply auth_ready_frame; eassumption. }
    assert (Hu' : PyStr.truthy u' = true).
    { apply truthy_nonempty. destruct Hpage as (_ & _ & fields & _ & _ & _ & Hne). exact Hne. }
    destruct (IH fuel u' None (acc ++ items) st1 rest Hready1 Hu' Hd)
      as (st' & Hloop & Hd' & Hw').
    { simpl in Hfuel. lia. }
    exists st'. split; [|split; [exact Hd'|]].
    + unfold link_value. rewrite Hloop. unfold all_records. simpl.
      rewrite app_assoc. reflexivity.
    + rewrite Hw', Hw, Href. simpl. rewrite <- app_assoc. reflexivity.
Qed.

(** The loop of [query] ends within the iterations [query] allows it, and
    leaves the session and the token endpoint alone. *)
Lemma query_loop_enough env fuel :
  ∀ url params acc st,
    (length (data_script (snd st)) < fuel)%nat →
    ∃ out, query_loop env fuel url params acc st = Some out ∧ run_frame st (snd out).
Proof.
  induction fuel as [|fuel IH]; intros url params acc st Hfuel; [lia|].
  cbn [query_loop]. destruct (negb (Json.truthy url)).
  { eexists. split; [reflexivity|apply run_frame_refl]. }
  unfold _request_with_retry.
  destruct (retry_loop_frame env "GET" url params 3 3 0 st) as (Hf & _ & Hpop).
  destruct (retry_loop env "GET" url params 3 3 0 st) as [[response|e] st1];
    simpl in Hf, Hpop.
  2: { eexists. split; [reflexivity|exact Hf]. }
  specialize (Hpop response eq_refl).
  pose proof (read_page_state response st1) as Hsame.
  destruct (read_page response st1) as [[[items next]|e] st2]; simpl in Hsame; subst st2.
  2: { eexists. split; [reflexivity|exact Hf]. }
  destruct (IH next None (acc ++ items) st1) as (out & Hout & Hf1); [lia|].
  exists out. split; [exact Hout|]. eapply run_frame_trans; eassumption.
Qed.

Lemma query_terminates env entity opts st :
  ∃ out, query_loop env (query_fuel st) (JStr (base_url env +:+ "/" +:+ entity))
           (Some (query_params opts)) [] st = Some out ∧
         query env entity opts st = out ∧
         run_frame st (snd out).
Proof.
  destruct (query_loop_enough env (query_fuel st)
              (JStr (base_url env +:+ "/" +:+ entity)) (Some (query_params opts)) [] st)
    as (out & Hout & Hf).
  { unfold query_fuel. lia. }
  exists out. split; [exact Hout|]. split; [|exact Hf].
  unfold query. rewrite Hout. reflexivity.
Qed.

Lemma query_pages_run env entity opts (st : State) ps us rest :
  auth_ready env (snd st) →
  paged ps us →
  data_script (snd st) = arrivals ps ++ rest →
  ∃ st',
    query env entity opts st = (Ok (all_records ps), st') ∧
    wire (trace (snd st')) =
      wire (trace (snd st)) ++
      EvRequest (session_ref st) "GET" (base_url env +:+ "/" +:+ entity)
        (Some (query_params opts)) :: follow_ups (session_ref st) us ∧
    data_script (snd st') = rest.
Proof.
  intros Hready Hpaged Hscript.
  destruct (query_loop_pages env ps us Hpaged (query_fuel st)
              (base_url env +:+ "/" +:+ entity) (Some (query_params opts)) [] st rest
              Hready (path_truthy _ _) Hscript)
    as (st' & Hloop & Hd & Hw).
  { unfold query_fuel. rewrite Hscript, length_app. unfold arrivals.
    rewrite length_map. lia. }
  exists st'. split; [|split; [exact Hw|exact Hd]].
  unfold query. rewrite Hloop. reflexivity.
Qed.

(** C1.  When authentication works and the data endpoint answers with a
    paginated response (pages linked by next-page links, the last without
    one), [query] returns exactly the records of the pages, concatenated in
    the order the pages arrive; it makes one request per page; the first
    request goes to the entity's URL with the parameters built from the
    options, and each later one goes to the previous page's link as it is,
    with no parameters. *)
Theorem query_concatenates_pages env entity opts (st : State) ps us rest :
  auth_ready env (snd st) →
  paged ps us →
  data_script (snd st) = arrivals ps ++ rest →
  ∃ st',
    query env entity opts st = (Ok (concat (map snd ps)), st') ∧
    wire (trace (snd st')) =
      wire (trace (snd st)) ++
      EvRequest (session_ref st) "GET" (base_url env +:+ "/" +:+ entity)
        (Some (query_params opts)) ::
      map (λ u, EvRequest (session_ref st) "GET" u None) us ∧
    length (EvRequest (session_ref st) "GET" (base_url env +:+ "/" +:+ entity)
              (Some (query_params opts)) ::
            map (λ u, EvRequest (session_ref st) "GET" u None) us) = length ps ∧
    data_script (snd st') = rest.
Proof.
  intros Hready Hpaged Hscript.
  destruct (query_pages_run env entity opts st ps us rest Hready Hpaged Hscript)
    as (st' & Hq & Hw & Hd).
  exists st'. split; [exact Hq|]. split; [exact Hw|]. split; [|exact Hd].
  simpl. rewrite length_map. symmetry. apply paged_length, Hpaged.
Qed.

Lemma page_1_is_page :
  is_page page_1 [JInt 1; JInt 2] (Some "https://ddc.corp/next?$skip=2").
Proof.
  split; [discriminate|]. split; [reflexivity|]. eexists. split; [reflexivity|].
  split; [left; reflexivity|]. split; [reflexivity|discriminate].
Defined.

Lemma page_2_is_page : is_page page_2 [JInt 3] None.
Proof.
  split; [discriminate|]. split; [reflexivity|]. eexists. split; [reflexivity|].
  split; [left; reflexivity|reflexivity].
Defined.

Lemma page_no_value_is_page :
  is_page page_no_value [] (Some "https://ddc.corp/next?$skip=2").
Proof.
  split; [discriminate|]. split; [reflexivity|]. eexists. split; [reflexivity|].
  split; [right; split; reflexivity|]. split; [reflexivity|discriminate].
Defined.

Lemma auth_ready_cloud_sample script :
  auth_ready env_cloud_ready (world_with (Ok token_reply_3600) script).
Proof. split; [reflexivity|]. intros n. reflexivity. Qed.

Lemma query_concatenates_pages_witness :
  (∃ st',
     query env_onprem_ready "Machines" (mkOpts None None None (Some 2) None None false)
       (new_client, world_with (Raise ConnectionError) [Ok page_1; Ok page_2])
     = (Ok [JInt 1; JInt 2; JInt 3], st') ∧
     wire (trace (snd st')) =
       [] ++
       [EvRequest 0 "GET" "https://ddc.corp/Citrix/Monitor/OData/v4/Data/Machines"
          (Some (<["$top" := PInt 2]> ∅));
        EvRequest 0 "GET" "https://ddc.corp/next?$skip=2" None] ∧
     2%nat = 2%nat ∧
     data_script (snd st') = []) ∧
  (∃ st',
     query env_cloud_ready "Machines" no_opts
       (new_client, world_with (Ok token_reply_3600) [Ok page_1; Ok page_2])
     = (Ok [JInt 1; JInt 2; JInt 3], st') ∧
     wire (trace (snd st')) =
       [] ++
       [EvRequest 0 "GET" "https://api-us.cloud.com/monitorodata/Machines" (Some ∅);
        EvRequest 0 "GET" "https://ddc.corp/next?$skip=2" None] ∧
     2%nat = 2%nat ∧
     data_script (snd st') = []).
Proof.
  split.
  - apply (query_concatenates_pages env_onprem_ready "Machines"
             (mkOpts None None None (Some 2) None None false)
             (new_client, world_with (Raise ConnectionError) [Ok page_1; Ok page_2])
             [(page_1, [JInt 1; JInt 2]); (page_2, [JInt 3])]
             ["https://ddc.corp/next?$skip=2"] []).
    + apply auth_ready_onprem_sample.
    + apply paged_next; [exact page_1_is_page|apply paged_last; exact page_2_is_page].
    + reflexivity.
  - apply (query_concatenates_pages env_cloud_ready "Machines" no_opts
             (new_client, world_with (Ok token_reply_3600) [Ok page_1; Ok page_2])
             [(page_1, [JInt 1; JInt 2]); (page_2, [JInt 3])]
             ["https://ddc.corp/next?$skip=2"] []).
    + apply auth_ready_cloud_sample.
    + apply paged_next; [exact page_1_is_page|apply paged_last; exact page_2_is_page].
    + reflexivity.
Defined.

Lemma is_page_lacks_value r items next :
  is_page r items next → lacks_value r → items = [].
Proof.
  intros (_ & _ & fields & Hbody & Hvalue & _) (fields' & Hbody' & Hnone).
  rewrite Hbody in Hbody'. injection Hbody' as <-.
  destruct Hvalue as [Hsome|[_ ->]]; [congruence|reflexivity].
Qed.

Lemma paged_middle ps1 r items ps2 us :
  paged (ps1 ++ (r, items) :: ps2) us → ∃ next, is_page r items next.
Proof.
  revert us. induction ps1 as [|p ps1 IH]; intros us Hp; simpl in Hp.
  - inversion Hp; subst; eauto.
  - inversion Hp as [? ? ? Heq|? ? ? ? ? ? Hrest]; subst.
    + destruct ps1; discriminate.
    + eapply IH, Hrest.
Qed.

(** C9.  A page whose body is an object without a [value] field is read
    as no records, whatever else the body holds, and the loop goes on to the
    link the body carries; so a paginated query in which such a page arrives
    anywhere returns the records of the other pages, raising nothing and
    requesting every link. *)
Theorem query_page_without_value env entity opts (st : State)
    ps1 r items ps2 us rest fields :
  json_body r = Some (JObj fields) →
  Json.assoc "value" fields = None →
  is_error_status (status_code r) = false →
  (∀ st0 : State,
     read_page r st0 =
     (Ok ([], default JNull (Json.assoc "@odata.nextLink" fields)), st0)) ∧
  (auth_ready env (snd st) →
   paged (ps1 ++ (r, items) :: ps2) us →
   data_script (snd st) = arrivals (ps1 ++ (r, items) :: ps2) ++ rest →
   ∃ st',
     query env entity opts st
     = (Ok (concat (map snd ps1) ++ concat (map snd ps2)), st') ∧
     wire (trace (snd st')) =
       wire (trace (snd st)) ++
       EvRequest (session_ref st) "GET" (base_url env +:+ "/" +:+ entity)
         (Some (query_params opts)) ::
       map (λ u, EvRequest (session_ref st) "GET" u None) us ∧
     data_script (snd st') = rest).
Proof.
  intros Hbody Hnone Hstatus. split.
  - intros st0. unfold read_page. run_monad. rewrite Hstatus, Hbody.
    unfold dict_get. rewrite Hnone. reflexivity.
  - intros Hready Hpaged Hscript.
    destruct (paged_middle _ _ _ _ _ Hpaged) as [next Hpage].
    assert (Hitems : items = []).
    { eapply is_page_lacks_value; [exact Hpage|]. exists fields. split; assumption. }
    destruct (query_pages_run env entity opts st _ us rest Hready Hpaged Hscript)
      as (st' & Hq & Hw & Hd).
    exists st'. split; [|split; assumption].
    rewrite Hq. unfold all_records. rewrite map_app, concat_app. subst items.
    reflexivity.
Qed.

Lemma query_page_without_value_witness :
  read_page page_no_value (new_client, world_with (Raise ConnectionError) [])
  = (Ok ([], JStr "https://ddc.corp/next?$skip=2"),
     (new_client, world_with (Raise ConnectionError) [])) ∧
  ∃ st',
    query env_onprem_ready "Machines" no_opts
      (new_client, world_with (Raise ConnectionError) [Ok page_no_value; Ok page_2])
    = (Ok ([] ++ [JInt 3]), st') ∧
    wire (trace (snd st')) =
      [] ++
      [EvRequest 0 "GET" "https://ddc.corp/Citrix/Monitor/OData/v4/Data/Machines"
         (Some ∅);
       EvRequest 0 "GET" "https://ddc.corp/next?$skip=2" None] ∧
    data_script (snd st') = [].
Proof.
  pose proof (query_page_without_value env_onprem_ready "Machines" no_opts
                (new_client,
                 world_with (Raise ConnectionError) [Ok page_no_value; Ok page_2])
                [] page_no_value [] [(page_2, [JInt 3])]
                ["https://ddc.corp/next?$skip=2"] []
                [("@odata.context", JStr "ctx");
                 ("@odata.nextLink", JStr "https://ddc.corp/next?$skip=2")]
                eq_refl eq_refl eq_refl) as [Hread Hquery].
  split.
  - apply Hread.
  - apply Hquery.
    + apply auth_ready_onprem_sample.
    + apply paged_next; [exact page_no_value_is_page|apply paged_last; exact page_2_is_page].
    + reflexivity.
Defined.

(** ** Single-entity lookup *)

Lemma is_error_status_spec s : is_error_status s = true ↔ 400 ≤ s < 600.
Proof. unfold is_error_status. rewrite andb_true_iff, Z.leb_le, Z.ltb_lt. tauto. Qed.

Lemma is_error_status_false s : is_error_status s = false ↔ ¬ (400 ≤ s < 600).
Proof.
  rewrite <- is_error_status_spec. destruct (is_error_status s); split; congruence.
Qed.

(** C4 (as amended).  When authentication works and the lookup's request
    is answered, after fewer than three rate-limit answers, by a response
    [r] that is not one, the only requests made are those attempts at the
    entity's URL, whatever the body holds (no pagination), and: status 404
    gives [None] with no error; any other status from 400 to 599 raises the
    HTTP error; any other status (2xx, and also 1xx or 3xx) raises no HTTP
    error: the decoded body is returned, or the decoding error raised when
    the body is not JSON. *)
Theorem query_single_by_status env entity k expand (st : State) rs r rest :
  auth_ready env (snd st) →
  Forall (λ r', status_code r' = 429) rs → (length rs < 3)%nat →
  data_script (snd st) = map Ok rs ++ Ok r :: rest →
  status_code r ≠ 429 →
  let request :=
    EvRequest (session_ref st) "GET"
      (base_url env +:+ "/" +:+ entity +:+ "(" +:+ str_key k +:+ ")")
      (single_params expand) in
  ∃ st',
    wire (trace (snd st')) =
      wire (trace (snd st)) ++ backoff_rounds request 0 (length rs) ++ [request] ∧
    data_script (snd st') = rest ∧
    (status_code r = 404 →
       query_single env entity k expand st = (Ok JNull, st')) ∧
    (status_code r ≠ 404 → 400 ≤ status_code r < 600 →
       query_single env entity k expand st = (Raise (HTTPError r), st')) ∧
    (¬ (400 ≤ status_code r < 600) →
       query_single env entity k expand st =
       (match json_body r with
        | Some v => Ok v
        | None => Raise JSONDecodeError
        end, st')).
Proof.
  intros Hready Hlimited Hlen Hscript H429 request.
  destruct (retry_loop_answered env "GET"
              (base_url env +:+ "/" +:+ entity +:+ "(" +:+ str_key k +:+ ")")
              (single_params expand) 3 3 0 st rs (Ok r) rest Hready)
    as (st' & Hrun & Hd & Hw & _); try assumption.
  exists st'. split; [exact Hw|]. split; [exact Hd|].
  unfold query_single, _request_with_retry, bind. rewrite Hrun.
  split; [|split].
  - intros ->. reflexivity.
  - intros H404 Herr. apply Z.eqb_neq in H404. rewrite H404.
    apply is_error_status_spec in Herr. unfold raise_for_status. rewrite Herr.
    reflexivity.
  - intros Hok. assert (H404 : status_code r ≠ 404) by lia.
    apply Z.eqb_neq in H404. rewrite H404.
    apply is_error_status_false in Hok. unfold raise_for_status. rewrite Hok.
    unfold response_json, ret, raise. destruct (json_body r); reflexivity.
Qed.

Lemma query_single_by_status_witness :
  (∃ st',
     query_single env_onprem_ready "Machines" (KInt 7) None
       (new_client, world_with (Raise ConnectionError) [Ok (reply 404 None)])
     = (Ok JNull, st')) ∧
  (∃ st',
     query_single env_onprem_ready "Machines" (KInt 7) None
       (new_client,
        world_with (Raise ConnectionError) [Ok (reply 429 None); Ok (reply 500 None)])
     = (Raise (HTTPError (reply 500 None)), st')) ∧
  (∃ st',
     query_single env_onprem_ready "Machines" (KInt 7) None
       (new_client, world_with (Raise ConnectionError) [Ok page_2])
     = (Ok (JObj [("value", JArr [JInt 3])]), st')).
Proof.
  split; [|split].
  - destruct (query_single_by_status env_onprem_ready "Machines" (KInt 7) None
                (new_client, world_with (Raise ConnectionError) [Ok (reply 404 None)])
                [] (reply 404 None) [] (auth_ready_onprem_sample _))
      as (st' & _ & _ & H404 & _ & _);
      [constructor|simpl; lia|reflexivity|discriminate|].
    exists st'. apply H404. reflexivity.
  - destruct (query_single_by_status env_onprem_ready "Machines" (KInt 7) None
                (new_client,
                 world_with (Raise ConnectionError)
                   [Ok (reply 429 None); Ok (reply 500 None)])
                [reply 429 None] (reply 500 None) [] (auth_ready_onprem_sample _))
      as (st' & _ & _ & _ & H500 & _);
      [repeat constructor|simpl; lia|reflexivity|discriminate|].
    exists st'. apply H500; [discriminate|simpl; lia].
  - destruct (query_single_by_status env_onprem_ready "Machines" (KInt 7) None
                (new_client, world_with (Raise ConnectionError) [Ok page_2])
                [] page_2 [] (auth_ready_onprem_sample _))
      as (st' & _ & _ & _ & _ & H200);
      [constructor|simpl; lia|reflexivity|discriminate|].
    exists st'. apply H200. simpl. lia.
Defined.

(** C4, counterexample.  A response with status 300, which is neither 2xx
    nor 404, and a JSON body: the lookup raises nothing and returns the
    body. *)
Lemma query_single_300_returns_body :
  status_code reply_300 = 300 ∧
  fst (query_single env_onprem_ready "Machines" (KInt 7) None
         (new_client, world_with (Raise ConnectionError) [Ok reply_300]))
  = Ok (JObj [("Id", JInt 7)]) ∧
  ¬ (∃ e, fst (query_single env_onprem_ready "Machines" (KInt 7) None
                 (new_client, world_with (Raise ConnectionError) [Ok reply_300]))
          = Raise e).
Proof.
  assert (H : fst (query_single env_onprem_ready "Machines" (KInt 7) None
                     (new_client, world_with (Raise ConnectionError) [Ok reply_300]))
              = Ok (JObj [("Id", JInt 7)])).
  { vm_compute. reflexivity. }
  split; [reflexivity|]. split; [exact H|].
  intros [e He]. rewrite H in He. discriminate.
Qed.

(** ** Token caching *)

Lemma token_is_fresh_iff c t : token_is_fresh c t = true ↔ cached_token_valid c t.
Proof.
  unfold token_is_fresh, cached_token_valid. split.
  - intros H. apply andb_true_iff in H as [Htok Hexp].
    split; [exact Htok|].
    destruct (_token_expiry c) as [e|]; [|discriminate].
    exists e. split; [reflexivity|apply Z.ltb_lt, Hexp].
  - intros (Htok & e & -> & Hlt). apply andb_true_iff. split.
    + exact Htok.
    + apply Z.ltb_lt, Hlt.
Qed.

Lemma token_not_fresh c t : ¬ cached_token_valid c t → token_is_fresh c t = false.
Proof.
  intros Hnot. destruct (token_is_fresh c t) eqn:E; [|reflexivity].
  apply token_is_fresh_iff in E. contradiction.
Qed.

Lemma get_cloud_token_posts env c w :
  token_is_fresh c (now w) = false → cloud_credentials env = true →
  trace (snd (snd (_get_cloud_token env (c, w)))) = trace w ++ [token_event env] ∧
  token_calls (snd (snd (_get_cloud_token env (c, w)))) = S (token_calls w).
Proof.
  intros Hfresh Hcred. unfold _get_cloud_token. run_monad. rewrite Hfresh.
  unfold cloud_credentials in Hcred. rewrite Hcred. simpl.
  unfold requests_post, log. simpl.
  destruct (token_server w (token_calls w)) as [r|e]; simpl; [|split; reflexivity].
  destruct (is_error_status (status_code r)); simpl; [split; reflexivity|].
  destruct (json_body r) as [d|]; simpl; [|split; reflexivity].
  destruct (access_token_of d) as [tok|e]; simpl; [|split; reflexivity].
  destruct (expires_in_of d) as [n|e]; simpl; [|split; reflexivity].
  destruct (timedelta_seconds (n - 300)) as [delta|e]; simpl; [|split; reflexivity].
  destruct (datetime_add _ delta) as [expiry|e]; simpl; split; reflexivity.
Qed.

(** An exchange answered with an access_token: the token is stored, then
    the expiry is computed, which may raise. *)
Lemma get_cloud_token_answered env c w r d tok :
  token_is_fresh c (now w) = false → cloud_credentials env = true →
  token_server w (token_calls w) = Ok r →
  is_error_status (status_code r) = false →
  json_body r = Some d → access_token_of d = Ok tok →
  _get_cloud_token env (c, w) =
  match expiry_of (now (after_exchange w (token_event env))) d with
  | Ok e =>
      (Ok tok,
       (mkClient (_session c) tok (Some e), after_exchange w (token_event env)))
  | Raise x =>
      (Raise x,
       (mkClient (_session c) tok (_token_expiry c),
        after_exchange w (token_event env)))
  end.
Proof.
  intros Hfresh Hcred Hsrv Hstatus Hbody Htok.
  unfold _get_cloud_token. run_monad. rewrite Hfresh.
  unfold cloud_credentials in Hcred. rewrite Hcred. simpl.
  unfold requests_post. simpl. rewrite Hsrv. simpl.
  rewrite Hstatus. simpl. rewrite Hbody. simpl. rewrite Htok. simpl.
  unfold expiry_of, after_exchange, token_event.
  destruct (expires_in_of d) as [n|x]; simpl; [|reflexivity].
  destruct (timedelta_seconds (n - 300)) as [delta|x]; simpl; [|reflexivity].
  destruct (datetime_add _ delta) as [e|x]; reflexivity.
Qed.

Lemma seconds_later_spec t s :
  (seconds_later_ok t s →
     timedelta_seconds s = Ok (1000000 * s) ∧
     datetime_add t (1000000 * s) = Ok (t + 1000000 * s)) ∧
  (¬ seconds_later_ok t s →
     match timedelta_seconds s with
     | Ok delta => datetime_add t delta
     | Raise x => Raise x
     end = Raise OverflowError).
Proof.
  unfold seconds_later_ok, timedelta_seconds, datetime_add. split.
  - intros [[H1 H2] [H3 H4]].
    apply Z.leb_le in H1, H2, H3, H4. rewrite H1, H2, H3, H4. split; reflexivity.
  - intros Hnot.
    destruct (-86399999913600 <=? s) eqn:E1; [|reflexivity].
    destruct (s <=? 86399999999999) eqn:E2; [|reflexivity]. simpl.
    destruct (0 <=? t + 1000000 * s) eqn:E3; [|reflexivity].
    destruct (t + 1000000 * s <=? datetime_max) eqn:E4; [|reflexivity].
    exfalso. apply Hnot. apply Z.leb_le in E1, E2, E3, E4. repeat split; assumption.
Qed.

Lemma expires_in_of_fields fields n :
  (Json.assoc "expires_in" fields = None ∧ n = 3600 ∨
   ∃ v, Json.assoc "expires_in" fields = Some v ∧ py_int v = Ok n) →
  expires_in_of (JObj fields) = Ok n.
Proof.
  unfold expires_in_of, dict_get.
  intros [[-> ->]|(v & -> & Hv)]; [reflexivity|exact Hv].
Qed.

(** C3 (as amended).  With a usable cached token (the stored value is
    true, the clock before the stored expiry) the getter returns it and
    changes nothing: no exchange is made.  Otherwise, when the three cloud
    credentials are configured, exactly one exchange is made.  If it is
    answered without an error status by an object carrying an access_token,
    whatever its value, and an expires_in that [int] converts (3600 when the
    answer has none), then: when the reading of the clock after the exchange
    plus expires_in minus 300 seconds is a [datetime], the token is returned
    and cached with that expiry; when it is not, the getter raises
    OverflowError, with the token already stored beside the old expiry.
    Otherwise, when a credential is missing, the getter raises the
    configuration error and makes no exchange. *)
Theorem get_cloud_token_caching env c w :
  (cached_token_valid c (now w) →
     _get_cloud_token env (c, w) = (Ok (_token c), (c, w))) ∧
  (¬ cached_token_valid c (now w) → cloud_credentials env = true →
     let w' := after_exchange w (token_event env) in
     trace (snd (snd (_get_cloud_token env (c, w)))) = trace w ++ [token_event env] ∧
     token_calls (snd (snd (_get_cloud_token env (c, w)))) = S (token_calls w) ∧
     ∀ r fields tok n,
       token_server w (token_calls w) = Ok r →
       ¬ (400 ≤ status_code r < 600) →
       json_body r = Some (JObj fields) →
       Json.assoc "access_token" fields = Some tok →
       (Json.assoc "expires_in" fields = None ∧ n = 3600 ∨
        ∃ v, Json.assoc "expires_in" fields = Some v ∧ py_int v = Ok n) →
       (seconds_later_ok (now w') (n - 300) →
          _get_cloud_token env (c, w) =
          (Ok tok,
           (mkClient (_session c) tok (Some (now w' + 1000000 * (n - 300))), w'))) ∧
       (¬ seconds_later_ok (now w') (n - 300) →
          _get_cloud_token env (c, w) =
          (Raise OverflowError, (mkClient (_session c) tok (_token_expiry c), w')))) ∧
  (¬ cached_token_valid c (now w) → cloud_credentials env = false →
     _get_cloud_token env (c, w) =
     (Raise (ValueError missing_cloud_credentials), (c, w))).
Proof.
  split; [|split].
  - intros Hvalid. apply get_cloud_token_cached, token_is_fresh_iff, Hvalid.
  - intros Hnot Hcred w'. apply token_not_fresh in Hnot.
    destruct (get_cloud_token_posts env c w Hnot Hcred) as [Htrace Hcalls].
    split; [exact Htrace|]. split; [exact Hcalls|].
    intros r fields tok n Hsrv Hstatus Hbody Htok Hexp.
    apply is_error_status_false in Hstatus.
    assert (Haccess : access_token_of (JObj fields) = Ok tok).
    { unfold access_token_of. rewrite Htok. reflexivity. }
    rewrite (get_cloud_token_answered env c w r (JObj fields) tok
               Hnot Hcred Hsrv Hstatus Hbody Haccess).
    fold w'. unfold expiry_of. rewrite (expires_in_of_fields fields n Hexp).
    destruct (seconds_later_spec (now w') (n - 300)) as [Hin Hout]. split.
    + intros Hok. destruct (Hin Hok) as [-> ->]. reflexivity.
    + intros Hbad. rewrite (Hout Hbad). reflexivity.
  - intros Hnot Hcred. apply token_not_fresh in Hnot.
    apply get_cloud_token_no_credentials; assumption.
Qed.

Lemma not_cached_new_client t : ¬ cached_token_valid new_client t.
Proof. intros (H & _). discriminate H. Defined.

Lemma get_cloud_token_caching_witness :
  let w := world_with (Ok token_reply_3600) [] in
  _get_cloud_token env_cloud_ready (client_with_token "tok-0" 5000, w)
  = (Ok (JStr "tok-0"), (client_with_token "tok-0" 5000, w)) ∧
  _get_cloud_token env_cloud_ready (new_client, w)
  = (Ok (JStr "tok-1"),
     (mkClient None (JStr "tok-1") (Some (1000 + 1000000 * (3600 - 300))),
      after_exchange w (token_event env_cloud_ready))) ∧
  _get_cloud_token ∅ (new_client, w)
  = (Raise (ValueError missing_cloud_credentials), (new_client, w)).
Proof.
  intros w. split; [|split].
  - apply (proj1 (get_cloud_token_caching env_cloud_ready
                    (client_with_token "tok-0" 5000) w)).
    split; [reflexivity|]. exists 5000. split; reflexivity.
  - apply (proj1 (proj2 (proj2 (proj1 (proj2 (get_cloud_token_caching env_cloud_ready
                                                  new_client w))
                                   (not_cached_new_client _) eq_refl))
                     token_reply_3600
                     [("token_type", JStr "bearer"); ("access_token", JStr "tok-1");
                      ("expires_in", JStr "3600")] (JStr "tok-1") 3600
                     eq_refl
                     ltac:(simpl; lia)
                     eq_refl eq_refl
                     (or_intror (ex_intro _ (JStr "3600") (conj eq_refl eq_refl))))).
    vm_compute. repeat split; discriminate.
  - apply (proj2 (proj2 (get_cloud_token_caching ∅ new_client w))
             (not_cached_new_client _)).
    reflexivity.
Defined.

(** C3, counterexample.  With no token cached and no credentials
    configured, the getter makes no token exchange: it raises.  And a cached
    token that is the empty string is not reused before its expiry: an
    exchange is made and the token replaced. *)
Lemma get_cloud_token_without_exchange :
  let w := world_with (Ok token_reply_3600) [] in
  (_token new_client = JNull ∧
   _get_cloud_token ∅ (new_client, w)
   = (Raise (ValueError missing_cloud_credentials), (new_client, w)) ∧
   token_posts (trace (snd (snd (_get_cloud_token ∅ (new_client, w))))) = 0%nat) ∧
  (_token (client_with_token "" 5000) = JStr "" ∧
   now w < 5000 ∧
   fst (_get_cloud_token env_cloud_ready (client_with_token "" 5000, w))
   = Ok (JStr "tok-1") ∧
   token_posts
     (trace (snd (snd (_get_cloud_token env_cloud_ready
                         (client_with_token "" 5000, w))))) = 1%nat).
Proof. vm_compute. repeat split. Qed.

(** ** Every operation keeps the session *)

Lemma after_request_frame {A} env (st : State) (k : Response → M A) m url p :
  (∀ resp st1, snd (k resp st1) = st1) →
  run_frame st (snd ((let* response := _request_with_retry env m url 3 p in k response) st)).
Proof.
  intros Hpure. unfold bind, _request_with_retry.
  destruct (retry_loop_frame env m url p 3 3 0 st) as (Hf & _ & _).
  destruct (retry_loop env m url p 3 3 0 st) as [[resp|e] st1]; simpl in Hf.
  - rewrite Hpure. exact Hf.
  - exact Hf.
Qed.

Lemma run_op_frame env o st : run_frame st (run_op env o st).
Proof.
  destruct o as [| | |m url mr p|entity opts|entity k expand|entity apply
                |entity filter|f r p mt]; simpl.
  - destruct (session_spec env st) as (Hk & Hf & _). apply auth_run_frame; assumption.
  - pose proof (get_cloud_token_step env st) as Hstep.
    apply auth_run_frame; [apply token_step_kept|apply token_step_frame]; exact Hstep.
  - destruct (refresh_spec env st) as (Hk & Hf). apply auth_run_frame; assumption.
  - apply retry_loop_frame.
  - destruct (query_terminates env entity opts st) as (out & _ & -> & Hf). exact Hf.
  - apply (after_request_frame env st
             (λ response,
                if status_code response =? 404 then ret JNull
                else raise_for_status response ;;; response_json response)).
    intros resp st1. destruct (status_code resp =? 404); [reflexivity|].
    run_monad. destruct (is_error_status (status_code resp)); [reflexivity|].
    destruct (json_body resp); reflexivity.
  - apply (after_request_frame env st
             (λ response, raise_for_status response ;;; response_json response)).
    intros resp st1.
    run_monad. destruct (is_error_status (status_code resp)); [reflexivity|].
    destruct (json_body resp); reflexivity.
  - apply (after_request_frame env st
             (λ response,
                raise_for_status response ;;;
                match PyInt.of_string (text response) with
                | Some n => ret n
                | None => raise (InvalidLiteral (text response))
                end)).
    intros resp st1.
    run_monad. destruct (is_error_status (status_code resp)); [reflexivity|].
    destruct (PyInt.of_string (text resp)); reflexivity.
  - unfold list_machines.
    destruct (query_terminates env "Machines" (list_machines_opts f r p mt) st)
      as (out & _ & -> & Hf).
    exact Hf.
Qed.

Lemma run_ops_frame ops st : run_frame st (run_ops ops st).
Proof.
  revert st. induction ops as [|[env o] ops IH]; intros st; simpl.
  - apply run_frame_refl.
  - eapply run_frame_trans; [apply run_op_frame|apply IH].
Qed.

Lemma refresh_sets_authorization env c w r :
  is_cloud env = true → _session c = Some r →
  fst (_refresh_cloud_session env (c, w)) = Ok tt →
  heap (snd (snd (_refresh_cloud_session env (c, w)))) =
  alter (set_header "Authorization"
           (auth_header (_token (fst (snd (_refresh_cloud_session env (c, w)))))))
    r (heap w).
Proof.
  intros Hcloud Hs. unfold _refresh_cloud_session. rewrite Hcloud. unfold bind.
  pose proof (get_cloud_token_step env (c, w)) as (Hs1 & Hh1 & _).
  assert (Htok : ∀ tok, fst (_get_cloud_token env (c, w)) = Ok tok →
                        _token (fst (snd (_get_cloud_token env (c, w)))) = tok).
  { unfold _get_cloud_token. run_monad.
    destruct (token_is_fresh c (now w)); [intros tok [= <-]; reflexivity|].
    destruct (negb _); [discriminate|].
    unfold requests_post, log. simpl.
    destruct (token_server w (token_calls w)) as [resp|e]; simpl; [|discriminate].
    destruct (is_error_status (status_code resp)); simpl; [discriminate|].
    destruct (json_body resp) as [d|]; simpl; [|discriminate].
    destruct (access_token_of d) as [tok|e]; simpl; [|discriminate].
    destruct (expires_in_of d) as [n|e]; simpl; [|discriminate].
    destruct (timedelta_seconds (n - 300)) as [delta|e]; simpl; [|discriminate].
    destruct (datetime_add _ delta) as [expiry|e]; simpl; [|discriminate].
    intros tok' [= <-]. reflexivity. }
  destruct (_get_cloud_token env (c, w)) as [[tok|e] [c1 w1]]; simpl in *;
    [|discriminate].
  rewrite Hs in Hs1. rewrite (session_existing env c1 w1 r Hs1).
  unfold update_session. simpl. intros _. rewrite (Htok tok eq_refl), Hh1. reflexivity.
Qed.

(** C8.  Over any run of operations on a client: a session object is
    constructed at most once, and only while the client holds none; a
    session the client holds is never replaced, the store gains no object,
    and the object changes at most in the value of its Authorization header
    (verify flag, credentials and every other header stay); every data
    request of the run goes through that one session; and a cloud refresh on
    a held session writes the current token into the Authorization header of
    that same object. *)
Theorem session_constructed_once (ops : list (Env * op)) (st : State) :
  let st' := run_ops ops st in
  (length (heap (snd st')) ≤ S (length (heap (snd st))))%nat ∧
  (∀ r, _session (fst st) = Some r →
        _session (fst st') = Some r ∧
        length (heap (snd st')) = length (heap (snd st)) ∧
        ∀ s, heap (snd st) !! r = Some s →
             ∃ s', heap (snd st') !! r = Some s' ∧
                   s_verify s' = s_verify s ∧ s_auth s' = s_auth s ∧
                   ∀ k, k ≠ "Authorization" → s_headers s' !! k = s_headers s !! k) ∧
  (_session (fst st) = None →
     (_session (fst st') = None ∧
      length (heap (snd st')) = length (heap (snd st))) ∨
     (_session (fst st') = Some (length (heap (snd st))) ∧
      length (heap (snd st')) = S (length (heap (snd st))))) ∧
  (∃ evs, trace (snd st') = trace (snd st) ++ evs ∧
          ∀ s m u p, In (EvRequest s m u p) evs → _session (fst st') = Some s) ∧
  (∀ env r, is_cloud env = true → _session (fst st) = Some r →
            fst (_refresh_cloud_session env st) = Ok tt →
            heap (snd (snd (_refresh_cloud_session env st))) =
            alter (set_header "Authorization"
                     (auth_header (_token (fst (snd (_refresh_cloud_session env st))))))
              r (heap (snd st))).
Proof.
  intros st'. destruct (run_ops_frame ops st) as ((Htrace & Hauth & Hsess) & _ & _).
  fold st' in Htrace, Hauth, Hsess.
  split; [|split; [|split; [|split]]].
  - destruct (_session (fst st)).
    + destruct Hsess as [_ ->]. lia.
    + destruct Hsess as [[_ ->]|[_ ->]]; lia.
  - intros r Hr. rewrite Hr in Hsess. destruct Hsess as [Hs Hl].
    split; [exact Hs|]. split; [exact Hl|].
    intros s Hlook. destruct (Hauth r s Hlook) as (s' & Hlook' & Hv & Ha & Hh).
    exists s'. repeat split; assumption.
  - intros Hnone. rewrite Hnone in Hsess. exact Hsess.
  - exact Htrace.
  - intros env r Hcloud Hr. destruct st as [c w].
    apply refresh_sets_authorization; assumption.
Qed.

Lemma session_constructed_once_witness :
  let st := (new_client,
             world_with (Ok token_reply_3600) [Ok page_2; Ok (reply 404 None)]) in
  (length (heap (snd (run_ops sample_ops st))) ≤ 1)%nat ∧
  ((_session (fst (run_ops sample_ops st)) = None ∧
    length (heap (snd (run_ops sample_ops st))) = 0%nat) ∨
   (_session (fst (run_ops sample_ops st)) = Some 0%nat ∧
    length (heap (snd (run_ops sample_ops st))) = 1%nat)).
Proof.
  intros st.
  destruct (session_constructed_once sample_ops st) as (Hmost & _ & Hnew & _).
  split; [exact Hmost|]. apply Hnew. reflexivity.
Defined.

(** The sample run, evaluated: one session object, carrying the token. *)
Example sample_run_session :
  let st := (new_client,
             world_with (Ok token_reply_3600) [Ok page_2; Ok (reply 404 None)]) in
  _session (fst (run_ops sample_ops st)) = Some 0%nat ∧
  (s_headers <$> heap (snd (run_ops sample_ops st)))
  = [<["Accept" := Some "application/json"]>
     (<["Citrix-CustomerId" := Some "acme"]>
     (<["Authorization" := Some "CWSAuth bearer=tok-1"]> ∅))] ∧
  token_posts (trace (snd (run_ops sample_ops st))) = 1%nat ∧
  wire (trace (snd (run_ops sample_ops st)))
  = [EvRequest 0 "GET" "https://api-us.cloud.com/monitorodata/Machines" (Some ∅);
     EvRequest 0 "GET" "https://api-us.cloud.com/monitorodata/Machines(7)" None].
Proof. vm_compute. repeat split. Qed.

(** ** The dispatch boundary *)

Section DispatchProofs.

Variable client_method : string → list json → M json.
Variable json_dumps : json → string.
Variable lib_message : exn → string.
Variable py_repr : json → string.

Lemma tool_name_in t : In t tool_names → t ∈ tool_names.
Proof. apply list_elem_of_In. Qed.

Ltac not_a_tool Hunknown :=
  repeat match goal with
    | |- context [String.eqb ?n ?t] =>
        destruct (String.eqb_spec n t) as [->|_];
        [exfalso; apply Hunknown, tool_name_in; simpl; tauto|]
    end.

Lemma route_unknown name arguments st :
  name ∉ tool_names →
  route client_method py_repr name arguments st =
  (Raise (ValueError (unknown_tool name)),
   (Some (default new_client (fst st)), snd st)).
Proof.
  intros Hunknown. unfold route.
  destruct (PyStr.startswith name "citrix_machine").
  { unfold machines_handle_tool. not_a_tool Hunknown. reflexivity. }
  destruct (PyStr.startswith name "citrix_session").
  { unfold sessions_handle_tool. not_a_tool Hunknown. reflexivity. }
  destruct (PyStr.startswith name "citrix_connection" ||
            PyStr.startswith name "citrix_failure")%bool.
  { unfold connections_handle_tool. not_a_tool Hunknown. reflexivity. }
  destruct (PyStr.startswith name "citrix_app").
  { unfold applications_handle_tool. not_a_tool Hunknown. reflexivity. }
  destruct (PyStr.startswith name "citrix_user").
  { unfold users_handle_tool. not_a_tool Hunknown. reflexivity. }
  unfold analytics_handle_tool. not_a_tool Hunknown. reflexivity.
Qed.

End DispatchProofs.

(** C7.  [call_tool] always yields exactly one text item.  When the handler
    the call is routed to raises, that item is the serialized object whose
    only field, error, holds the exception's message, and nothing propagates;
    when it returns, the item is the serialized result.  A name that no
    handler knows yields the payload with the message Unknown tool: followed
    by the name. *)
Theorem call_tool_catches_errors
    (client_method : string → list json → M json)
    (json_dumps : json → string) (lib_message : exn → string)
    (py_repr : json → string)
    (name : string) (arguments : list (string * json)) (st : GState) :
  (∃ text, fst (call_tool client_method json_dumps lib_message py_repr name arguments st)
           = [mkText "text" text]) ∧
  (∀ e st', route client_method py_repr name arguments st = (Raise e, st') →
            call_tool client_method json_dumps lib_message py_repr name arguments st
            = ([mkText "text"
                  (json_dumps (JObj [("error", JStr (str_exn lib_message e))]))], st')) ∧
  (∀ v st', route client_method py_repr name arguments st = (Ok v, st') →
            call_tool client_method json_dumps lib_message py_repr name arguments st
            = ([mkText "text" (json_dumps v)], st')) ∧
  (name ∉ tool_names →
     call_tool client_method json_dumps lib_message py_repr name arguments st
     = ([mkText "text"
           (json_dumps (JObj [("error", JStr ("Unknown tool: " +:+ name))]))],
        (Some (default new_client (fst st)), snd st))).
Proof.
  split; [|split; [|split]].
  - unfold call_tool.
    destruct (route client_method py_repr name arguments st) as [[v|e] st'];
      eexists; reflexivity.
  - intros e st' Hroute. unfold call_tool. rewrite Hroute. reflexivity.
  - intros v st' Hroute. unfold call_tool. rewrite Hroute. reflexivity.
  - intros Hunknown. unfold call_tool.
    rewrite (route_unknown client_method py_repr name arguments st Hunknown).
    reflexivity.
Qed.

Lemma not_a_tool_sample : "citrix_machine_reboot" ∉ tool_names.
Proof.
  intros H. apply list_elem_of_In in H. simpl in H.
  repeat (destruct H as [H|H]; [discriminate H|]). exact H.
Defined.

Lemma call_tool_catches_errors_witness :
  let st : GState := (None, world_with (Raise ConnectionError) []) in
  call_tool sample_method sample_dumps sample_lib_message sample_repr
    "citrix_machine_reboot" [] st
  = ([mkText "text" "error: Unknown tool: citrix_machine_reboot"],
     (Some new_client, world_with (Raise ConnectionError) [])) ∧
  call_tool sample_method sample_dumps sample_lib_message sample_repr
    "citrix_hypervisors" [] st
  = ([mkText "text" "error: library error"],
     (Some new_client, world_with (Raise ConnectionError) [])).
Proof.
  intros st. split.
  - apply (proj2 (proj2 (proj2 (call_tool_catches_errors sample_method sample_dumps
                                  sample_lib_message sample_repr
                                  "citrix_machine_reboot" [] st)))).
    exact not_a_tool_sample.
  - apply (proj1 (proj2 (call_tool_catches_errors sample_method sample_dumps
                           sample_lib_message sample_repr
                           "citrix_hypervisors" [] st))
             ConnectionError
             (Some new_client, world_with (Raise ConnectionError) [])).
    reflexivity.
Defined.

(** ** The first request of a query *)

Lemma run_frame_wire st st' :
  run_frame st st' →
  ∃ evs, wire (trace (snd st')) = wire (trace (snd st)) ++ evs.
Proof.
  intros (((evs & Ht & _) & _ & _) & _ & _). exists (wire evs).
  rewrite Ht. apply wire_app.
Qed.

Lemma retry_first_request env m u p mr n a st o rest :
  auth_ready env (snd st) → data_script (snd st) = o :: rest →
  ∃ evs,
    wire (trace (snd (snd (retry_loop env m (JStr u) p mr (S n) a st)))) =
      wire (trace (snd st)) ++ EvRequest (session_ref st) m u p :: evs ∧
    (length (data_script (snd (snd (retry_loop env m (JStr u) p mr (S n) a st))))
     ≤ length rest)%nat.
Proof.
  intros Hready Hscript.
  destruct (attempt_answer env m u p st o rest Hready Hscript)
    as (st1 & Hatt & Hd & Hw & _ & _).
  rewrite retry_loop_S. unfold bind. rewrite Hatt.
  assert (Hstop : ∃ evs,
            wire (trace (snd st1)) =
              wire (trace (snd st)) ++ EvRequest (session_ref st) m u p :: evs ∧
            (length (data_script (snd st1)) ≤ length rest)%nat).
  { exists []. split; [exact Hw|]. rewrite Hd. reflexivity. }
  destruct o as [resp|e]; [|exact Hstop].
  destruct (status_code resp =? 429); [|exact Hstop].
  destruct (time_sleep_frame (5 * (a + 1)) st1) as [Hfs _].
  destruct (time_sleep (5 * (a + 1)) st1) as [[[]|e] st2] eqn:Hsl; [|discriminate Hsl].
  simpl in Hfs.
  destruct (retry_loop_frame env m (JStr u) p mr n (a + 1) st2) as (Hf2 & _ & _).
  pose proof (run_frame_trans _ _ _ Hfs Hf2) as Hf.
  destruct (run_frame_wire _ _ Hf) as [evs Hevs].
  exists evs. split.
  - rewrite Hevs, Hw, <- app_assoc. reflexivity.
  - destruct Hf as (_ & _ & Hl). rewrite Hd in Hl. exact Hl.
Qed.

Lemma query_loop_S env fuel url params acc st :
  query_loop env (S fuel) url params acc st =
  if negb (Json.truthy url) then Some (Ok acc, st)
  else
    match _request_with_retry env "GET" url 3 params st with
    | (Raise e, st1) => Some (Raise e, st1)
    | (Ok response, st1) =>
        match read_page response st1 with
        | (Raise e, st2) => Some (Raise e, st2)
        | (Ok (items, next), st2) =>
            query_loop env fuel next None (acc ++ items) st2
        end
    end.
Proof. reflexivity. Qed.

Lemma query_first_request env entity opts st o rest :
  auth_ready env (snd st) → data_script (snd st) = o :: rest →
  ∃ evs,
    wire (trace (snd (snd (query env entity opts st)))) =
      wire (trace (snd st)) ++
      EvRequest (session_ref st) "GET" (base_url env +:+ "/" +:+ entity)
        (Some (query_params opts)) :: evs.
Proof.
  intros Hready Hscript. unfold query, query_fuel. rewrite Hscript.
  simpl length. rewrite query_loop_S.
  simpl Json.truthy. rewrite path_truthy. cbn [negb].
  unfold _request_with_retry.
  destruct (retry_first_request env "GET" (base_url env +:+ "/" +:+ entity)
              (Some (query_params opts)) 3 2 0 st o rest Hready Hscript)
    as (evs & Hw & Hl).
  destruct (retry_loop env "GET" (JStr (base_url env +:+ "/" +:+ entity))
              (Some (query_params opts)) 3 3 0 st) as [[response|e] st1];
    simpl in Hw, Hl.
  2: { exists evs. exact Hw. }
  pose proof (read_page_state response st1) as Hsame.
  destruct (read_page response st1) as [[[items next]|e] st2]; simpl in Hsame; subst st2.
  2: { exists evs. exact Hw. }
  destruct (query_loop_enough env (length rest + 1) next None ([] ++ items) st1)
    as (out & Hout & Hf); [lia|].
  replace (S (length rest)) with (length rest + 1)%nat by lia.
  rewrite Hout.
  destruct (run_frame_wire _ _ Hf) as [evs' Hevs'].
  exists (evs ++ evs'). rewrite Hevs', Hw, <- app_assoc. reflexivity.
Qed.

(** ** Filter assembly and the parameter gate *)

(** C5.  [list_machines] with registration_state Registered and power_state
    On, and nothing else, combines the fragments into exactly
    [CurrentRegistrationState eq 'Registered' and CurrentPowerState eq 'On']
    and its request to Machines carries that string as $filter and nothing
    else; and whenever no fragment is collected, the request carries no
    $filter parameter (its parameters are empty). *)
Theorem list_machines_filter_assembly :
  combine_filters (list_machines_filters None (Some "Registered") (Some "On") None)
  = Some registered_and_on ∧
  registered_and_on
  = "CurrentRegistrationState eq 'Registered' and CurrentPowerState eq 'On'" ∧
  (∀ env (st : State) o rest,
     auth_ready env (snd st) → data_script (snd st) = o :: rest →
     ∃ evs,
       wire (trace (snd (snd (list_machines env None (Some "Registered") (Some "On")
                                None st)))) =
         wire (trace (snd st)) ++
         EvRequest (session_ref st) "GET" (base_url env +:+ "/" +:+ "Machines")
           (Some (<["$filter" := PStr registered_and_on]> ∅)) :: evs) ∧
  (∀ f r p m,
     list_machines_filters f r p m = [] →
     query_params (list_machines_opts f r p m) !! "$filter" = None ∧
     ∀ env (st : State) o rest,
       auth_ready env (snd st) → data_script (snd st) = o :: rest →
       ∃ evs,
         wire (trace (snd (snd (list_machines env f r p m st)))) =
           wire (trace (snd st)) ++
           EvRequest (session_ref st) "GET" (base_url env +:+ "/" +:+ "Machines")
             (Some ∅) :: evs) ∧
  list_machines_filters None None None None = [].
Proof.
  split; [reflexivity|]. split; [reflexivity|]. split; [|split; [|reflexivity]].
  - intros env st o rest Hready Hscript. unfold list_machines.
    apply (query_first_request env "Machines"
             (list_machines_opts None (Some "Registered") (Some "On") None)
             st o rest Hready Hscript).
  - intros f r p m Hnone.
    assert (Hparams : query_params (list_machines_opts f r p m) = ∅).
    { unfold list_machines_opts. rewrite Hnone. reflexivity. }
    split; [rewrite Hparams; apply lookup_empty|].
    intros env st o rest Hready Hscript. unfold list_machines.
    rewrite <- Hparams.
    apply (query_first_request env "Machines" (list_machines_opts f r p m)
             st o rest Hready Hscript).
Qed.

Lemma list_machines_filter_assembly_witness :
  let st := (new_client, world_with (Raise ConnectionError) [Ok page_2]) in
  (∃ evs,
     wire (trace (snd (snd (list_machines env_onprem_ready None (Some "Registered")
                              (Some "On") None st)))) =
       [] ++
       EvRequest 0 "GET" "https://ddc.corp/Citrix/Monitor/OData/v4/Data/Machines"
         (Some (<["$filter" := PStr registered_and_on]> ∅)) :: evs) ∧
  (∃ evs,
     wire (trace (snd (snd (list_machines env_onprem_ready (Some "") None (Some "")
                              None st)))) =
       [] ++
       EvRequest 0 "GET" "https://ddc.corp/Citrix/Monitor/OData/v4/Data/Machines"
         (Some ∅) :: evs).
Proof.
  intros st. split.
  - apply (proj1 (proj2 (proj2 list_machines_filter_assembly))
             env_onprem_ready st (Ok page_2) []).
    + apply auth_ready_onprem_sample.
    + reflexivity.
  - apply (proj2 (proj1 (proj2 (proj2 (proj2 list_machines_filter_assembly)))
                    (Some "") None (Some "") None eq_refl)
             env_onprem_ready st (Ok page_2) []).
    + apply auth_ready_onprem_sample.
    + reflexivity.
Defined.

(** C10.  The options of [query] are tested for truth, not for presence:
    top=0, skip=0 and an empty filter build the same parameters as the
    option left out, with no $top, $skip or $filter entry, so the request
    sent is the one sent with these options absent. *)
Theorem query_params_falsy_is_absent
    (f : option string) (s : option (list string)) (ob : option string)
    (t sk : option Z) (e : option (list string)) (c : bool) :
  (query_params (mkOpts f s ob (Some 0) sk e c) = query_params (mkOpts f s ob None sk e c) ∧
   query_params (mkOpts f s ob (Some 0) sk e c) !! "$top" = None) ∧
  (query_params (mkOpts f s ob t (Some 0) e c) = query_params (mkOpts f s ob t None e c) ∧
   query_params (mkOpts f s ob t (Some 0) e c) !! "$skip" = None) ∧
  (query_params (mkOpts (Some "") s ob t sk e c) = query_params (mkOpts None s ob t sk e c) ∧
   query_params (mkOpts (Some "") s ob t sk e c) !! "$filter" = None) ∧
  (∀ env entity (st : State) o rest,
     auth_ready env (snd st) → data_script (snd st) = o :: rest →
     ∃ params evs,
       wire (trace (snd (snd (query env entity
                                (mkOpts (Some "") s ob (Some 0) (Some 0) e c) st)))) =
         wire (trace (snd st)) ++
         EvRequest (session_ref st) "GET" (base_url env +:+ "/" +:+ entity)
           (Some params) :: evs ∧
       params = query_params (mkOpts None s ob None None e c) ∧
       params !! "$filter" = None ∧ params !! "$top" = None ∧
       params !! "$skip" = None).
Proof.
  split; [|split; [|split]].
  - split; [reflexivity|]. rewrite query_params_top. reflexivity.
  - split; [reflexivity|]. rewrite query_params_skip. reflexivity.
  - split; [reflexivity|]. rewrite query_params_filter. reflexivity.
  - intros env entity st o rest Hready Hscript.
    destruct (query_first_request env entity
                (mkOpts (Some "") s ob (Some 0) (Some 0) e c) st o rest Hready Hscript)
      as [evs Hw].
    exists (query_params (mkOpts None s ob None None e c)), evs.
    split; [exact Hw|]. split; [reflexivity|].
    rewrite query_params_filter, query_params_top, query_params_skip.
    repeat split.
Qed.

Lemma query_params_falsy_is_absent_witness :
  let st := (new_client, world_with (Raise ConnectionError) [Ok page_2]) in
  ∃ params evs,
    wire (trace (snd (snd (query env_onprem_ready "Machines"
                             (mkOpts (Some "") None (Some "Name") (Some 0) (Some 0)
                                None true) st)))) =
      [] ++
      EvRequest 0 "GET" "https://ddc.corp/Citrix/Monitor/OData/v4/Data/Machines"
        (Some params) :: evs ∧
    params = <["$count" := PStr "true"]> (<["$orderby" := PStr "Name"]> ∅) ∧
    params !! "$filter" = None ∧ params !! "$top" = None ∧ params !! "$skip" = None.
Proof.
  intros st.
  apply (proj2 (proj2 (proj2 (query_params_falsy_is_absent None None (Some "Name")
                                None None None true)))
           env_onprem_ready "Machines" st (Ok page_2) []).
  - apply auth_ready_onprem_sample.
  - reflexivity.
Defined.

(** * Further properties of the client *)

(** ** Counting and aggregating *)

Lemma request_answered env u p (st : State) rs r rest :
  auth_ready env (snd st) →
  Forall (λ r', status_code r' = 429) rs → (length rs < 3)%nat →
  data_script (snd st) = map Ok rs ++ Ok r :: rest →
  status_code r ≠ 429 →
  ∃ st', _request_with_retry env "GET" (JStr u) 3 p st = (Ok r, st') ∧
         wire (trace (snd st')) =
           wire (trace (snd st)) ++
           backoff_rounds (EvRequest (session_ref st) "GET" u p) 0 (length rs) ++
           [EvRequest (session_ref st) "GET" u p] ∧
         data_script (snd st') = rest.
Proof.
  intros Hready Hlimited Hlen Hscript H429.
  destruct (retry_loop_answered env "GET" u p 3 3 0 st rs (Ok r) rest Hready)
    as (st' & Hrun & Hd & Hw & _); try assumption.
  exists st'. split; [exact Hrun|]. split; [exact Hw|exact Hd].
Qed.

(** The parameters of the request [get_count] makes. *)
Lemma count_params_spec filter :
  (if PyStr.truthy_opt filter
   then Some (<["$filter" := PStr (default "" filter)]> (∅ : Params))
   else None) =
  match filter with
  | Some f => if PyStr.truthy f then Some (<["$filter" := PStr f]> ∅) else None
  | None => None
  end.
Proof. destruct filter as [f|]; reflexivity. Qed.

(** X1.  [get_count] asks [{base_url}/{entity}/$count] once per attempt,
    with a $filter parameter when the filter is a non-empty string and with
    no parameters at all otherwise; an answer with an error status (404
    included) raises the HTTP error; any other answer is parsed as an integer
    from its text, and a text that is not an integer raises. *)
Theorem get_count_reads_text env entity filter (st : State) rs r rest :
  auth_ready env (snd st) →
  Forall (λ r', status_code r' = 429) rs → (length rs < 3)%nat →
  data_script (snd st) = map Ok rs ++ Ok r :: rest →
  status_code r ≠ 429 →
  let request :=
    EvRequest (session_ref st) "GET" (base_url env +:+ "/" +:+ entity +:+ "/$count")
      (match filter with
       | Some f => if PyStr.truthy f then Some (<["$filter" := PStr f]> ∅) else None
       | None => None
       end) in
  ∃ st',
    wire (trace (snd st')) =
      wire (trace (snd st)) ++ backoff_rounds request 0 (length rs) ++ [request] ∧
    data_script (snd st') = rest ∧
    (400 ≤ status_code r < 600 →
       get_count env entity filter st = (Raise (HTTPError r), st')) ∧
    (¬ (400 ≤ status_code r < 600) →
       get_count env entity filter st =
       (match PyInt.of_string (text r) with
        | Some n => Ok n
        | None => Raise (InvalidLiteral (text r))
        end, st')).
Proof.
  intros Hready Hlimited Hlen Hscript H429 request.
  destruct (request_answered env (base_url env +:+ "/" +:+ entity +:+ "/$count")
              (if PyStr.truthy_opt filter
               then Some (<["$filter" := PStr (default "" filter)]> (∅ : Params))
               else None)
              st rs r rest Hready Hlimited Hlen Hscript H429)
    as (st' & Hrun & Hw & Hd).
  rewrite count_params_spec in Hw.
  exists st'. split; [exact Hw|]. split; [exact Hd|].
  unfold get_count, bind. rewrite Hrun. split.
  - intros Herr. apply is_error_status_spec in Herr.
    unfold raise_for_status. rewrite Herr. reflexivity.
  - intros Hok. apply is_error_status_false in Hok.
    unfold raise_for_status. rewrite Hok. unfold ret, raise.
    destruct (PyInt.of_string (text r)); reflexivity.
Qed.

Lemma get_count_reads_text_witness :
  (∃ st',
     get_count env_onprem_ready "Sessions" (Some "EndDate eq null")
       (new_client,
        world_with (Raise ConnectionError) [Ok (mkResponse 200 "42" None)])
     = (Ok 42, st')) ∧
  (∃ st',
     get_count env_onprem_ready "Sessions" (Some "")
       (new_client,
        world_with (Raise ConnectionError) [Ok (mkResponse 404 "42" None)])
     = (Raise (HTTPError (mkResponse 404 "42" None)), st')).
Proof.
  split.
  - destruct (get_count_reads_text env_onprem_ready "Sessions" (Some "EndDate eq null")
                (new_client,
                 world_with (Raise ConnectionError) [Ok (mkResponse 200 "42" None)])
                [] (mkResponse 200 "42" None) [] (auth_ready_onprem_sample _))
      as (st' & _ & _ & _ & Hok);
      [constructor|simpl; lia|reflexivity|discriminate|].
    exists st'. apply Hok. simpl. lia.
  - destruct (get_count_reads_text env_onprem_ready "Sessions" (Some "")
                (new_client,
                 world_with (Raise ConnectionError) [Ok (mkResponse 404 "42" None)])
                [] (mkResponse 404 "42" None) [] (auth_ready_onprem_sample _))
      as (st' & _ & _ & Herr & _);
      [constructor|simpl; lia|reflexivity|discriminate|].
    exists st'. apply Herr. simpl. lia.
Defined.

(** X2.  [aggregate] asks the entity's URL with the single parameter $apply
    and returns the decoded body as it is: a body that carries a next-page
    link is not followed, and nothing more is consumed from the data
    endpoint.  An error status raises the HTTP error and a body that is not
    JSON the decoding error. *)
Theorem aggregate_returns_body env entity apply (st : State) rs r rest :
  auth_ready env (snd st) →
  Forall (λ r', status_code r' = 429) rs → (length rs < 3)%nat →
  data_script (snd st) = map Ok rs ++ Ok r :: rest →
  status_code r ≠ 429 →
  let request :=
    EvRequest (session_ref st) "GET" (base_url env +:+ "/" +:+ entity)
      (Some (<["$apply" := PStr apply]> ∅)) in
  ∃ st',
    wire (trace (snd st')) =
      wire (trace (snd st)) ++ backoff_rounds request 0 (length rs) ++ [request] ∧
    data_script (snd st') = rest ∧
    (400 ≤ status_code r < 600 →
       aggregate env entity apply st = (Raise (HTTPError r), st')) ∧
    (¬ (400 ≤ status_code r < 600) →
       aggregate env entity apply st =
       (match json_body r with
        | Some v => Ok v
        | None => Raise JSONDecodeError
        end, st')).
Proof.
  intros Hready Hlimited Hlen Hscript H429 request.
  destruct (request_answered env (base_url env +:+ "/" +:+ entity)
              (Some (<["$apply" := PStr apply]> ∅))
              st rs r rest Hready Hlimited Hlen Hscript H429)
    as (st' & Hrun & Hw & Hd).
  exists st'. split; [exact Hw|]. split; [exact Hd|].
  unfold aggregate, bind. rewrite Hrun. split.
  - intros Herr. apply is_error_status_spec in Herr.
    unfold raise_for_status. rewrite Herr. reflexivity.
  - intros Hok. apply is_error_status_false in Hok.
    unfold raise_for_status. rewrite Hok. unfold response_json, ret, raise.
    destruct (json_body r); reflexivity.
Qed.

Lemma aggregate_returns_body_witness :
  ∃ st',
    aggregate env_onprem_ready "Sessions" "aggregate($count as Total)"
      (new_client, world_with (Raise ConnectionError) [Ok page_1; Ok page_2])
    = (Ok (JObj [("value", JArr [JInt 1; JInt 2]);
                 ("@odata.nextLink", JStr "https://ddc.corp/next?$skip=2")]), st') ∧
    data_script (snd st') = [Ok page_2].
Proof.
  destruct (aggregate_returns_body env_onprem_ready "Sessions"
              "aggregate($count as Total)"
              (new_client, world_with (Raise ConnectionError) [Ok page_1; Ok page_2])
              [] page_1 [Ok page_2] (auth_ready_onprem_sample _))
    as (st' & _ & Hd & _ & Hok);
    [constructor|simpl; lia|reflexivity|discriminate|].
  exists st'. split; [|exact Hd]. apply Hok. simpl. lia.
Defined.

(** ** The retry wrapper beyond the default *)

Lemma slept_app a b : slept (a ++ b) = slept a + slept b.
Proof.
  unfold slept. induction a as [|e a IH]; simpl; [reflexivity|].
  rewrite IH. destruct e; lia.
Qed.

Lemma slept_wire tr : slept (wire tr) = slept tr.
Proof.
  unfold slept, wire. induction tr as [|e tr IH]; simpl; [reflexivity|].
  destruct e; simpl; rewrite IH; reflexivity.
Qed.

Lemma slept_backoff_rounds request a k :
  (∀ s, request ≠ EvSleep s) →
  2 * slept (backoff_rounds request a k) =
  5 * Z.of_nat k * (2 * a + Z.of_nat k + 1).
Proof.
  intros Hreq. revert a. induction k as [|k IH]; intros a.
  - reflexivity.
  - cbn [backoff_rounds].
    change (request :: EvSleep (5 * (a + 1)) :: backoff_rounds request (a + 1) k)
      with ([request; EvSleep (5 * (a + 1))] ++ backoff_rounds request (a + 1) k).
    rewrite slept_app, Z.mul_add_distr_l, IH.
    assert (Hhead : slept [request; EvSleep (5 * (a + 1))] = 5 * (a + 1)).
    { unfold slept. simpl. destruct request; try lia. exfalso. eapply Hreq. reflexivity. }
    rewrite Hhead. lia.
Qed.

(** X3.  A failure of the transport on an attempt is not retried: after
    fewer rate-limit answers than attempts allowed, the wrapper raises the
    transport's exception at once, having made no request and no sleep after
    the failing one. *)
Theorem transport_failure_not_retried env m u p max_retries (st : State)
    rs e rest :
  auth_ready env (snd st) →
  Forall (λ r', status_code r' = 429) rs → (length rs < max_retries)%nat →
  data_script (snd st) = map Ok rs ++ Raise e :: rest →
  ∃ st',
    _request_with_retry env m (JStr u) max_retries p st = (Raise e, st') ∧
    wire (trace (snd st')) =
      wire (trace (snd st)) ++
      backoff_rounds (EvRequest (session_ref st) m u p) 0 (length rs) ++
      [EvRequest (session_ref st) m u p] ∧
    data_script (snd st') = rest.
Proof.
  intros Hready Hlimited Hlen Hscript.
  destruct (retry_loop_answered env m u p max_retries max_retries 0 st rs (Raise e)
              rest Hready Hscript Hlimited I Hlen)
    as (st' & Hrun & Hd & Hw & _).
  exists st'. split; [exact Hrun|]. split; [exact Hw|exact Hd].
Qed.

Lemma transport_failure_not_retried_witness :
  ∃ st',
    _request_with_retry env_onprem_ready "GET" (JStr "https://ddc.corp/x") 3 None
      (new_client,
       world_with (Raise ConnectionError)
         [Ok (reply 429 None); Raise ConnectionError; Ok (reply 200 None)])
    = (Raise ConnectionError, st') ∧
    wire (trace (snd st')) =
      [] ++
      backoff_rounds (EvRequest 0 "GET" "https://ddc.corp/x" None) 0 1 ++
      [EvRequest 0 "GET" "https://ddc.corp/x" None] ∧
    data_script (snd st') = [Ok (reply 200 None)].
Proof.
  apply (transport_failure_not_retried env_onprem_ready "GET" "https://ddc.corp/x"
           None 3
           (new_client,
            world_with (Raise ConnectionError)
              [Ok (reply 429 None); Raise ConnectionError; Ok (reply 200 None)])
           [reply 429 None] ConnectionError [Ok (reply 200 None)]).
  - apply auth_ready_onprem_sample.
  - repeat constructor.
  - simpl. lia.
  - reflexivity.
Defined.

(** X4.  For any number [n] of attempts allowed: rate-limited on all of
    them, the wrapper makes [n] requests, sleeps 5, 10, ..., 5n seconds (the
    last sleep comes after the last attempt) and raises the exception naming
    [n]; the sleeps add up to 5n(n+1)/2 seconds.  With [n = 0] it raises at
    once, without any request. *)
Theorem retries_exhausted env m u p n (st : State) rs rest :
  auth_ready env (snd st) →
  Forall (λ r', status_code r' = 429) rs → length rs = n →
  data_script (snd st) = map Ok rs ++ rest →
  ∃ st',
    _request_with_retry env m (JStr u) n p st =
      (Raise (PyException ("Rate limited after " +:+ pretty n +:+ " retries")), st') ∧
    wire (trace (snd st')) =
      wire (trace (snd st)) ++
      backoff_rounds (EvRequest (session_ref st) m u p) 0 n ∧
    2 * slept (trace (snd st')) =
      2 * slept (trace (snd st)) + 5 * Z.of_nat n * (Z.of_nat n + 1) ∧
    data_script (snd st') = rest ∧
    (n = 0%nat → st' = st).
Proof.
  intros Hready Hlimited Hlen Hscript.
  destruct (retry_loop_exhausted env m u p n n 0 st rs rest Hready Hscript Hlimited Hlen)
    as (st' & Hrun & Hd & Hw).
  exists st'. split; [exact Hrun|]. split; [exact Hw|]. split; [|split; [exact Hd|]].
  - rewrite <- (slept_wire (trace (snd st'))), Hw, slept_app, slept_wire.
    rewrite Z.mul_add_distr_l, slept_backoff_rounds by discriminate. lia.
  - intros ->. unfold _request_with_retry in Hrun. simpl in Hrun.
    injection Hrun as <-. reflexivity.
Qed.

Lemma retries_exhausted_witness :
  (∃ st',
     _request_with_retry env_onprem_ready "GET" (JStr "https://ddc.corp/x") 2 None
       (new_client,
        world_with (Raise ConnectionError)
          [Ok (reply 429 None); Ok (reply 429 None); Ok (reply 200 None)])
     = (Raise (PyException "Rate limited after 2 retries"), st') ∧
     2 * slept (trace (snd st')) = 2 * 0 + 5 * 2 * (2 + 1) ∧
     data_script (snd st') = [Ok (reply 200 None)]) ∧
  (∃ st',
     _request_with_retry env_onprem_ready "GET" (JStr "https://ddc.corp/x") 0 None
       (new_client, world_with (Raise ConnectionError) [Ok (reply 200 None)])
     = (Raise (PyException "Rate limited after 0 retries"), st') ∧
     st' = (new_client, world_with (Raise ConnectionError) [Ok (reply 200 None)])).
Proof.
  split.
  - destruct (retries_exhausted env_onprem_ready "GET" "https://ddc.corp/x" None 2
                (new_client,
                 world_with (Raise ConnectionError)
                   [Ok (reply 429 None); Ok (reply 429 None); Ok (reply 200 None)])
                [reply 429 None; reply 429 None] [Ok (reply 200 None)]
                (auth_ready_onprem_sample _))
      as (st' & Hrun & _ & Hslept & Hd & _);
      [repeat constructor|reflexivity|reflexivity|].
    exists st'. split; [exact Hrun|]. split; [exact Hslept|exact Hd].
  - destruct (retries_exhausted env_onprem_ready "GET" "https://ddc.corp/x" None 0
                (new_client, world_with (Raise ConnectionError) [Ok (reply 200 None)])
                [] [Ok (reply 200 None)] (auth_ready_onprem_sample _))
      as (st' & Hrun & _ & _ & _ & Hsame);
      [constructor|reflexivity|reflexivity|].
    exists st'. split; [exact Hrun|]. apply Hsame. reflexivity.
Defined.

(** ** Pagination: failures, retries and odd bodies *)

Lemma query_ready_after env (st st' : State) :
  run_frame st st' → auth_ready env (snd st) → auth_ready env (snd st').
Proof. intros (_ & Hsrv & _). apply auth_ready_frame, Hsrv. Qed.

Lemma retry_answer_ready env u p (st : State) rs o rest :
  auth_ready env (snd st) →
  Forall (λ r', status_code r' = 429) rs → (length rs < 3)%nat →
  data_script (snd st) = map Ok rs ++ o :: rest →
  match o with Ok r => status_code r ≠ 429 | Raise _ => True end →
  ∃ st', _request_with_retry env "GET" (JStr u) 3 p st = (o, st') ∧
         data_script (snd st') = rest ∧ auth_ready env (snd st').
Proof.
  intros Hready Hlimited Hlen Hscript Ho.
  destruct (retry_loop_answered env "GET" u p 3 3 0 st rs o rest Hready Hscript
              Hlimited Ho Hlen)
    as (st' & Hrun & Hd & _ & _ & Hsrv).
  exists st'. split; [exact Hrun|]. split; [exact Hd|].
  eapply auth_ready_frame; eassumption.
Qed.

Lemma query_iteration_fails env tail x :
  fails_with tail x →
  ∀ fuel u p acc (st : State),
    auth_ready env (snd st) → data_script (snd st) = tail →
    PyStr.truthy u = true →
    ∃ st', query_loop env (S fuel) (JStr u) p acc st = Some (Raise x, st').
Proof.
  intros Hfails fuel u p acc st Hready Hscript Hu.
  rewrite query_loop_S. simpl Json.truthy. rewrite Hu. cbn [negb].
  destruct Hfails as [rs r rest Hlimited Hlen H429 Herr
                     |rs e rest Hlimited Hlen
                     |rs rest Hlimited Hlen].
  - destruct (retry_answer_ready env u p st rs (Ok r) rest Hready Hlimited Hlen
                Hscript H429) as (st' & -> & _ & _).
    exists st'. unfold read_page, raise_for_status.
    apply is_error_status_spec in Herr. rewrite Herr. reflexivity.
  - destruct (retry_answer_ready env u p st rs (Raise e) rest Hready Hlimited Hlen
                Hscript I) as (st' & -> & _ & _).
    exists st'. reflexivity.
  - destruct (retry_loop_exhausted env "GET" u p 3 3 0 st rs rest Hready Hscript
                Hlimited Hlen) as (st' & Hrun & _).
    unfold _request_with_retry. rewrite Hrun. exists st'. reflexivity.
Qed.

Lemma fails_with_nonempty tail x : fails_with tail x → (0 < length tail)%nat.
Proof.
  destruct 1 as [rs r rest _ _ _ _|rs e rest _ _|rs rest _ Hlen];
    rewrite length_app; simpl; rewrite ?length_map; lia.
Qed.

Lemma query_loop_linked_fails env ps us :
  linked ps us →
  ∀ tail x fuel u p acc (st : State),
    fails_with tail x →
    auth_ready env (snd st) → PyStr.truthy u = true →
    data_script (snd st) = arrivals ps ++ tail →
    (length ps < fuel)%nat →
    ∃ st', query_loop env fuel (JStr u) p acc st = Some (Raise x, st').
Proof.
  induction 1 as [|r items u' ps us Hpage Hrest IH];
    intros tail x fuel u p acc st Hfails Hready Hu Hscript Hfuel.
  - destruct fuel as [|fuel]; [simpl in Hfuel; lia|].
    apply (query_iteration_fails env tail x Hfails fuel u p acc st Hready Hscript Hu).
  - destruct fuel as [|fuel]; [simpl in Hfuel; lia|].
    destruct (retry_answer_ready env u p st [] (Ok r) (arrivals ps ++ tail) Hready)
      as (st1 & Hrun & Hd & Hready1).
    { constructor. } { simpl. lia. } { exact Hscript. } { apply Hpage. }
    rewrite query_loop_S. simpl Json.truthy. rewrite Hu. cbn [negb]. rewrite Hrun.
    rewrite (read_page_of_page r items (Some u') st1 Hpage).
    apply (IH tail x fuel u' None (acc ++ items) st1 Hfails Hready1).
    + apply truthy_nonempty.
      destruct Hpage as (_ & _ & fields & _ & _ & _ & Hne). exact Hne.
    + exact Hd.
    + simpl in Hfuel. lia.
Qed.

(** X5.  A page request that fails aborts the whole query: after any
    number of pages that link on, an answer with an error status, a
    transport failure or three rate-limit answers in a row makes [query]
    raise that exception; the records of the pages already read are not
    returned. *)
Theorem query_failed_page_aborts env entity opts (st : State) ps us tail x :
  auth_ready env (snd st) →
  linked ps us →
  fails_with tail x →
  data_script (snd st) = arrivals ps ++ tail →
  fst (query env entity opts st) = Raise x.
Proof.
  intros Hready Hlinked Hfails Hscript.
  destruct (query_loop_linked_fails env ps us Hlinked tail x (query_fuel st)
              (base_url env +:+ "/" +:+ entity) (Some (query_params opts)) [] st
              Hfails Hready (path_truthy _ _) Hscript)
    as (st' & Hloop).
  { unfold query_fuel. rewrite Hscript, length_app. unfold arrivals.
    rewrite length_map. pose proof (fails_with_nonempty _ _ Hfails). lia. }
  unfold query. rewrite Hloop. reflexivity.
Qed.

Lemma query_failed_page_aborts_witness :
  fst (query env_onprem_ready "Machines" no_opts
         (new_client,
          world_with (Raise ConnectionError)
            [Ok page_1; Ok (reply 429 None); Ok (reply 503 None)]))
  = Raise (HTTPError (reply 503 None)).
Proof.
  apply (query_failed_page_aborts env_onprem_ready "Machines" no_opts
           (new_client,
            world_with (Raise ConnectionError)
              [Ok page_1; Ok (reply 429 None); Ok (reply 503 None)])
           [(page_1, [JInt 1; JInt 2])] ["https://ddc.corp/next?$skip=2"]
           ([Ok (reply 429 None); Ok (reply 503 None)]) (HTTPError (reply 503 None))).
  - apply auth_ready_onprem_sample.
  - apply linked_cons; [exact page_1_is_page|apply linked_nil].
  - apply (fails_status [reply 429 None] (reply 503 None) []).
    + repeat constructor.
    + simpl. lia.
    + discriminate.
    + simpl. lia.
  - reflexivity.
Defined.

Lemma arrivals_limited_length ps : (length ps ≤ length (arrivals_limited ps))%nat.
Proof.
  induction ps as [|[[rs r] items] ps IH]; simpl; [lia|].
  rewrite !length_app, length_map. simpl. fold (arrivals_limited ps). lia.
Qed.

Lemma query_loop_limited env ps :
  paged_limited ps →
  ∀ fuel u params acc (st : State) rest,
    auth_ready env (snd st) → PyStr.truthy u = true →
    data_script (snd st) = arrivals_limited ps ++ rest →
    (length ps ≤ fuel)%nat →
    ∃ st', query_loop env fuel (JStr u) params acc st
             = Some (Ok (acc ++ records_limited ps), st') ∧
           data_script (snd st') = rest.
Proof.
  induction 1 as [rs r items Hlimited Hlen Hpage
                 |rs r items u' ps Hlimited Hlen Hpage Hrest IH];
    intros fuel u params acc st rest Hready Hu Hscript Hfuel.
  - destruct fuel as [|fuel]; [simpl in Hfuel; lia|].
    destruct (retry_answer_ready env u params st rs (Ok r) rest Hready Hlimited Hlen)
      as (st1 & Hrun & Hd & _).
    { rewrite Hscript. simpl. rewrite app_nil_r, <- app_assoc. reflexivity. }
    { apply Hpage. }
    rewrite query_loop_S. simpl Json.truthy. rewrite Hu. cbn [negb]. rewrite Hrun.
    rewrite (read_page_of_page r items None st1 Hpage).
    exists st1. split; [|exact Hd].
    unfold records_limited. simpl. rewrite app_nil_r.
    destruct fuel; reflexivity.
  - destruct fuel as [|fuel]; [simpl in Hfuel; lia|].
    destruct (retry_answer_ready env u params st rs (Ok r)
                (arrivals_limited ps ++ rest) Hready Hlimited Hlen)
      as (st1 & Hrun & Hd & Hready1).
    { rewrite Hscript. simpl. rewrite <- !app_assoc. reflexivity. }
    { apply Hpage. }
    rewrite query_loop_S. simpl Json.truthy. rewrite Hu. cbn [negb]. rewrite Hrun.
    rewrite (read_page_of_page r items (Some u') st1 Hpage).
    destruct (IH fuel u' None (acc ++ items) st1 rest Hready1) as (st' & Hloop & Hd').
    { apply truthy_nonempty.
      destruct Hpage as (_ & _ & fields & _ & _ & _ & Hne). exact Hne. }
    { exact Hd. }
    { simpl in Hfuel. lia. }
    exists st'. split; [|exact Hd'].
    unfold link_value. rewrite Hloop. unfold records_limited. simpl.
    rewrite app_assoc. reflexivity.
Qed.

(** X6.  Retrying composes with pagination: when every page arrives after
    fewer than three rate-limit answers, [query] returns the records of the
    pages in order, exactly as if no request had been rate-limited, and has
    consumed every answer. *)
Theorem query_retries_within_pagination env entity opts (st : State) ps rest :
  auth_ready env (snd st) →
  paged_limited ps →
  data_script (snd st) = arrivals_limited ps ++ rest →
  ∃ st',
    query env entity opts st = (Ok (concat (map snd ps)), st') ∧
    data_script (snd st') = rest.
Proof.
  intros Hready Hpaged Hscript.
  destruct (query_loop_limited env ps Hpaged (query_fuel st)
              (base_url env +:+ "/" +:+ entity) (Some (query_params opts)) [] st rest
              Hready (path_truthy _ _) Hscript)
    as (st' & Hloop & Hd).
  { unfold query_fuel. rewrite Hscript, length_app.
    pose proof (arrivals_limited_length ps). lia. }
  exists st'. split; [|exact Hd]. unfold query. rewrite Hloop. reflexivity.
Qed.

Lemma query_retries_within_pagination_witness :
  ∃ st',
    query env_onprem_ready "Machines" no_opts
      (new_client,
       world_with (Raise ConnectionError)
         [Ok (reply 429 None); Ok page_1; Ok (reply 429 None); Ok (reply 429 None);
          Ok page_2])
    = (Ok [JInt 1; JInt 2; JInt 3], st') ∧
    data_script (snd st') = [].
Proof.
  apply (query_retries_within_pagination env_onprem_ready "Machines" no_opts
           (new_client,
            world_with (Raise ConnectionError)
              [Ok (reply 429 None); Ok page_1; Ok (reply 429 None);
               Ok (reply 429 None); Ok page_2])
           [([reply 429 None], page_1, [JInt 1; JInt 2]);
            ([reply 429 None; reply 429 None], page_2, [JInt 3])] []).
  - apply auth_ready_onprem_sample.
  - apply (paged_limited_next _ _ _ "https://ddc.corp/next?$skip=2").
    + repeat constructor.
    + simpl. lia.
    + exact page_1_is_page.
    + apply paged_limited_last; [repeat constructor|simpl; lia|exact page_2_is_page].
  - reflexivity.
Defined.

(** X7.  What [query] makes of one answer that does not link on.  The
    link is tested for truth, so a null, empty, zero or false link ends the
    pagination like a missing one.  The [value] is iterated, whatever it is:
    an array gives its items, a string its characters (code points below
    256 here), an object its keys,
    and null, a number or a boolean raises a type error instead of giving no
    records. *)
Theorem query_last_page_by_truth env entity opts (st : State) r fields rest :
  auth_ready env (snd st) →
  data_script (snd st) = Ok r :: rest →
  status_code r ≠ 429 → ¬ (400 ≤ status_code r < 600) →
  json_body r = Some (JObj fields) →
  Json.truthy (default JNull (Json.assoc "@odata.nextLink" fields)) = false →
  ∃ st',
    query env entity opts st =
      (py_iter (default (JArr []) (Json.assoc "value" fields)), st') ∧
    data_script (snd st') = rest.
Proof.
  intros Hready Hscript H429 Hok Hbody Hlink.
  destruct (retry_answer_ready env (base_url env +:+ "/" +:+ entity)
              (Some (query_params opts)) st [] (Ok r) rest Hready)
    as (st' & Hrun & Hd & _).
  { constructor. } { simpl. lia. } { exact Hscript. } { exact H429. }
  exists st'. split; [|exact Hd].
  unfold query, query_fuel. rewrite Hscript. simpl length. rewrite query_loop_S.
  simpl Json.truthy. rewrite path_truthy. cbn [negb]. rewrite Hrun.
  apply is_error_status_false in Hok.
  unfold read_page. run_monad. rewrite Hok, Hbody. unfold dict_get. simpl.
  destruct (py_iter (default (JArr []) (Json.assoc "value" fields))) as [items|e];
    simpl; [|reflexivity].
  rewrite Hlink. reflexivity.
Qed.

Lemma query_last_page_by_truth_witness :
  (∃ st',
     query env_onprem_ready "Machines" no_opts
       (new_client,
        world_with (Raise ConnectionError)
          [Ok (reply 200 (Some (JObj [("value", JStr "ab");
                                      ("@odata.nextLink", JStr "")])));
           Ok page_2])
     = (Ok [JStr "a"; JStr "b"], st') ∧
     data_script (snd st') = [Ok page_2]) ∧
  (∃ st',
     query env_onprem_ready "Machines" no_opts
       (new_client,
        world_with (Raise ConnectionError)
          [Ok (reply 200 (Some (JObj [("value", JNull)])))])
     = (Raise TypeError, st') ∧
     data_script (snd st') = []).
Proof.
  split.
  - apply (query_last_page_by_truth env_onprem_ready "Machines" no_opts
             (new_client,
              world_with (Raise ConnectionError)
                [Ok (reply 200 (Some (JObj [("value", JStr "ab");
                                            ("@odata.nextLink", JStr "")])));
                 Ok page_2])
             (reply 200 (Some (JObj [("value", JStr "ab");
                                     ("@odata.nextLink", JStr "")])))
             [("value", JStr "ab"); ("@odata.nextLink", JStr "")] [Ok page_2]).
    + apply auth_ready_onprem_sample.
    + reflexivity.
    + discriminate.
    + simpl. lia.
    + reflexivity.
    + reflexivity.
  - apply (query_last_page_by_truth env_onprem_ready "Machines" no_opts
             (new_client,
              world_with (Raise ConnectionError)
                [Ok (reply 200 (Some (JObj [("value", JNull)])))])
             (reply 200 (Some (JObj [("value", JNull)])))
             [("value", JNull)] []).
    + apply auth_ready_onprem_sample.
    + reflexivity.
    + discriminate.
    + simpl. lia.
    + reflexivity.
    + reflexivity.
Defined.

(** ** The token cache *)

Lemma get_cloud_token_failure env c w :
  token_is_fresh c (now w) = false → cloud_credentials env = true →
  ∀ st', snd (_get_cloud_token env (c, w)) = st' →
  match token_server w (token_calls w) with
  | Raise e =>
      fst (_get_cloud_token env (c, w)) = Raise e ∧ fst st' = c
  | Ok r =>
      if is_error_status (status_code r)
      then fst (_get_cloud_token env (c, w)) = Raise (HTTPError r) ∧ fst st' = c
      else
        match json_body r with
        | None => fst (_get_cloud_token env (c, w)) = Raise JSONDecodeError ∧ fst st' = c
        | Some d =>
            match access_token_of d with
            | Raise x => fst (_get_cloud_token env (c, w)) = Raise x ∧ fst st' = c
            | Ok tok =>
                match expiry_of (now (after_exchange w (token_event env))) d with
                | Raise x =>
                    fst (_get_cloud_token env (c, w)) = Raise x ∧
                    fst st' = mkClient (_session c) tok (_token_expiry c)
                | Ok e =>
                    fst (_get_cloud_token env (c, w)) = Ok tok ∧
                    fst st' = mkClient (_session c) tok (Some e)
                end
            end
        end
  end.
Proof.
  intros Hfresh Hcred st' <-.
  destruct (token_server w (token_calls w)) as [r|e] eqn:Hsrv.
  2: { unfold _get_cloud_token. run_monad. rewrite Hfresh.
       unfold cloud_credentials in Hcred. rewrite Hcred. simpl.
       unfold requests_post, log. simpl. rewrite Hsrv. split; reflexivity. }
  destruct (is_error_status (status_code r)) eqn:Hstatus.
  { unfold _get_cloud_token. run_monad. rewrite Hfresh.
    unfold cloud_credentials in Hcred. rewrite Hcred. simpl.
    unfold requests_post, log. simpl. rewrite Hsrv. simpl. rewrite Hstatus.
    split; reflexivity. }
  destruct (json_body r) as [d|] eqn:Hbody.
  2: { unfold _get_cloud_token. run_monad. rewrite Hfresh.
       unfold cloud_credentials in Hcred. rewrite Hcred. simpl.
       unfold requests_post, log. simpl. rewrite Hsrv. simpl. rewrite Hstatus. simpl.
       rewrite Hbody. split; reflexivity. }
  destruct (access_token_of d) as [tok|x] eqn:Htok.
  2: { unfold _get_cloud_token. run_monad. rewrite Hfresh.
       unfold cloud_credentials in Hcred. rewrite Hcred. simpl.
       unfold requests_post, log. simpl. rewrite Hsrv. simpl. rewrite Hstatus. simpl.
       rewrite Hbody. simpl. rewrite Htok. split; reflexivity. }
  rewrite (get_cloud_token_answered env c w r d tok Hfresh Hcred Hsrv Hstatus Hbody Htok).
  destruct (expiry_of _ d); split; reflexivity.
Qed.

(** X8.  An exchange that fails before the token is read leaves the cache
    as it was: on a transport failure, an error status, a body that does not
    decode, a body that is not an object or an object without access_token,
    the getter raises and the client's token and expiry are unchanged.  But
    an access_token that is there is stored at once, whatever its value: when
    expires_in is then refused by [int], or the expiry is not a [datetime],
    the getter raises with the new token already stored beside the old
    expiry.  In every case one exchange was made. *)
Theorem token_exchange_failure env c w :
  ¬ cached_token_valid c (now w) → cloud_credentials env = true →
  let w' := after_exchange w (token_event env) in
  let raises x c' :=
    fst (_get_cloud_token env (c, w)) = Raise x ∧
    fst (snd (_get_cloud_token env (c, w))) = c' in
  token_calls (snd (snd (_get_cloud_token env (c, w)))) = S (token_calls w) ∧
  (∀ e, token_server w (token_calls w) = Raise e → raises e c) ∧
  (∀ r, token_server w (token_calls w) = Ok r →
        (400 ≤ status_code r < 600 → raises (HTTPError r) c) ∧
        (¬ (400 ≤ status_code r < 600) →
           (json_body r = None → raises JSONDecodeError c) ∧
           (∀ d, json_body r = Some d → (∀ fields, d ≠ JObj fields) →
                 raises TypeError c) ∧
           (∀ fields, json_body r = Some (JObj fields) →
                      Json.assoc "access_token" fields = None →
                      raises (KeyError "access_token") c) ∧
           (∀ fields tok,
              json_body r = Some (JObj fields) →
              Json.assoc "access_token" fields = Some tok →
              let stored := mkClient (_session c) tok (_token_expiry c) in
              (∀ v x, Json.assoc "expires_in" fields = Some v → py_int v = Raise x →
                      raises x stored) ∧
              (∀ n, expires_in_of (JObj fields) = Ok n →
                    ¬ seconds_later_ok (now w') (n - 300) →
                    raises OverflowError stored)))).
Proof.
  intros Hnot Hcred w' raises. unfold raises. apply token_not_fresh in Hnot.
  pose proof (get_cloud_token_failure env c w Hnot Hcred _ eq_refl) as Hcases.
  split; [apply (get_cloud_token_posts env c w Hnot Hcred)|]. split.
  - intros e He. rewrite He in Hcases. exact Hcases.
  - intros r Hr. rewrite Hr in Hcases. split.
    + intros Herr. apply is_error_status_spec in Herr. rewrite Herr in Hcases.
      exact Hcases.
    + intros Hok. apply is_error_status_false in Hok. rewrite Hok in Hcases.
      split; [|split; [|split]].
      * intros Hbody. rewrite Hbody in Hcases. exact Hcases.
      * intros d Hbody Hshape. rewrite Hbody in Hcases.
        destruct d as [| | | | |fields]; try exact Hcases.
        exfalso. apply (Hshape fields). reflexivity.
      * intros fields Hbody Hkey. rewrite Hbody in Hcases.
        unfold access_token_of in Hcases. rewrite Hkey in Hcases. exact Hcases.
      * intros fields tok Hbody Hkey. rewrite Hbody in Hcases.
        unfold access_token_of in Hcases. rewrite Hkey in Hcases. fold w' in Hcases.
        unfold expiry_of in Hcases. split.
        -- intros v x Hv Hint.
           assert (Hexp : expires_in_of (JObj fields) = Raise x).
           { unfold expires_in_of, dict_get. rewrite Hv. exact Hint. }
           rewrite Hexp in Hcases. exact Hcases.
        -- intros n Hexp Hbad. rewrite Hexp in Hcases.
           rewrite (proj2 (seconds_later_spec (now w') (n - 300)) Hbad) in Hcases.
           exact Hcases.
Qed.

Lemma expired_sample t : 500 ≤ t → ¬ cached_token_valid (client_with_token "old" 500) t.
Proof.
  intros Ht (_ & e & He & Hlt). simpl in He. injection He as <-. lia.
Qed.

Lemma token_exchange_failure_witness :
  (fst (_get_cloud_token env_cloud_ready
          (client_with_token "old" 500, world_with (Ok (reply 401 None)) []))
   = Raise (HTTPError (reply 401 None)) ∧
   fst (snd (_get_cloud_token env_cloud_ready
               (client_with_token "old" 500, world_with (Ok (reply 401 None)) [])))
   = client_with_token "old" 500) ∧
  (fst (_get_cloud_token env_cloud_ready
          (client_with_token "old" 500, world_with (Ok token_reply_far) []))
   = Raise OverflowError ∧
   fst (snd (_get_cloud_token env_cloud_ready
               (client_with_token "old" 500,
                world_with (Ok token_reply_far) [])))
   = mkClient None (JStr "tok-4") (Some 500)) ∧
  (fst (_get_cloud_token env_cloud_ready
          (client_with_token "old" 500, world_with (Ok token_reply_bad_expiry) []))
   = Raise (InvalidLiteral "soon") ∧
   fst (snd (_get_cloud_token env_cloud_ready
               (client_with_token "old" 500,
                world_with (Ok token_reply_bad_expiry) [])))
   = mkClient None (JStr "tok-2") (Some 500)).
Proof.
  split; [|split].
  - apply (proj1 (proj2 (proj2 (token_exchange_failure env_cloud_ready
                                  (client_with_token "old" 500)
                                  (world_with (Ok (reply 401 None)) [])
                                  (expired_sample 1000 ltac:(lia)) eq_refl))
                    (reply 401 None) eq_refl)).
    simpl. lia.
  - apply (proj2 (proj2 (proj2 (proj2 (proj2 (proj2 (proj2
             (token_exchange_failure env_cloud_ready
                (client_with_token "old" 500)
                (world_with (Ok token_reply_far) [])
                (expired_sample 1000 ltac:(lia)) eq_refl))
             token_reply_far eq_refl) ltac:(simpl; lia))))
             [("access_token", JStr "tok-4"); ("expires_in", JInt 1000000000000)]
             (JStr "tok-4") eq_refl eq_refl) 1000000000000 eq_refl).
    vm_compute. intros [_ [_ H]]. apply H. reflexivity.
  - apply (proj1 (proj2 (proj2 (proj2 (proj2 (proj2 (proj2
             (token_exchange_failure env_cloud_ready
                (client_with_token "old" 500)
                (world_with (Ok token_reply_bad_expiry) [])
                (expired_sample 1000 ltac:(lia)) eq_refl))
             token_reply_bad_expiry eq_refl) ltac:(simpl; lia))))
             [("access_token", JStr "tok-2"); ("expires_in", JStr "soon")]
             (JStr "tok-2") eq_refl eq_refl) (JStr "soon") (InvalidLiteral "soon")
             eq_refl eq_refl).
Defined.

(** X9.  The reuse window of a stored token.  After an exchange that
    succeeded with a true token and expires_in [n], the expiry being a
    [datetime], a later call reuses the token, with no exchange and no
    change of state, exactly at the clock readings before the stored expiry,
    which is [n - 300] seconds after the reading that followed the exchange.
    So when [n] is at most 300 the token is never reused from that reading
    on: the next call makes a new exchange. *)
Theorem token_reuse_window env c w r fields tok n :
  ¬ cached_token_valid c (now w) → cloud_credentials env = true →
  token_server w (token_calls w) = Ok r →
  ¬ (400 ≤ status_code r < 600) →
  json_body r = Some (JObj fields) →
  Json.assoc "access_token" fields = Some tok → Json.truthy tok = true →
  expires_in_of (JObj fields) = Ok n →
  let t' := now (after_exchange w (token_event env)) in
  seconds_later_ok t' (n - 300) →
  ∃ c', fst (snd (_get_cloud_token env (c, w))) = c' ∧
        (∀ w2, now w2 < t' + 1000000 * (n - 300) →
               _get_cloud_token env (c', w2) = (Ok tok, (c', w2))) ∧
        (∀ w2, t' + 1000000 * (n - 300) ≤ now w2 →
               token_calls (snd (snd (_get_cloud_token env (c', w2))))
               = S (token_calls w2)) ∧
        (n ≤ 300 →
         ∀ w2, t' ≤ now w2 →
               token_calls (snd (snd (_get_cloud_token env (c', w2))))
               = S (token_calls w2)).
Proof.
  intros Hnot Hcred Hsrv Hok Hbody Htok Htrue Hexp t' Hrange.
  apply token_not_fresh in Hnot. apply is_error_status_false in Hok.
  assert (Haccess : access_token_of (JObj fields) = Ok tok).
  { unfold access_token_of. rewrite Htok. reflexivity. }
  assert (Hexpiry : expiry_of t' (JObj fields) = Ok (t' + 1000000 * (n - 300))).
  { unfold expiry_of. rewrite Hexp.
    destruct (proj1 (seconds_later_spec t' (n - 300)) Hrange) as [-> ->]. reflexivity. }
  rewrite (get_cloud_token_exchange env c w r (JObj fields) tok _ Hnot Hcred Hsrv Hok
             Hbody Haccess Hexpiry).
  eexists. split; [reflexivity|].
  set (c' := mkClient (_session c) tok (Some (t' + 1000000 * (n - 300)))).
  assert (Hlate : ∀ w2, t' + 1000000 * (n - 300) ≤ now w2 →
            token_calls (snd (snd (_get_cloud_token env (c', w2))))
            = S (token_calls w2)).
  { intros w2 Hlate. apply get_cloud_token_posts; [|exact Hcred].
    apply token_not_fresh. intros (_ & e & He & Hlt).
    simpl in He. injection He as <-. lia. }
  split; [|split; [exact Hlate|]].
  - intros w2 Hearly. apply get_cloud_token_cached, token_is_fresh_iff.
    split; [exact Htrue|]. exists (t' + 1000000 * (n - 300)). split; [reflexivity|exact Hearly].
  - intros Hshort w2 Hafter. apply Hlate. lia.
Qed.

Lemma token_reuse_window_witness :
  let w := world_with (Ok token_reply_short) [] in
  ∃ c', fst (snd (_get_cloud_token env_cloud_ready (new_client, w))) = c' ∧
        token_calls
          (snd (snd (_get_cloud_token env_cloud_ready
                       (c', snd (snd (_get_cloud_token env_cloud_ready
                                        (new_client, w)))))))
        = 2%nat.
Proof.
  intros w.
  destruct (token_reuse_window env_cloud_ready new_client w token_reply_short
              [("access_token", JStr "tok-3"); ("expires_in", JInt 300)]
              (JStr "tok-3") 300 (not_cached_new_client _) eq_refl eq_refl)
    as (c' & Hc' & _ & _ & Hshort);
    [simpl; lia|reflexivity|reflexivity|reflexivity|reflexivity| |].
  { vm_compute. repeat split; discriminate. }
  exists c'. split; [exact Hc'|].
  rewrite (Hshort ltac:(lia)
             (snd (snd (_get_cloud_token env_cloud_ready (new_client, w))))).
  - reflexivity.
  - vm_compute. discriminate.
Defined.

(** ** Refreshing, and who talks to the token endpoint *)

(** X10.  A refresh with a usable cached token and a session already
    built makes no token exchange and sends nothing: it only writes
    [CWSAuth bearer=] followed by the cached token into the Authorization
    header of the session object, and when the header already holds that
    value the whole state is unchanged. *)
Theorem refresh_with_cached_token env c w r :
  is_cloud env = true → cached_token_valid c (now w) → _session c = Some r →
  auth_header (_token c) = Some ("CWSAuth bearer=" +:+ Json.str (_token c)) ∧
  _refresh_cloud_session env (c, w) =
    (Ok tt,
     (c, mkWorld (clock w)
           (alter (set_header "Authorization" (auth_header (_token c))) r (heap w))
           (token_server w) (token_calls w) (data_script w) (trace w))) ∧
  (∀ s, heap w !! r = Some s →
        s_headers s !! "Authorization" = Some (auth_header (_token c)) →
        _refresh_cloud_session env (c, w) = (Ok tt, (c, w))).
Proof.
  intros Hcloud Hvalid Hs. split; [reflexivity|].
  assert (Hrun : _refresh_cloud_session env (c, w) =
    (Ok tt,
     (c, mkWorld (clock w)
           (alter (set_header "Authorization" (auth_header (_token c))) r (heap w))
           (token_server w) (token_calls w) (data_script w) (trace w)))).
  { unfold _refresh_cloud_session. rewrite Hcloud. unfold bind.
    rewrite (get_cloud_token_cached env c w) by (apply token_is_fresh_iff, Hvalid).
    rewrite (session_existing env c w r Hs). reflexivity. }
  split; [exact Hrun|].
  intros s Hlook Hheader. rewrite Hrun. f_equal. f_equal.
  destruct w as [t h srv calls script tr]. simpl in *. f_equal.
  apply list_eq. intros i. destruct (decide (i = r)) as [->|Hne].
  - rewrite list_lookup_alter_eq, Hlook. simpl. f_equal.
    destruct s as [v hs a]. unfold set_header. simpl in *. f_equal.
    apply insert_id. exact Hheader.
  - rewrite list_lookup_alter_ne by congruence. reflexivity.
Qed.

Lemma valid_sample :
  cached_token_valid (mkClient (Some 0%nat) (JStr "tok-0") (Some 5000))
    (now (mkWorld (λ _, 1000)
            [mkSession true (<["Authorization" := Some "CWSAuth bearer=tok-0"]> ∅) None]
            (λ _, Raise ConnectionError) 0 [] [])).
Proof.
  split; [reflexivity|]. exists 5000. split; reflexivity.
Defined.

Lemma refresh_with_cached_token_witness :
  let c := mkClient (Some 0%nat) (JStr "tok-0") (Some 5000) in
  let s := mkSession true (<["Authorization" := Some "CWSAuth bearer=tok-0"]> ∅) None in
  let w := mkWorld (λ _, 1000) [s] (λ _, Raise ConnectionError) 0 [] [] in
  _refresh_cloud_session env_cloud_ready (c, w) = (Ok tt, (c, w)).
Proof.
  intros c s w.
  apply (proj2 (proj2 (refresh_with_cached_token env_cloud_ready c w 0 eq_refl
                         valid_sample eq_refl)) s).
  - reflexivity.
  - reflexivity.
Defined.

Lemma no_exchange_refl st : no_exchange st st.
Proof. split; reflexivity. Qed.

Lemma no_exchange_trans st1 st2 st3 :
  no_exchange st1 st2 → no_exchange st2 st3 → no_exchange st1 st3.
Proof. intros [H1 H2] [H3 H4]. split; congruence. Qed.

Lemma token_posts_snoc tr e :
  on_wire e = true → token_posts (tr ++ [e]) = token_posts tr.
Proof.
  intros He. unfold token_posts. rewrite List.filter_app, length_app. simpl.
  unfold is_token_post. rewrite He. simpl. lia.
Qed.

Lemma session_onprem_quiet env st :
  is_cloud env = false → no_exchange st (snd (session env st)).
Proof.
  intros Hcloud. destruct st as [c w]. unfold session. run_monad.
  destruct (_session c); [apply no_exchange_refl|].
  unfold alloc_session, update_session. simpl. rewrite Hcloud.
  destruct (negb _); simpl; split; reflexivity.
Qed.

Lemma session_request_quiet r m url p st :
  no_exchange st (snd (session_request r m url p st)).
Proof.
  destruct st as [c w]. destruct url; try apply no_exchange_refl.
  unfold session_request, log. simpl.
  destruct (data_script w) as [|o rest]; simpl.
  - split; [reflexivity|]. simpl. apply token_posts_snoc. reflexivity.
  - destruct o; simpl; (split; [reflexivity|]); simpl;
      apply token_posts_snoc; reflexivity.
Qed.

Lemma attempt_onprem_quiet env m url p st :
  is_cloud env = false → no_exchange st (snd (attempt env m url p st)).
Proof.
  intros Hcloud. unfold attempt. rewrite Hcloud. unfold bind, ret.
  pose proof (session_onprem_quiet env st Hcloud) as Hq.
  destruct (session env st) as [[r|e] st1]; simpl in Hq; [|exact Hq].
  eapply no_exchange_trans; [exact Hq|apply session_request_quiet].
Qed.

Lemma retry_loop_onprem_quiet env m url p mr n a st :
  is_cloud env = false → no_exchange st (snd (retry_loop env m url p mr n a st)).
Proof.
  intros Hcloud. revert a st. induction n as [|n IH]; intros a st.
  - apply no_exchange_refl.
  - rewrite retry_loop_S. unfold bind.
    pose proof (attempt_onprem_quiet env m url p st Hcloud) as Hq.
    destruct (attempt env m url p st) as [[resp|e] [c1 w1]]; simpl in Hq; [|exact Hq].
    destruct (status_code resp =? 429); [|exact Hq].
    unfold time_sleep at 1. cbn [fst snd].
    eapply no_exchange_trans; [exact Hq|].
    eapply no_exchange_trans; [|apply IH].
    unfold log. split; [reflexivity|]. simpl.
    apply token_posts_snoc. reflexivity.
Qed.

Lemma query_loop_onprem_quiet env fuel :
  is_cloud env = false →
  ∀ url params acc st out,
    query_loop env fuel url params acc st = Some out → no_exchange st (snd out).
Proof.
  intros Hcloud. induction fuel as [|fuel IH]; intros url params acc st out.
  - simpl. destruct (negb (Json.truthy url)); [|discriminate].
    intros [= <-]. apply no_exchange_refl.
  - rewrite query_loop_S. destruct (negb (Json.truthy url)).
    { intros [= <-]. apply no_exchange_refl. }
    unfold _request_with_retry.
    pose proof (retry_loop_onprem_quiet env "GET" url params 3 3 0 st Hcloud) as Hq.
    destruct (retry_loop env "GET" url params 3 3 0 st) as [[response|e] st1];
      simpl in Hq.
    2: { intros [= <-]. exact Hq. }
    pose proof (read_page_state response st1) as Hsame.
    destruct (read_page response st1) as [[[items next]|e] st2];
      simpl in Hsame; subst st2.
    2: { intros [= <-]. exact Hq. }
    intros Hout. eapply no_exchange_trans; [exact Hq|]. eapply IH, Hout.
Qed.

Lemma after_request_onprem_quiet {A} env (st : State) (k : Response → M A) m url p :
  is_cloud env = false →
  (∀ resp st1, snd (k resp st1) = st1) →
  no_exchange st
    (snd ((let* response := _request_with_retry env m url 3 p in k response) st)).
Proof.
  intros Hcloud Hpure. unfold bind, _request_with_retry.
  pose proof (retry_loop_onprem_quiet env m url p 3 3 0 st Hcloud) as Hq.
  destruct (retry_loop env m url p 3 3 0 st) as [[resp|e] st1]; simpl in Hq.
  - rewrite Hpure. exact Hq.
  - exact Hq.
Qed.

Lemma run_op_onprem_quiet env o st :
  is_cloud env = false → not_token_getter o = true →
  no_exchange st (run_op env o st).
Proof.
  intros Hcloud Hop.
  destruct o as [| | |m url mr p|entity opts|entity k expand|entity apply
                |entity filter|f r p mt]; simpl; try discriminate Hop.
  - apply session_onprem_quiet, Hcloud.
  - unfold _refresh_cloud_session. rewrite Hcloud. apply no_exchange_refl.
  - apply retry_loop_onprem_quiet, Hcloud.
  - destruct (query_terminates env entity opts st) as (out & Hout & -> & _).
    eapply query_loop_onprem_quiet; eassumption.
  - apply (after_request_onprem_quiet env st
             (λ response,
                if status_code response =? 404 then ret JNull
                else raise_for_status response ;;; response_json response));
      [exact Hcloud|].
    intros resp st1. destruct (status_code resp =? 404); [reflexivity|].
    run_monad. destruct (is_error_status (status_code resp)); [reflexivity|].
    destruct (json_body resp); reflexivity.
  - apply (after_request_onprem_quiet env st
             (λ response, raise_for_status response ;;; response_json response));
      [exact Hcloud|].
    intros resp st1.
    run_monad. destruct (is_error_status (status_code resp)); [reflexivity|].
    destruct (json_body resp); reflexivity.
  - apply (after_request_onprem_quiet env st
             (λ response,
                raise_for_status response ;;;
                match PyInt.of_string (text response) with
                | Some n => ret n
                | None => raise (InvalidLiteral (text response))
                end));
      [exact Hcloud|].
    intros resp st1.
    run_monad. destruct (is_error_status (status_code resp)); [reflexivity|].
    destruct (PyInt.of_string (text resp)); reflexivity.
  - unfold list_machines.
    destruct (query_terminates env "Machines" (list_machines_opts f r p mt) st)
      as (out & Hout & -> & _).
    eapply query_loop_onprem_quiet; eassumption.
Qed.

(** X11.  Outside cloud mode the client never contacts the token
    endpoint: over any run of operations (the token getter itself left
    aside, which no on-premises path calls) under environments whose
    deployment is not cloud, no token exchange is made, whatever the data
    endpoint answers. *)
Theorem onprem_never_exchanges_tokens (ops : list (Env * op)) (st : State) :
  Forall (λ eo, is_cloud (fst eo) = false ∧ not_token_getter (snd eo) = true) ops →
  token_calls (snd (run_ops ops st)) = token_calls (snd st) ∧
  token_posts (trace (snd (run_ops ops st))) = token_posts (trace (snd st)).
Proof.
  intros Hops. revert st. induction Hops as [|[env o] ops [Hcloud Hop] _ IH];
    intros st; simpl.
  - split; reflexivity.
  - simpl in Hcloud, Hop.
    apply (no_exchange_trans st (run_op env o st));
      [apply run_op_onprem_quiet; assumption|apply IH].
Qed.

Lemma onprem_never_exchanges_tokens_witness :
  let st := (new_client, world_with (Ok token_reply_3600) [Ok page_1; Ok page_2]) in
  let ops := [(env_onprem_ready, OpQuery "Machines" no_opts);
              (env_onprem_ready, OpRefreshCloudSession)] in
  token_calls (snd (run_ops ops st)) = 0%nat ∧
  token_posts (trace (snd (run_ops ops st))) = 0%nat.
Proof.
  intros st ops.
  apply (onprem_never_exchanges_tokens ops st).
  repeat constructor.
Defined.

(** ** A first access that fails *)

Lemma session_failed_state env c w :
  _session c = None → first_access_fails env c w →
  ∃ msg,
    session env (c, w) =
    (Raise (ValueError msg),
     (mkClient (Some (length (heap w))) (_token c) (_token_expiry c),
      mkWorld (clock w)
        (alter (set_verify (verify_ssl env)) (length (heap w))
           (heap w ++ [fresh_session]))
        (token_server w) (token_calls w) (data_script w) (trace w))).
Proof.
  intros Hs Hfails. unfold session. run_monad. rewrite Hs.
  unfold alloc_session, update_session. simpl.
  destruct Hfails as [[Hcloud Hcred]|(Hcloud & Hnot & Hcred)]; rewrite Hcloud.
  - unfold onprem_credentials in Hcred. rewrite Hcred. simpl.
    eexists. reflexivity.
  - match goal with
    | |- context [_get_cloud_token env (?c1, ?w1)] =>
        rewrite (get_cloud_token_no_credentials env c1 w1)
    end.
    + eexists. reflexivity.
    + apply token_not_fresh. intros Hvalid. apply Hnot. exact Hvalid.
    + exact Hcred.
Qed.

(** X12.  The session is not rebuilt after a first access that failed.
    When the first access raises for missing credentials, the session object
    has already been stored, with only its verify flag set.  From then on
    every access returns that object without configuring it: over any later
    run of operations, under whatever environments, it never gets
    credentials, an Accept header or a customer-id header. *)
Theorem failed_first_access_sticks env c w (ops : list (Env * op)) :
  _session c = None → first_access_fails env c w →
  let r := length (heap w) in
  let st1 := snd (session env (c, w)) in
  (∃ msg, fst (session env (c, w)) = Raise (ValueError msg)) ∧
  _session (fst st1) = Some r ∧
  heap (snd st1) !! r = Some (mkSession (verify_ssl env) ∅ None) ∧
  (∀ env2, session env2 st1 = (Ok r, st1)) ∧
  _session (fst (run_ops ops st1)) = Some r ∧
  ∃ s, heap (snd (run_ops ops st1)) !! r = Some s ∧
       s_verify s = verify_ssl env ∧ s_auth s = None ∧
       s_headers s !! "Accept" = None ∧
       s_headers s !! "Citrix-CustomerId" = None.
Proof.
  intros Hs Hfails r st1.
  destruct (session_failed_state env c w Hs Hfails) as [msg Hrun].
  assert (Hst1 : st1 =
    (mkClient (Some r) (_token c) (_token_expiry c),
      mkWorld (clock w)
        (alter (set_verify (verify_ssl env)) r (heap w ++ [fresh_session]))
        (token_server w) (token_calls w) (data_script w) (trace w))).
  { unfold st1. rewrite Hrun. reflexivity. }
  assert (Hlook : heap (snd st1) !! r = Some (mkSession (verify_ssl env) ∅ None)).
  { rewrite Hst1. simpl. rewrite list_lookup_alter_eq.
    unfold r. rewrite lookup_app_r by reflexivity.
    rewrite Nat.sub_diag. reflexivity. }
  split; [exists msg; rewrite Hrun; reflexivity|].
  split; [rewrite Hst1; reflexivity|]. split; [exact Hlook|].
  split.
  { intros env2. destruct st1 as [c1 w1]. apply session_existing.
    injection Hst1 as -> _. reflexivity. }
  destruct (run_ops_frame ops st1) as ((_ & Hauth & Hsess) & _ & _).
  assert (Hs1 : _session (fst st1) = Some r) by (rewrite Hst1; reflexivity).
  rewrite Hs1 in Hsess. destruct Hsess as [Hkept _].
  split; [exact Hkept|].
  destruct (Hauth r _ Hlook) as (s & Hs' & Hv & Ha & Hh).
  exists s. split; [exact Hs'|]. split; [exact Hv|]. split; [exact Ha|].
  split; rewrite Hh by discriminate; reflexivity.
Qed.

Lemma failed_first_access_sticks_witness :
  let st1 := snd (session env_onprem (new_client, world_with (Raise ConnectionError) [])) in
  session env_onprem_ready st1 = (Ok 0%nat, st1) ∧
  ∃ s, heap (snd (run_ops [(env_onprem_ready, OpQuery "Machines" no_opts)] st1))
         !! 0%nat = Some s ∧
       s_verify s = true ∧ s_auth s = None ∧
       s_headers s !! "Accept" = None ∧
       s_headers s !! "Citrix-CustomerId" = None.
Proof.
  intros st1.
  destruct (failed_first_access_sticks env_onprem new_client
              (world_with (Raise ConnectionError) [])
              [(env_onprem_ready, OpQuery "Machines" no_opts)] eq_refl)
    as (_ & _ & _ & Hagain & _ & Hlater).
  { left. split; reflexivity. }
  split; [apply Hagain|exact Hlater].
Defined.

(** ** The cloud hosts *)

Lemma cloud_endpoint_in_hosts region : cloud_endpoint region ∈ cloud_hosts.
Proof.
  unfold cloud_endpoint, CLOUD_ENDPOINTS, cloud_hosts, us_endpoint.
  destruct (decide (region = "jp")) as [->|Hjp].
  { rewrite lookup_insert_eq. set_solver. }
  rewrite lookup_insert_ne by congruence.
  destruct (decide (region = "ap-s")) as [->|Haps].
  { rewrite lookup_insert_eq. set_solver. }
  rewrite lookup_insert_ne by congruence.
  destruct (decide (region = "eu")) as [->|Heu].
  { rewrite lookup_insert_eq. set_solver. }
  rewrite lookup_insert_ne by congruence.
  destruct (decide (region = "us")) as [->|Hus].
  { rewrite lookup_insert_eq. set_solver. }
  rewrite lookup_insert_ne by congruence.
  rewrite lookup_empty. set_solver.
Qed.

(** X13.  Whatever the environment holds, the token URL and the cloud
    base URL are built on one of the four hosts of the endpoint table, the
    same for both: the token URL is that host's /cctrustoauth2/ path, the
    exchange the getter makes (which carries the client secret) is a post to
    it, and in cloud mode the base URL, on which the first request of every
    query is built, is that host followed by /monitorodata.  (Only these
    URLs are the client's own: the follow-up requests of a paginated query
    go to the link the server gave, whatever its host.) *)
Theorem cloud_hosts_are_fixed (env : Env) (customer_id : option string) :
  ∃ host, host ∈ cloud_hosts ∧
          token_url env customer_id =
            host +:+ "/cctrustoauth2/" +:+ str_opt customer_id +:+ "/tokens/clients" ∧
          (∀ c w, ¬ cached_token_valid c (now w) → cloud_credentials env = true →
                  trace (snd (snd (_get_cloud_token env (c, w)))) =
                  trace w ++
                  [EvTokenPost
                     (host +:+ "/cctrustoauth2/" +:+
                      str_opt (env !! "CITRIX_CUSTOMER_ID") +:+ "/tokens/clients")
                     (token_form (env !! "CITRIX_CLIENT_ID")
                        (env !! "CITRIX_CLIENT_SECRET"))
                     (verify_ssl env)]) ∧
          (is_cloud env = true → base_url env = host +:+ "/monitorodata").
Proof.
  exists (cloud_endpoint (region_code env)).
  split; [apply cloud_endpoint_in_hosts|]. split; [reflexivity|]. split.
  - intros c w Hnot Hcred. apply token_not_fresh in Hnot.
    apply (get_cloud_token_posts env c w Hnot Hcred).
  - intros Hcloud. unfold base_url. rewrite Hcloud. reflexivity.
Qed.

Lemma cloud_hosts_are_fixed_witness :
  ∃ host, host ∈ cloud_hosts ∧
          token_url env_cloud_typo (Some "acme") =
            host +:+ "/cctrustoauth2/" +:+ "acme" +:+ "/tokens/clients" ∧
          base_url env_cloud_typo = host +:+ "/monitorodata".
Proof.
  destruct (cloud_hosts_are_fixed env_cloud_typo (Some "acme"))
    as (host & Hin & Htoken & _ & Hbase).
  exists host. split; [exact Hin|]. split; [exact Htoken|].
  apply Hbase. reflexivity.
Defined.

(** ** The maintenance flag of the machine listing *)

Lemma join_last_nonempty sep parts x :
  PyStr.truthy x = true → PyStr.truthy (PyStr.join sep (parts ++ [x])) = true.
Proof.
  intros Hx. induction parts as [|p parts IH]; [exact Hx|].
  change ((p :: parts) ++ [x]) with (p :: (parts ++ [x])).
  destruct (parts ++ [x]) as [|q rest] eqn:E.
  { destruct parts; discriminate E. }
  cbn [PyStr.join]. destruct p as [|ch p]; [|reflexivity].
  simpl. destruct sep as [|ch sep]; [|reflexivity].
  simpl. exact IH.
Qed.

(** X14.  The maintenance flag is tested for presence, not for truth:
    given at all, false included, it adds the last fragment
    [IsInMaintenanceMode eq true] or [... eq false], so the listing always
    sends a $filter, and that filter is the other fragments joined with the
    flag's fragment. *)
Theorem maintenance_flag_is_always_sent
    (filter registration_state power_state : option string) (b : bool) :
  list_machines_filters filter registration_state power_state (Some b) =
    list_machines_filters filter registration_state power_state None ++
    ["IsInMaintenanceMode eq " +:+ (if b then "true" else "false")] ∧
  query_params (list_machines_opts filter registration_state power_state (Some b))
    !! "$filter" =
  Some (PStr (PyStr.join " and "
                (list_machines_filters filter registration_state power_state None ++
                 ["IsInMaintenanceMode eq " +:+ (if b then "true" else "false")]))) ∧
  list_machines_opts None None None (Some false) =
    mkOpts (Some "IsInMaintenanceMode eq false") None None None None None false.
Proof.
  assert (Hfilters :
    list_machines_filters filter registration_state power_state (Some b) =
    list_machines_filters filter registration_state power_state None ++
    ["IsInMaintenanceMode eq " +:+ (if b then "true" else "false")]).
  { unfold list_machines_filters. rewrite !app_nil_r, <- !app_assoc. reflexivity. }
  split; [exact Hfilters|]. split; [|reflexivity].
  rewrite query_params_filter. unfold list_machines_opts. rewrite Hfilters.
  set (parts := list_machines_filters filter registration_state power_state None).
  assert (Hcombined :
    combine_filters (parts ++ ["IsInMaintenanceMode eq " +:+ (if b then "true" else "false")])
    = Some (PyStr.join " and "
              (parts ++ ["IsInMaintenanceMode eq " +:+ (if b then "true" else "false")]))).
  { destruct parts; reflexivity. }
  cbn [q_filter]. rewrite Hcombined. cbn [PyStr.truthy_opt default].
  rewrite join_last_nonempty; [reflexivity|]. destruct b; reflexivity.
Qed.

(** ** Routing and validation at the dispatch boundary *)

Section RoutingProofs.

Variable client_method : string → list json → M json.
Variable py_repr : json → string.

Ltac settle_route Hquiet :=
  unfold route, machines_handle_tool, sessions_handle_tool,
    connections_handle_tool, applications_handle_tool, users_handle_tool,
    analytics_handle_tool, call, on_client, get_global_client, bind, ret, raise;
  cbn;
  repeat match goal with
    | |- context [Json.truthy ?v] => destruct (Json.truthy v); cbn
    end;
  try discriminate;
  repeat match goal with
    | |- context [client_method ?m ?a ?s] =>
        let E := fresh "E" in
        pose proof (Hquiet m a s) as E;
        destruct (client_method m a s) as [[?|?] [? ?]]; cbn in *
    end;
  try discriminate; try congruence.

Lemma route_known name arguments st :
  (∀ m a st0, fst (client_method m a st0) ≠ Raise (ValueError (unknown_tool name))) →
  name ∈ tool_names →
  fst (route client_method py_repr name arguments st)
  ≠ Raise (ValueError (unknown_tool name)).
Proof.
  intros Hquiet Hin. apply list_elem_of_In in Hin. unfold tool_names in Hin.
  simpl in Hin.
  repeat (destruct Hin as [<-|Hin]; [settle_route Hquiet|]).
  destruct Hin.
Qed.

End RoutingProofs.

(** X15.  A tool is reported as unknown exactly when it is not one of the
    registered names: the routing by name prefix sends every registered name
    to the handler that knows it, and every other name to a handler that
    does not.  (The client's own methods are assumed not to raise the very
    message of the report.) *)
Theorem unknown_exactly_when_unregistered
    (client_method : string → list json → M json) (py_repr : json → string)
    (name : string) (arguments : list (string * json)) (st : GState) :
  (∀ m a st0, fst (client_method m a st0) ≠ Raise (ValueError (unknown_tool name))) →
  fst (route client_method py_repr name arguments st)
    = Raise (ValueError ("Unknown tool: " +:+ name))
  ↔ name ∉ tool_names.
Proof.
  intros Hquiet. split.
  - intros Hunknown Hin.
    apply (route_known client_method py_repr name arguments st Hquiet Hin Hunknown).
  - intros Hnot.
    rewrite (route_unknown client_method py_repr name arguments st Hnot). reflexivity.
Qed.

Lemma sample_method_quiet name m a (st0 : State) :
  fst (sample_method m a st0) ≠ Raise (ValueError (unknown_tool name)).
Proof. discriminate. Defined.

Lemma unknown_exactly_when_unregistered_witness :
  fst (route sample_method sample_repr "citrix_machine_reboot" []
         (None, world_with (Raise ConnectionError) []))
  = Raise (ValueError "Unknown tool: citrix_machine_reboot").
Proof.
  apply (proj2 (unknown_exactly_when_unregistered sample_method sample_repr
                  "citrix_machine_reboot" []
                  (None, world_with (Raise ConnectionError) [])
                  (sample_method_quiet _))).
  exact not_a_tool_sample.
Defined.

(** X16.  Required arguments are checked before the client is used.  When
    the arguments a tool needs are missing or falsy (zero and the empty
    string included), the handler raises its own error and the world is
    untouched: no method of the client is called, whatever the methods would
    do.  The only effect is that the global client exists afterwards. *)
Theorem validation_precedes_client
    (client_method : string → list json → M json) (py_repr : json → string)
    (arguments : list (string * json)) (st : GState) :
  let st0 : GState := (Some (default new_client (fst st)), snd st) in
  let run name := route client_method py_repr name arguments st in
  let falsy k := Json.truthy (arg arguments k) = false in
  (falsy "machine_id" → falsy "name" →
     run "citrix_machine_status"
     = (Raise (ValueError "Either machine_id or name is required"), st0)) ∧
  (falsy "session_key" →
     run "citrix_session_details"
     = (Raise (ValueError "session_key is required"), st0) ∧
     run "citrix_session_logon_metrics"
     = (Raise (ValueError "session_key is required"), st0)) ∧
  (falsy "user_id" → falsy "username" →
     run "citrix_user_details"
     = (Raise (ValueError "Either user_id or username is required"), st0)) ∧
  (falsy "entity" →
     run "citrix_query_raw" = (Raise (ValueError "entity is required"), st0) ∧
     run "citrix_entity_count" = (Raise (ValueError "entity is required"), st0)) ∧
  (falsy "entity" ∨ falsy "apply" →
     run "citrix_aggregate"
     = (Raise (ValueError "entity and apply are required"), st0)).
Proof.
  intros st0 run falsy. unfold run, falsy, st0.
  unfold route, machines_handle_tool, sessions_handle_tool, users_handle_tool,
    analytics_handle_tool, get_global_client, bind, raise.
  cbn. split; [|split; [|split; [|split]]].
  - intros -> ->. reflexivity.
  - intros ->. split; reflexivity.
  - intros -> ->. reflexivity.
  - intros ->. split; reflexivity.
  - intros [->| ->]; [reflexivity|].
    destruct (Json.truthy (arg arguments "entity")); reflexivity.
Qed.

Lemma validation_precedes_client_witness :
  route sample_method sample_repr "citrix_machine_status"
    [("machine_id", JInt 0); ("name", JStr "")]
    (None, world_with (Raise ConnectionError) [])
  = (Raise (ValueError "Either machine_id or name is required"),
     (Some new_client, world_with (Raise ConnectionError) [])) ∧
  route sample_method sample_repr "citrix_aggregate" [("entity", JStr "Sessions")]
    (None, world_with (Raise ConnectionError) [])
  = (Raise (ValueError "entity and apply are required"),
     (Some new_client, world_with (Raise ConnectionError) [])).
Proof.
  split.
  - apply (proj1 (validation_precedes_client sample_method sample_repr
                    [("machine_id", JInt 0); ("name", JStr "")]
                    (None, world_with (Raise ConnectionError) []))); reflexivity.
  - apply (proj2 (proj2 (proj2 (proj2 (validation_precedes_client sample_method
                    sample_repr [("entity", JStr "Sessions")]
                    (None, world_with (Raise ConnectionError) [])))))).
    right. reflexivity.
Defined.

(** ** Lookups by name *)

Lemma sent_app a b : sent (a ++ b) = sent a ++ sent b.
Proof. unfold sent. apply flat_map_app. Qed.

Lemma sent_wire tr : sent (wire tr) = sent tr.
Proof.
  unfold sent, wire. induction tr as [|e tr IH]; simpl; [reflexivity|].
  destruct e; simpl; rewrite IH; reflexivity.
Qed.

Lemma sent_follow_ups sess us : sent (follow_ups sess us) = map (λ u, (u, None)) us.
Proof.
  unfold sent, follow_ups. induction us as [|u us IH]; simpl; [reflexivity|].
  f_equal. exact IH.
Qed.

Lemma query_pages_sent env entity opts (st : State) ps us rest :
  auth_ready env (snd st) →
  paged ps us →
  data_script (snd st) = arrivals ps ++ rest →
  ∃ st',
    query env entity opts st = (Ok (all_records ps), st') ∧
    data_script (snd st') = rest ∧
    auth_ready env (snd st') ∧
    sent (trace (snd st')) =
      sent (trace (snd st)) ++
      (base_url env +:+ "/" +:+ entity, Some (query_params opts)) ::
      map (λ u, (u, None)) us.
Proof.
  intros Hready Hpaged Hscript.
  destruct (query_pages_run env entity opts st ps us rest Hready Hpaged Hscript)
    as (st' & Hq & Hw & Hd).
  exists st'. split; [exact Hq|]. split; [exact Hd|]. split.
  - destruct (query_terminates env entity opts st) as (out & _ & Hout & Hf).
    rewrite Hq in Hout. subst out. eapply query_ready_after; eassumption.
  - rewrite <- (sent_wire (trace (snd st'))), Hw, sent_app, sent_wire.
    f_equal. change (EvRequest (session_ref st) "GET" (base_url env +:+ "/" +:+ entity)
                       (Some (query_params opts)) :: follow_ups (session_ref st) us)
      with ([EvRequest (session_ref st) "GET" (base_url env +:+ "/" +:+ entity)
               (Some (query_params opts))] ++ follow_ups (session_ref st) us).
    rewrite sent_app, sent_follow_ups. reflexivity.
Qed.

(** X17.  The lookups by name ask for one record ($top is 1) with the name
    put between quotes in the filter, and return the first record of what
    comes back, or [None] when nothing does.  The pagination is followed all
    the same: every page the server links is requested, though only the
    first record is used. *)
Theorem lookup_by_name_takes_first env name (st : State) ps us rest :
  auth_ready env (snd st) →
  paged ps us →
  data_script (snd st) = arrivals ps ++ rest →
  (∃ st',
     get_machine_by_name env name st
       = (Ok (match concat (map snd ps) with x :: _ => x | [] => JNull end), st') ∧
     data_script (snd st') = rest ∧
     sent (trace (snd st')) =
       sent (trace (snd st)) ++
       (base_url env +:+ "/" +:+ "Machines",
        Some (<["$top" := PInt 1]>
              (<["$filter" := PStr ("Name eq '" +:+ name +:+ "'")]> ∅))) ::
       map (λ u, (u, None)) us) ∧
  (∃ st',
     get_user_by_name env name st
       = (Ok (match concat (map snd ps) with x :: _ => x | [] => JNull end), st') ∧
     data_script (snd st') = rest ∧
     sent (trace (snd st')) =
       sent (trace (snd st)) ++
       (base_url env +:+ "/" +:+ "Users",
        Some (<["$top" := PInt 1]>
              (<["$filter" := PStr ("UserName eq '" +:+ name +:+ "'")]> ∅))) ::
       map (λ u, (u, None)) us).
Proof.
  intros Hready Hpaged Hscript. split.
  - destruct (query_pages_sent env "Machines"
                (mkOpts (Some ("Name eq '" +:+ name +:+ "'")) None None (Some 1) None
                   None false) st ps us rest Hready Hpaged Hscript)
      as (st' & Hq & Hd & _ & Hsent).
    exists st'. split; [|split; [exact Hd|exact Hsent]].
    unfold get_machine_by_name, bind. rewrite Hq. reflexivity.
  - destruct (query_pages_sent env "Users"
                (mkOpts (Some ("UserName eq '" +:+ name +:+ "'")) None None (Some 1)
                   None None false) st ps us rest Hready Hpaged Hscript)
      as (st' & Hq & Hd & _ & Hsent).
    exists st'. split; [|split; [exact Hd|exact Hsent]].
    unfold get_user_by_name, bind. rewrite Hq. reflexivity.
Qed.

Lemma page_machine_is_page :
  is_page page_machine [JObj [("Id", JInt 42); ("Name", JStr "vda1")]] None.
Proof.
  split; [discriminate|]. split; [reflexivity|]. eexists. split; [reflexivity|].
  split; [left; reflexivity|reflexivity].
Defined.

Lemma page_empty_is_page : is_page page_empty [] None.
Proof.
  split; [discriminate|]. split; [reflexivity|]. eexists. split; [reflexivity|].
  split; [left; reflexivity|reflexivity].
Defined.

Lemma lookup_by_name_takes_first_witness :
  ∃ st',
    get_machine_by_name env_onprem_ready "vda1"
      (new_client, world_with (Raise ConnectionError) [Ok page_1; Ok page_2])
    = (Ok (JInt 1), st') ∧
    data_script (snd st') = [] ∧
    sent (trace (snd st')) =
      [] ++
      [("https://ddc.corp/Citrix/Monitor/OData/v4/Data/Machines",
        Some (<["$top" := PInt 1]> (<["$filter" := PStr "Name eq 'vda1'"]> ∅)));
       ("https://ddc.corp/next?$skip=2", None)].
Proof.
  apply (proj1 (lookup_by_name_takes_first env_onprem_ready "vda1"
                  (new_client,
                   world_with (Raise ConnectionError) [Ok page_1; Ok page_2])
                  [(page_1, [JInt 1; JInt 2]); (page_2, [JInt 3])]
                  ["https://ddc.corp/next?$skip=2"] []
                  (auth_ready_onprem_sample _)
                  (paged_next _ _ _ _ _ page_1_is_page (paged_last _ _ page_2_is_page))
                  eq_refl)).
Defined.

(** ** Targets given by identifier or by name *)

Lemma truthy_int_or_none o : Json.truthy (int_or_none o) = truthy_int o.
Proof. destruct o; reflexivity. Qed.

(** X18.  With no usable target (no name, and an identifier that is
    missing or zero), the metrics, the failure log and the user's sessions
    return the empty list at once: nothing is sent and the state is
    untouched, with or without credentials.  The load indexes do not: they
    ask the server for every load index, with no filter. *)
Theorem no_target_given env (py_repr : json → string)
    (id : option Z) (name : option string) (st : State) :
  PyStr.truthy_opt name = false → truthy_int id = false →
  get_machine_metrics env py_repr id name st = (Ok [], st) ∧
  get_machine_failures env py_repr id name st = (Ok [], st) ∧
  get_user_sessions env py_repr id name st = (Ok [], st) ∧
  get_load_indexes env py_repr id name st =
    query env "LoadIndexes"
      (mkOpts None None (Some "CreatedDate desc") None None None false) st ∧
  query_params (mkOpts None None (Some "CreatedDate desc") None None None false)
    = <["$orderby" := PStr "CreatedDate desc"]> ∅.
Proof.
  intros Hname Hid.
  unfold get_machine_metrics, get_machine_failures, get_user_sessions,
    get_load_indexes, resolve_machine_id, bind, ret.
  rewrite Hname, truthy_int_or_none, Hid. repeat split.
Qed.

Lemma no_target_given_witness :
  let st := (new_client, world_with (Raise ConnectionError) [Ok page_2]) in
  get_machine_metrics ∅ sample_repr (Some 0) (Some "") st = (Ok [], st) ∧
  fst (get_load_indexes env_onprem_ready sample_repr (Some 0) (Some "") st)
  = Ok [JInt 3].
Proof.
  intros st.
  destruct (no_target_given ∅ sample_repr (Some 0) (Some "") st eq_refl eq_refl)
    as (Hmetrics & _).
  destruct (no_target_given env_onprem_ready sample_repr (Some 0) (Some "") st
              eq_refl eq_refl)
    as (_ & _ & _ & Hload & _).
  split; [exact Hmetrics|]. rewrite Hload. reflexivity.
Defined.

Lemma resolve_machine_id_named env id name st ms st1 :
  PyStr.truthy name = true →
  query env "Machines"
    (mkOpts (Some ("Name eq '" +:+ name +:+ "'")) None None (Some 1) None None false)
    st = (Ok ms, st1) →
  resolve_machine_id env id (Some name) st =
    ((if Json.truthy (first_or_none ms)
      then dict_get (first_or_none ms) "Id" JNull
      else Ok (int_or_none id)), st1).
Proof.
  intros Hname Hq.
  unfold resolve_machine_id, get_machine_by_name, bind, ret, lift.
  change (PyStr.truthy_opt (Some name)) with (PyStr.truthy name).
  change (default "" (Some name)) with name.
  rewrite Hname, Hq. destruct (Json.truthy (first_or_none ms)); reflexivity.
Qed.

(** X19.  A name that resolves overrides the identifier.  When the lookup
    by name finds a record (a non-empty object), the identifier used is the
    record's Id, whatever identifier the caller gave: the metrics are then
    queried for that Id, and when the record has no Id, or a null or zero
    one, the result is the empty list and no second query is made.  When the
    lookup finds nothing, the caller's identifier is used instead. *)
Theorem name_overrides_identifier env (py_repr : json → string)
    (id : option Z) (name : string) (st : State) ps1 us1 ps2 us2 rest :
  auth_ready env (snd st) →
  PyStr.truthy name = true →
  paged ps1 us1 → paged ps2 us2 →
  data_script (snd st) = arrivals ps1 ++ arrivals ps2 ++ rest →
  (∀ fields more,
     concat (map snd ps1) = JObj fields :: more → fields ≠ [] →
     let found := default JNull (Json.assoc "Id" fields) in
     (Json.truthy found = true →
        ∃ st', get_machine_metrics env py_repr id (Some name) st
                 = (Ok (concat (map snd ps2)), st') ∧
               data_script (snd st') = rest ∧
               ∃ before,
                 sent (trace (snd st')) =
                   before ++
                   (base_url env +:+ "/" +:+ "ResourceUtilization",
                    Some (<["$orderby" := PStr "CreatedDate desc"]>
                          (<["$filter" :=
                               PStr ("MachineId eq " +:+ py_str py_repr found)]> ∅))) ::
                   map (λ u, (u, None)) us2) ∧
     (Json.truthy found = false →
        ∃ st', get_machine_metrics env py_repr id (Some name) st = (Ok [], st') ∧
               data_script (snd st') = arrivals ps2 ++ rest)) ∧
  (concat (map snd ps1) = [] →
     ∃ st1, data_script (snd st1) = arrivals ps2 ++ rest ∧
            get_machine_metrics env py_repr id (Some name) st =
            if truthy_int id
            then query env "ResourceUtilization"
                   (mkOpts (Some ("MachineId eq " +:+ pretty (default 0 id))) None
                      (Some "CreatedDate desc") None None None false) st1
            else (Ok [], st1)).
Proof.
  intros Hready Hname Hp1 Hp2 Hscript.
  destruct (query_pages_sent env "Machines"
              (mkOpts (Some ("Name eq '" +:+ name +:+ "'")) None None (Some 1) None
                 None false) st ps1 us1 (arrivals ps2 ++ rest) Hready Hp1 Hscript)
    as (st1 & Hq & Hd1 & Hready1 & Hsent1).
  unfold all_records in Hq.
  pose proof (resolve_machine_id_named env id name st _ st1 Hname Hq) as Hstart.
  split.
  - intros fields more Hfirst Hne found.
    assert (Htruthy : Json.truthy (JObj fields) = true).
    { destruct fields; [congruence|reflexivity]. }
    rewrite Hfirst in Hstart. cbn [first_or_none] in Hstart.
    rewrite Htruthy in Hstart.
    change (dict_get (JObj fields) "Id" JNull) with (Ok found) in Hstart.
    unfold get_machine_metrics, bind. rewrite Hstart. cbv beta iota. split.
    + intros Hfound. rewrite Hfound. cbn [negb].
      destruct (query_pages_sent env "ResourceUtilization"
                  (mkOpts (Some ("MachineId eq " +:+ py_str py_repr found)) None
                     (Some "CreatedDate desc") None None None false)
                  st1 ps2 us2 rest Hready1 Hp2 Hd1)
        as (st' & Hq2 & Hd2 & _ & Hsent2).
      exists st'. split; [exact Hq2|]. split; [exact Hd2|].
      exists (sent (trace (snd st1))). rewrite Hsent2. reflexivity.
    + intros Hfound. rewrite Hfound. cbn [negb].
      exists st1. split; [reflexivity|exact Hd1].
  - intros Hnone. exists st1. split; [exact Hd1|].
    rewrite Hnone in Hstart. cbn [first_or_none Json.truthy] in Hstart.
    unfold get_machine_metrics, bind. rewrite Hstart. cbv beta iota.
    rewrite truthy_int_or_none.
    destruct id as [n|]; [|reflexivity].
    destruct (truthy_int (Some n)); reflexivity.
Qed.

Lemma name_overrides_identifier_witness :
  ∃ st',
    get_machine_metrics env_onprem_ready sample_repr (Some 7) (Some "vda1")
      (new_client, world_with (Raise ConnectionError) [Ok page_machine; Ok page_2])
    = (Ok [JInt 3], st') ∧
    data_script (snd st') = [] ∧
    ∃ before,
      sent (trace (snd st')) =
        before ++
        [("https://ddc.corp/Citrix/Monitor/OData/v4/Data/ResourceUtilization",
          Some (<["$orderby" := PStr "CreatedDate desc"]>
                (<["$filter" := PStr "MachineId eq 42"]> ∅)))].
Proof.
  destruct (name_overrides_identifier env_onprem_ready sample_repr (Some 7) "vda1"
              (new_client,
               world_with (Raise ConnectionError) [Ok page_machine; Ok page_2])
              [(page_machine, [JObj [("Id", JInt 42); ("Name", JStr "vda1")]])] []
              [(page_2, [JInt 3])] [] []
              (auth_ready_onprem_sample _) eq_refl
              (paged_last _ _ page_machine_is_page)
              (paged_last _ _ page_2_is_page) eq_refl)
    as [Hfound _].
  destruct (Hfound [("Id", JInt 42); ("Name", JStr "vda1")] [] eq_refl
              ltac:(discriminate)) as [Hyes _].
  exact (Hyes eq_refl).
Defined.

(** X20.  The load index of a machine that is not found is everybody's.
    When the name matches no machine and no usable identifier was given,
    [get_load_indexes] still queries, and without any filter: the second
    request carries only the ordering, and its records are returned. *)
Theorem load_index_of_unknown_machine env (py_repr : json → string)
    (id : option Z) (name : string) (st : State) ps1 us1 ps2 us2 rest :
  auth_ready env (snd st) →
  PyStr.truthy name = true →
  paged ps1 us1 → paged ps2 us2 →
  data_script (snd st) = arrivals ps1 ++ arrivals ps2 ++ rest →
  concat (map snd ps1) = [] →
  truthy_int id = false →
  ∃ st',
    get_load_indexes env py_repr id (Some name) st
    = (Ok (concat (map snd ps2)), st') ∧
    data_script (snd st') = rest ∧
    sent (trace (snd st')) =
      sent (trace (snd st)) ++
      ((base_url env +:+ "/" +:+ "Machines",
        Some (<["$top" := PInt 1]>
              (<["$filter" := PStr ("Name eq '" +:+ name +:+ "'")]> ∅))) ::
       map (λ u, (u, None)) us1) ++
      (base_url env +:+ "/" +:+ "LoadIndexes",
       Some (<["$orderby" := PStr "CreatedDate desc"]> ∅)) ::
      map (λ u, (u, None)) us2.
Proof.
  intros Hready Hname Hp1 Hp2 Hscript Hnone Hid.
  destruct (query_pages_sent env "Machines"
              (mkOpts (Some ("Name eq '" +:+ name +:+ "'")) None None (Some 1) None
                 None false) st ps1 us1 (arrivals ps2 ++ rest) Hready Hp1 Hscript)
    as (st1 & Hq & Hd1 & Hready1 & Hsent1).
  unfold all_records in Hq.
  pose proof (resolve_machine_id_named env id name st _ st1 Hname Hq) as Hstart.
  rewrite Hnone in Hstart. cbn [first_or_none Json.truthy] in Hstart.
  destruct (query_pages_sent env "LoadIndexes"
              (mkOpts None None (Some "CreatedDate desc") None None None false)
              st1 ps2 us2 rest Hready1 Hp2 Hd1)
    as (st' & Hq2 & Hd2 & _ & Hsent2).
  exists st'. split; [|split; [exact Hd2|]].
  - unfold get_load_indexes, bind. rewrite Hstart. cbv beta iota.
    rewrite truthy_int_or_none, Hid. exact Hq2.
  - rewrite Hsent2, Hsent1, <- app_assoc. reflexivity.
Qed.

Lemma load_index_of_unknown_machine_witness :
  ∃ st',
    get_load_indexes env_onprem_ready sample_repr None (Some "gone")
      (new_client, world_with (Raise ConnectionError) [Ok page_empty; Ok page_2])
    = (Ok [JInt 3], st') ∧
    data_script (snd st') = [] ∧
    sent (trace (snd st')) =
      [] ++
      [("https://ddc.corp/Citrix/Monitor/OData/v4/Data/Machines",
        Some (<["$top" := PInt 1]> (<["$filter" := PStr "Name eq 'gone'"]> ∅)))] ++
      [("https://ddc.corp/Citrix/Monitor/OData/v4/Data/LoadIndexes",
        Some (<["$orderby" := PStr "CreatedDate desc"]> ∅))].
Proof.
  exact (load_index_of_unknown_machine env_onprem_ready sample_repr None "gone"
           (new_client,
            world_with (Raise ConnectionError) [Ok page_empty; Ok page_2])
           [(page_empty, [])] [] [(page_2, [JInt 3])] [] []
           (auth_ready_onprem_sample _) eq_refl
           (paged_last _ _ page_empty_is_page)
           (paged_last _ _ page_2_is_page) eq_refl eq_refl eq_refl).
Defined.

(** ** Filters assembled by the listing methods *)

Lemma join_first_nonempty sep f fs :
  PyStr.truthy f = true → PyStr.truthy (PyStr.join sep (f :: fs)) = true.
Proof. intros Hf. destruct f; [discriminate Hf|]. destruct fs; reflexivity. Qed.

Lemma combine_filters_param filters sel ob top skip ex cnt :
  Forall (λ f, PyStr.truthy f = true) filters →
  query_params (mkOpts (combine_filters filters) sel ob top skip ex cnt) !! "$filter"
  = PStr <$> combine_filters filters.
Proof.
  intros Hall. rewrite query_params_filter. cbn [q_filter].
  destruct filters as [|f fs]; [reflexivity|].
  inversion Hall as [|? ? Hf _]; subst.
  change (combine_filters (f :: fs)) with (Some (PyStr.join " and " (f :: fs))).
  cbn [PyStr.truthy_opt]. rewrite (join_first_nonempty _ _ _ Hf). reflexivity.
Qed.

Lemma combined_query_asks env entity filters ob ex (st : State) ps us rest :
  Forall (λ f, PyStr.truthy f = true) filters →
  auth_ready env (snd st) →
  paged ps us →
  data_script (snd st) = arrivals ps ++ rest →
  asks_with_filter env
    (query env entity (mkOpts (combine_filters filters) None ob None None ex false))
    entity (combine_filters filters) st ps us.
Proof.
  intros Hall Hready Hpaged Hscript.
  destruct (query_pages_sent env entity
              (mkOpts (combine_filters filters) None ob None None ex false)
              st ps us rest Hready Hpaged Hscript)
    as (st' & Hq & _ & _ & Hsent).
  exists st', (query_params (mkOpts (combine_filters filters) None ob None None ex false)).
  split; [exact Hq|]. split; [exact Hsent|].
  apply combine_filters_param, Hall.
Qed.

Lemma given_fragment_truthy (o : option string) :
  Forall (λ f, PyStr.truthy f = true)
    (if PyStr.truthy_opt o then [default "" o] else []).
Proof.
  destruct o as [s|]; [|constructor]. cbn [PyStr.truthy_opt].
  destruct (PyStr.truthy s) eqn:E; constructor; [exact E|constructor].
Qed.

Lemma quoted_fragment_truthy (c : bool) (pre : string) (rest : string) :
  PyStr.truthy pre = true →
  Forall (λ f, PyStr.truthy f = true) (if c then [pre +:+ rest] else []).
Proof.
  intros Hpre. destruct c; constructor; [|constructor].
  destruct pre; [discriminate Hpre|reflexivity].
Qed.

Lemma list_sessions_filters_truthy filter active_only user_name machine_name :
  Forall (λ f, PyStr.truthy f = true)
    (list_sessions_filters filter active_only user_name machine_name).
Proof.
  unfold list_sessions_filters. repeat (apply Forall_app; split).
  - apply given_fragment_truthy.
  - destruct active_only; repeat constructor.
  - apply (quoted_fragment_truthy _ "User/UserName eq '"). reflexivity.
  - apply (quoted_fragment_truthy _ "Machine/Name eq '"). reflexivity.
Qed.

Lemma list_connections_filters_truthy filter session_key :
  Forall (λ f, PyStr.truthy f = true) (list_connections_filters filter session_key).
Proof.
  unfold list_connections_filters. repeat (apply Forall_app; split).
  - apply given_fragment_truthy.
  - apply (quoted_fragment_truthy _ "SessionKey eq '"). reflexivity.
Qed.

Lemma list_app_instances_filters_truthy app_id app_name active_only :
  Forall (λ f, PyStr.truthy f = true)
    (list_app_instances_filters app_id app_name active_only).
Proof.
  unfold list_app_instances_filters. repeat (apply Forall_app; split).
  - apply (quoted_fragment_truthy _ "ApplicationId eq "). reflexivity.
  - apply (quoted_fragment_truthy _ "Application/Name eq '"). reflexivity.
  - destruct active_only; repeat constructor.
Qed.

(** X21.  The listings of sessions, connections and application instances
    send a $filter exactly when a criterion was given.  Each returns the
    records of one query of its entity whose $filter is the fragments joined
    by [ and ]; the parameter is absent exactly when every criterion is
    missing, empty, false or, for the application identifier, zero. *)
Theorem listings_filter_when_asked env (st : State) ps us rest
    (filter user_name machine_name session_key app_name : option string)
    (active_only : bool) (app_id : option Z) :
  auth_ready env (snd st) →
  paged ps us →
  data_script (snd st) = arrivals ps ++ rest →
  (asks_with_filter env (list_sessions env filter active_only user_name machine_name)
     "Sessions"
     (combine_filters (list_sessions_filters filter active_only user_name machine_name))
     st ps us ∧
   (combine_filters (list_sessions_filters filter active_only user_name machine_name)
    = None ↔
    PyStr.truthy_opt filter = false ∧ active_only = false ∧
    PyStr.truthy_opt user_name = false ∧ PyStr.truthy_opt machine_name = false)) ∧
  (asks_with_filter env (list_connections env filter session_key) "Connections"
     (combine_filters (list_connections_filters filter session_key)) st ps us ∧
   (combine_filters (list_connections_filters filter session_key) = None ↔
    PyStr.truthy_opt filter = false ∧ PyStr.truthy_opt session_key = false)) ∧
  (asks_with_filter env (list_app_instances env app_id app_name active_only)
     "ApplicationInstances"
     (combine_filters (list_app_instances_filters app_id app_name active_only))
     st ps us ∧
   (combine_filters (list_app_instances_filters app_id app_name active_only) = None ↔
    truthy_int app_id = false ∧ PyStr.truthy_opt app_name = false ∧
    active_only = false)).
Proof.
  intros Hready Hpaged Hscript. split; [|split]; split.
  - apply (combined_query_asks env "Sessions" _ _ _ st ps us rest);
      [apply list_sessions_filters_truthy|assumption..].
  - unfold list_sessions_filters.
    destruct (PyStr.truthy_opt filter), active_only, (PyStr.truthy_opt user_name),
      (PyStr.truthy_opt machine_name); simpl; split; intros H;
      try discriminate H; try reflexivity; try (repeat split; reflexivity);
      destruct H as (? & ? & ? & ?); discriminate.
  - apply (combined_query_asks env "Connections" _ _ _ st ps us rest);
      [apply list_connections_filters_truthy|assumption..].
  - unfold list_connections_filters.
    destruct (PyStr.truthy_opt filter), (PyStr.truthy_opt session_key); simpl;
      split; intros H; try discriminate H; try reflexivity;
      try (repeat split; reflexivity); destruct H as (? & ?); discriminate.
  - apply (combined_query_asks env "ApplicationInstances" _ _ _ st ps us rest);
      [apply list_app_instances_filters_truthy|assumption..].
  - unfold list_app_instances_filters.
    destruct (truthy_int app_id), (PyStr.truthy_opt app_name), active_only; simpl;
      split; intros H; try discriminate H; try reflexivity;
      try (repeat split; reflexivity); destruct H as (? & ? & ?); discriminate.
Qed.

Lemma listings_filter_when_asked_witness :
  asks_with_filter env_onprem_ready
    (list_sessions env_onprem_ready None true (Some "ann") None) "Sessions"
    (Some "EndDate eq null and User/UserName eq 'ann'")
    (new_client, world_with (Raise ConnectionError) [Ok page_2])
    [(page_2, [JInt 3])] [].
Proof.
  exact (proj1 (proj1
    (listings_filter_when_asked env_onprem_ready
       (new_client, world_with (Raise ConnectionError) [Ok page_2])
       [(page_2, [JInt 3])] [] [] None (Some "ann") None None None true None
       (auth_ready_onprem_sample _) (paged_last _ _ page_2_is_page) eq_refl))).
Defined.

(** ** Methods that look back a number of days *)

Lemma dated_filters_param parts date :
  PyStr.truthy date = true →
  combine_filters (parts ++ [date]) = Some (PyStr.join " and " (parts ++ [date])).
Proof. intros _. destruct parts; reflexivity. Qed.

Lemma start_date_spec (utcnow : World → Z) (isoformat : Z → string) days (st : State) :
  (days_before_ok (utcnow (snd st)) days →
     start_date utcnow isoformat days st =
     (Ok (isoformat (utcnow (snd st) - 86400000000 * days) +:+ "Z"), st)) ∧
  (¬ days_before_ok (utcnow (snd st)) days →
     start_date utcnow isoformat days st = (Raise OverflowError, st)).
Proof.
  unfold start_date, datetime_utcnow, bind, lift, ret, days_before_ok,
    timedelta_days, datetime_sub. split.
  - intros [[H1 H2] [H3 H4]]. apply Z.leb_le in H1, H2, H3, H4.
    rewrite H1, H2. simpl. rewrite H3, H4. reflexivity.
  - intros Hnot.
    destruct (-999999999 <=? days) eqn:E1; [|reflexivity].
    destruct (days <=? 999999999) eqn:E2; [|reflexivity]. simpl.
    destruct (0 <=? utcnow (snd st) - 86400000000 * days) eqn:E3; [|reflexivity].
    destruct (utcnow (snd st) - 86400000000 * days <=? datetime_max) eqn:E4;
      [|reflexivity].
    exfalso. apply Hnot. apply Z.leb_le in E1, E2, E3, E4. repeat split; assumption.
Qed.

(** X22.  The three methods that look back [days] days always restrict by
    date.  When the moment [days] days before the UTC reading of the clock
    is a [datetime], the one query they send carries a $filter whose last
    fragment compares the entity's date with that moment in ISO format,
    suffixed with Z; the optional fragments come before it.  When it is not
    (a look-back before year 1 or beyond year 9999, or of more than
    999999999 days), they raise OverflowError with nothing sent and the
    state untouched. *)
Theorem lookback_always_filters_by_date env (utcnow : World → Z)
    (isoformat : Z → string) (st : State) ps us rest
    (filter delivery_group app_name : option string) (days : Z) :
  auth_ready env (snd st) →
  paged ps us →
  data_script (snd st) = arrivals ps ++ rest →
  let t := utcnow (snd st) in
  (days_before_ok t days →
   let since := isoformat (t - 86400000000 * days) +:+ "Z" in
   asks_with_filter env
     (get_connection_failures env utcnow isoformat filter delivery_group days)
     "ConnectionFailureLogs"
     (Some (PyStr.join " and "
              ((if PyStr.truthy_opt filter then [default "" filter] else []) ++
               (if PyStr.truthy_opt delivery_group
                then ["DesktopGroup/Name eq '" +:+ default "" delivery_group +:+ "'"]
                else []) ++
               ["FailureDate ge " +:+ since])))
     st ps us ∧
   asks_with_filter env (get_app_errors env utcnow isoformat app_name days)
     "ApplicationFaults"
     (Some (PyStr.join " and "
              ((if PyStr.truthy_opt app_name
                then ["Application/Name eq '" +:+ default "" app_name +:+ "'"]
                else []) ++
               ["CreatedDate ge " +:+ since])))
     st ps us ∧
   asks_with_filter env (get_failure_summary env utcnow isoformat delivery_group days)
     "FailureLogSummaries"
     (Some (PyStr.join " and "
              ((if PyStr.truthy_opt delivery_group
                then ["DesktopGroup/Name eq '" +:+ default "" delivery_group +:+ "'"]
                else []) ++
               ["SummaryDate ge " +:+ since])))
     st ps us) ∧
  (¬ days_before_ok t days →
   get_connection_failures env utcnow isoformat filter delivery_group days st
     = (Raise OverflowError, st) ∧
   get_app_errors env utcnow isoformat app_name days st = (Raise OverflowError, st) ∧
   get_failure_summary env utcnow isoformat delivery_group days st
     = (Raise OverflowError, st)).
Proof.
  intros Hready Hpaged Hscript t.
  destruct (start_date_spec utcnow isoformat days st) as [Hin Hout]. fold t in Hin, Hout.
  split.
  2: { intros Hbad. specialize (Hout Hbad).
       unfold get_connection_failures, get_app_errors, get_failure_summary, bind.
       rewrite Hout. repeat split. }
  intros Hok since. specialize (Hin Hok). fold since in Hin.
  split; [|split].
  - destruct (combined_query_asks env "ConnectionFailureLogs"
                (connection_failures_filters filter delivery_group since)
                (Some "FailureDate desc") (Some ["DesktopGroup"]) st ps us rest)
      as (st' & params & Hq & Hsent & Hparam); try assumption.
    { unfold connection_failures_filters. repeat (apply Forall_app; split).
      - apply given_fragment_truthy.
      - apply (quoted_fragment_truthy _ "DesktopGroup/Name eq '"). reflexivity.
      - repeat constructor. }
    exists st', params. split; [|split; [exact Hsent|]].
    + unfold get_connection_failures, bind. rewrite Hin. exact Hq.
    + rewrite Hparam. unfold connection_failures_filters.
      rewrite app_assoc, dated_filters_param, <- app_assoc by reflexivity. reflexivity.
  - destruct (combined_query_asks env "ApplicationFaults"
                (app_errors_filters app_name since)
                (Some "CreatedDate desc") (Some ["Application"]) st ps us rest)
      as (st' & params & Hq & Hsent & Hparam); try assumption.
    { unfold app_errors_filters. repeat (apply Forall_app; split).
      - apply (quoted_fragment_truthy _ "Application/Name eq '"). reflexivity.
      - repeat constructor. }
    exists st', params. split; [|split; [exact Hsent|]].
    + unfold get_app_errors, bind. rewrite Hin. exact Hq.
    + rewrite Hparam. unfold app_errors_filters.
      rewrite dated_filters_param by reflexivity. reflexivity.
  - destruct (combined_query_asks env "FailureLogSummaries"
                (failure_summary_filters delivery_group since)
                (Some "SummaryDate desc") (Some ["DesktopGroup"]) st ps us rest)
      as (st' & params & Hq & Hsent & Hparam); try assumption.
    { unfold failure_summary_filters. repeat (apply Forall_app; split).
      - apply (quoted_fragment_truthy _ "DesktopGroup/Name eq '"). reflexivity.
      - repeat constructor. }
    exists st', params. split; [|split; [exact Hsent|]].
    + unfold get_failure_summary, bind. rewrite Hin. exact Hq.
    + rewrite Hparam. unfold failure_summary_filters.
      rewrite dated_filters_param by reflexivity. reflexivity.
Qed.

Lemma lookback_always_filters_by_date_witness :
  let st : State := (new_client, world_with (Raise ConnectionError) [Ok page_2]) in
  asks_with_filter env_onprem_ready
    (get_app_errors env_onprem_ready sample_utcnow sample_iso (Some "notepad") 7)
    "ApplicationFaults"
    (Some "Application/Name eq 'notepad' and CreatedDate ge T63839059200000000Z")
    st [(page_2, [JInt 3])] [] ∧
  get_app_errors env_onprem_ready sample_utcnow sample_iso (Some "notepad") 800000 st
  = (Raise OverflowError, st).
Proof.
  intros st.
  destruct (lookback_always_filters_by_date env_onprem_ready sample_utcnow sample_iso
              st [(page_2, [JInt 3])] [] [] None None (Some "notepad") 7
              (auth_ready_onprem_sample _) (paged_last _ _ page_2_is_page) eq_refl)
    as [Hin _].
  destruct (lookback_always_filters_by_date env_onprem_ready sample_utcnow sample_iso
              st [(page_2, [JInt 3])] [] [] None None (Some "notepad") 800000
              (auth_ready_onprem_sample _) (paged_last _ _ page_2_is_page) eq_refl)
    as [_ Hout].
  split.
  - apply (proj1 (proj2 (Hin ltac:(vm_compute; repeat split; discriminate)))).
  - apply (proj1 (proj2 (Hout ltac:(vm_compute; intros [_ [H _]]; apply H; reflexivity)))).
Defined.
